(** * UID lifecycle of the dashboard: a shallow embedding of
      [server/routes.ts], [server/storage.ts], [server/mongodb-models.ts],
      [server/api-client.ts] (both revisions) and [server/api-handler.ts].

    The development is organised like the server:
    - [Number]: JavaScript numbers (binary64) and the numeric strings the
      handlers pass around ([toFixed], [toString], [parseFloat]);
    - [JSDate]: the part of [Date] that [handleRenewUid] uses;
    - [Mongo]: documents, schemas and the collection primitives of Mongoose;
    - [Eff]: the effects of a request handler (database, outgoing HTTP,
      exceptions) as a state-and-error monad;
    - [Storage]: the methods of [MongoDBStorage];
    - [ApiClient]: the interface of [UIDBypassClient] and its two revisions;
    - [Routes]: the session-authenticated handlers of [registerRoutes];
    - [ApiHandler]: the API-key handlers of [registerApiHandler];
    - [MongoDBStorage], [OwnerRoutes], [ApiHandlerAdd]: further methods of
      the storage, the owner's routes, and the two add actions of the API.
    The theorems follow the definitions. *)

From Stdlib Require Import ZArith QArith Qround Qabs Qpower Lia Lqa.
From Stdlib Require Import List String Ascii Bool DecimalString.
From Stdlib Require Sorted Permutation.
Import ListNotations.

Set Implicit Arguments.

(* ================================================================= *)
(** ** JavaScript numbers *)

Module Number.

Open Scope Q_scope.

(** A finite JavaScript number is the rational it denotes.  Every arithmetic
    operation computes the exact rational result and rounds it to the nearest
    value with a 53-bit significand, ties to even, as IEEE 754 binary64 does.
    The exponent is not bounded: infinities, NaN and the loss of precision of
    subnormals are outside the model, so it agrees with JavaScript on
    magnitudes between 2^-1022 and 2^1024. *)
Definition number := Q.

(** [ilog2 a] is the binary exponent of a positive rational:
    [2^(ilog2 a) <= a < 2^(ilog2 a + 1)]. *)
Definition ilog2 (a : Q) : Z :=
  let e0 := (Z.log2 (Qnum a) - Z.log2 (Zpos (Qden a)))%Z in
  if Qle_bool (2 ^ e0) a then e0 else (e0 - 1)%Z.

(** Unit in the last place of a binary64 value of magnitude [a]. *)
Definition ulp (a : Q) : Q := 2 ^ (ilog2 a - 52).

(** Nearest integer, ties to the even one. *)
Definition nearest_even (s : Q) : Z :=
  let k := Qfloor s in
  let r := s - inject_Z k in
  if Qlt_le_dec r (1#2) then k
  else if Qlt_le_dec (1#2) r then (k + 1)%Z
  else if Z.even k then k else (k + 1)%Z.

(** Rounding of an exact result to binary64. *)
Definition rnd (q : Q) : number :=
  if Qeq_bool q 0 then 0
  else let a := Qabs q in
       let m := inject_Z (nearest_even (a / ulp a)) * ulp a in
       Qred (if Qlt_le_dec q 0 then - m else m).

(** A numeric literal of the source text, [c/100]: [lit 233] is [2.33]. *)
Definition lit (c : Z) : number := rnd (c # 100).

(** An integer-valued number, as [Date.now()] or [getDate()] return. *)
Definition ofZ (n : Z) : number := rnd (inject_Z n).

Definition add (x y : number) : number := rnd (x + y).
Definition sub (x y : number) : number := rnd (x - y).
Definition mul (x y : number) : number := rnd (x * y).
Definition div (x y : number) : number := rnd (x / y).

(** [x < y], [x <= y] and [x === y] on numbers. *)
Definition ltb (x y : number) : bool := negb (Qle_bool y x).
Definition leb (x y : number) : bool := Qle_bool x y.
Definition eqb (x y : number) : bool := Qeq_bool x y.

(** Truthiness: a finite number is falsy exactly when it is zero. *)
Definition truthy (x : number) : bool := negb (Qeq_bool x 0).

(** [Math.ceil], and ECMAScript's ToIntegerOrInfinity (truncation). *)
Definition Math_ceil (x : number) : number := inject_Z (Qceiling x).
Definition ToInteger (x : number) : Z :=
  if Qlt_le_dec x 0 then Qceiling x else Qfloor x.

(** [x.toFixed(2)]: the integer [n] for which [n/100 - x] is closest to zero,
    the larger one on a tie, computed on the exact value of [x]; for a
    negative [x] the digits are those of [-x] behind a minus sign.  The result
    is the number of hundredths of the decimal string. *)
Definition toFixed2_cents (x : number) : Z :=
  if Qlt_le_dec x 0 then (- Qfloor (- x * 100 + (1#2)))%Z
  else Qfloor (x * 100 + (1#2)).

(** The strings that hold numbers in the handlers.  [Rendered x] is
    [x.toString()], the shortest decimal that reads back as [x];
    [Fixed2 c] is a decimal with two fractional digits and value [c/100],
    as [toFixed(2)] prints. *)
Inductive numstr : Type :=
| Rendered (x : number)
| Fixed2 (cents : Z).

Definition toString (x : number) : numstr := Rendered x.
Definition toFixed2 (x : number) : numstr := Fixed2 (toFixed2_cents x).

(** [parseFloat] reads the decimal and rounds it to the nearest number. *)
Definition parseFloat (s : numstr) : number :=
  match s with
  | Rendered x => x
  | Fixed2 c => rnd (c # 100)
  end.

(** [parseInt] reads the leading integer digits.  A rendered number is in
    positional notation when its magnitude lies in [1e-6, 1e21). *)
Definition parseInt (s : numstr) : number :=
  match s with
  | Rendered x => inject_Z (ToInteger x)
  | Fixed2 c => rnd (inject_Z (Z.quot c 100))
  end.

(** Two-decimal amounts below 2^42, in hundredths: the range in which the
    handlers' arithmetic on balances is exact to the cent. *)
Definition cents_cap : Z := 439804651110400.

End Number.

(* ================================================================= *)
(** ** Dates *)

Module JSDate.

Import Number.
Open Scope Z_scope.

(** A valid [Date] is its time value, milliseconds since the epoch, UTC. *)
Definition msPerDay : Z := 86400000.
Definition msPerHour : Z := 3600000.
Definition Day (t : Z) : Z := t / msPerDay.
Definition TimeWithinDay (t : Z) : Z := t mod msPerDay.

(** Day of the month (1..31) of a time value, by the proleptic Gregorian
    calendar of ECMAScript. *)
Definition DateFromTime (t : Z) : Z :=
  let z := Day t + 719468 in
  let era := z / 146097 in
  let doe := z - era * 146097 in
  let yoe := (doe - doe / 1460 + doe / 36524 - doe / 146096) / 365 in
  let doy := doe - (365 * yoe + yoe / 4 - yoe / 100) in
  let mp := (5 * doy + 2) / 153 in
  doy - (153 * mp + 2) / 5 + 1.

(** [TimeClip]: a time value beyond 8.64e15 ms makes the date invalid. *)
Definition TimeClip (t : Z) : option Z :=
  if Z.abs t <=? 8640000000000000 then Some t else None.

(** The local time zone of the server process: [LocalTZA t isUTC] is the
    offset in milliseconds in force at [t]. *)
Definition Zone := Z -> bool -> Z.
Definition LocalTime (tz : Zone) (t : Z) : Z := t + tz t true.
Definition UTC (tz : Zone) (t : Z) : Z := t - tz t false.

(** [d.getDate()]: day of the month in local time. *)
Definition getDate (tz : Zone) (t : Z) : Z := DateFromTime (LocalTime tz t).

(** [d.setDate(date)]: the local calendar day becomes day [date] of the
    current local month, the time within the day is kept.  [MakeDay] of the
    current year and month is [Day l - DateFromTime l + 1] for day one, and
    adds [ToIntegerOrInfinity date - 1]. *)
Definition setDate (tz : Zone) (t : Z) (date : number) : option Z :=
  let l := LocalTime tz t in
  let dt := ToInteger date in
  let newDay := Day l - DateFromTime l + dt in
  let newDate := newDay * msPerDay + TimeWithinDay l in
  TimeClip (UTC tz newDate).

(** [new Date(v)] for a number [v]. *)
Definition newDate (v : number) : option Z := TimeClip (ToInteger v).

End JSDate.

(* ================================================================= *)
(** ** Documents and collections ([server/mongodb-models.ts]) *)

Module Mongo.

Import Number.
Open Scope string_scope.

(** Text built by a template literal: literal fragments, interpolated
    strings and interpolated numbers. *)
Inductive piece : Type :=
| Lit (s : string)
| Str (s : string)
| Num (n : numstr).
Definition text := list piece.

(** [IUser], [ISettings], [IApiKey], [IUid], [IActivityLog]: the documents
    of the five collections the handlers touch.  [credits], [cost],
    [duration] and [planId] have schema type [Number]. *)
Record IUser : Type := {
  user_id : string;
  username : string;
  password : string;
  isOwner : bool;
  credits : number;
  isActive : bool;
  user_createdAt : Z;
  lastActive : option Z }.

Record ISettings : Type := {
  baseUrl : option string;
  apiKey : option string;
  updatedAt : Z }.

Record IApiKey : Type := {
  key_id : string;
  key_userId : string;
  key_apiKey : string;
  isEnabled : bool;
  isPaused : bool;
  uidLimit : option number;
  allowedPlans : list number }.

Record IUid : Type := {
  uid_id : string;
  userId : string;
  apiKeyId : option string;
  uidValue : string;
  playerName : option string;
  region : string;
  planId : number;
  duration : number;
  cost : number;
  status : string;
  createdAt : Z;
  expiresAt : Z }.

Record IActivityLog : Type := {
  log_userId : string;
  action : string;
  details : option text;
  log_createdAt : Z }.

(** The database: one list per collection, in insertion order, and the
    supply of fresh [_id]s. *)
Record DB : Type := {
  Users : list IUser;
  SettingsColl : list ISettings;
  Uids : list IUid;
  ActivityLogs : list IActivityLog;
  nextOid : nat }.

Definition oid (n : nat) : string :=
  "oid" ++ DecimalString.NilEmpty.string_of_uint (Nat.to_uint n).

(** The object handed to [new UidModel(...)] / [UidModel.create(...)]:
    any path may be left out. *)
Record UidFields : Type := {
  f_userId : option string;
  f_apiKeyId : option string;
  f_uidValue : option string;
  f_playerName : option string;
  f_region : option string;
  f_planId : option number;
  f_duration : option number;
  f_cost : option number;
  f_status : option string;
  f_createdAt : option Z;
  f_expiresAt : option Z }.

(** [UidSchema]: the paths declared [required: true] that have no default,
    checked by validation before a document is saved. *)
Definition missing {A} (path : string) (v : option A) : list string :=
  match v with Some _ => [] | None => [path] end.

Definition UidSchema_missing (f : UidFields) : list string :=
  missing "userId" (f_userId f) ++ missing "uidValue" (f_uidValue f) ++
  missing "planId" (f_planId f) ++ missing "duration" (f_duration f) ++
  missing "cost" (f_cost f) ++ missing "expiresAt" (f_expiresAt f).

Definition status_enum (s : string) : bool :=
  (s =? "active") || (s =? "expired") || (s =? "deleted").

Definition required_message (path : string) : string :=
  path ++ ": Path `" ++ path ++ "` is required.".

Definition validation_message (model : string) (paths : list string) : string :=
  model ++ " validation failed: " ++
  String.concat ", " (map required_message paths).

(** The document [UidSchema] builds from the given fields and the schema
    defaults ([region: 'PK'], [status: 'active'], [createdAt: Date.now]);
    [None] when validation rejects it. *)
Definition UidSchema_build (id : string) (now : Z) (f : UidFields) : option IUid :=
  match f_userId f, f_uidValue f, f_planId f, f_duration f, f_cost f, f_expiresAt f with
  | Some u, Some v, Some p, Some d, Some c, Some e =>
      let st := match f_status f with Some s => s | None => "active" end in
      if status_enum st then
        Some {| uid_id := id; userId := u; apiKeyId := f_apiKeyId f;
                uidValue := v; playerName := f_playerName f;
                region := match f_region f with Some r => r | None => "PK" end;
                planId := p; duration := d; cost := c; status := st;
                createdAt := match f_createdAt f with Some t => t | None => now end;
                expiresAt := e |}
      else None
  | _, _, _, _, _, _ => None
  end.

(** Collection primitives, by [_id]. *)
Section Collection.
Variable A : Type.
Variable key : A -> string.

Fixpoint findById (l : list A) (id : string) : option A :=
  match l with
  | [] => None
  | d :: l' => if key d =? id then Some d else findById l' id
  end.

Fixpoint updateById (l : list A) (id : string) (f : A -> A) : list A :=
  match l with
  | [] => []
  | d :: l' => if key d =? id then f d :: l' else d :: updateById l' id f
  end.

Fixpoint deleteById (l : list A) (id : string) : list A :=
  match l with
  | [] => []
  | d :: l' => if key d =? id then l' else d :: deleteById l' id
  end.

End Collection.

(** [.sort({ createdAt: -1 })]: newest first.  MongoDB does not fix the
    order of documents created at the same instant; here the one inserted
    later comes first. *)
Fixpoint insert_desc (d : IUid) (l : list IUid) : list IUid :=
  match l with
  | [] => [d]
  | x :: l' => if (createdAt x <? createdAt d)%Z then d :: l
               else x :: insert_desc d l'
  end.
Definition sort_createdAt_desc (l : list IUid) : list IUid :=
  fold_right insert_desc [] l.

Definition set_status (s : string) (d : IUid) : IUid :=
  {| uid_id := uid_id d; userId := userId d; apiKeyId := apiKeyId d;
     uidValue := uidValue d; playerName := playerName d; region := region d;
     planId := planId d; duration := duration d; cost := cost d;
     status := s; createdAt := createdAt d; expiresAt := expiresAt d |}.

Definition set_uidValue (v : string) (d : IUid) : IUid :=
  {| uid_id := uid_id d; userId := userId d; apiKeyId := apiKeyId d;
     uidValue := v; playerName := playerName d; region := region d;
     planId := planId d; duration := duration d; cost := cost d;
     status := status d; createdAt := createdAt d; expiresAt := expiresAt d |}.

Definition set_renewal (e : Z) (dur : number) (s : string) (d : IUid) : IUid :=
  {| uid_id := uid_id d; userId := userId d; apiKeyId := apiKeyId d;
     uidValue := uidValue d; playerName := playerName d; region := region d;
     planId := planId d; duration := dur; cost := cost d;
     status := s; createdAt := createdAt d; expiresAt := e |}.

Definition set_credits (c : number) (u : IUser) : IUser :=
  {| user_id := user_id u; username := username u; password := password u;
     isOwner := isOwner u; credits := c; isActive := isActive u;
     user_createdAt := user_createdAt u; lastActive := lastActive u |}.

Definition with_Users (l : list IUser) (d : DB) : DB :=
  {| Users := l; SettingsColl := SettingsColl d; Uids := Uids d;
     ActivityLogs := ActivityLogs d; nextOid := nextOid d |}.
Definition with_Uids (l : list IUid) (d : DB) : DB :=
  {| Users := Users d; SettingsColl := SettingsColl d; Uids := l;
     ActivityLogs := ActivityLogs d; nextOid := nextOid d |}.
Definition with_ActivityLogs (l : list IActivityLog) (d : DB) : DB :=
  {| Users := Users d; SettingsColl := SettingsColl d; Uids := Uids d;
     ActivityLogs := l; nextOid := nextOid d |}.
Definition with_fresh (d : DB) : DB :=
  {| Users := Users d; SettingsColl := SettingsColl d; Uids := Uids d;
     ActivityLogs := ActivityLogs d; nextOid := S (nextOid d) |}.

End Mongo.

(* ================================================================= *)
(** ** Effects of a request handler *)

Module Eff.

Import Number Mongo.
Open Scope string_scope.

(** Values placed in the JSON body of an outgoing request. *)
Inductive jv : Type :=
| JNum (x : number)
| JStr (s : string)
| JNumStr (s : numstr).

(** One HTTP request to the bypass service, as [fetch] receives it. *)
Record HttpRequest : Type := {
  req_base : string;
  req_action : string;
  req_method : string;
  req_key : string;
  req_body : list (string * jv) }.

(** The JSON object the bypass service answers with: the fields the server
    reads ([error], [code], [data.plan.id]). *)
Record ExtData : Type := {
  ext_error : option string;
  ext_code : option Z;
  ext_plan_id : option jv }.

(** What [fetch] does with a request: it is aborted by the timeout, it
    rejects, or it brings a response; [json] is the parsed body, or the
    message of the parse error when the body is not JSON. *)
Inductive FetchOutcome : Type :=
| Aborted
| NetworkError (message : string)
| HttpResponse (ok : bool) (status : Z) (statusText : string)
               (responseText : string) (json : ExtData + string).

(** Errors thrown inside a handler. *)
Inductive exn : Type :=
| UIDBypassError (message : string) (code : option Z) (statusCode : option Z)
| ValidationError (message : string)
| ZodError (message : string)
| TypeError (message : string).

Definition message_of (e : exn) : string :=
  match e with
  | UIDBypassError m _ _ => m
  | ValidationError m => m
  | ZodError m => m
  | TypeError m => m
  end.

Definition is_UIDBypassError (e : exn) : bool :=
  match e with UIDBypassError _ _ _ => true | _ => false end.

(** The surroundings of one request: the clock, the remote service, the
    strings [new URL] accepts and the time zone of the process. *)
Record Env : Type := {
  now : Z;
  fetch : HttpRequest -> FetchOutcome;
  URL_ok : string -> bool;
  LocalTZA : JSDate.Zone }.

(** What a handler can change: the database, and the requests it has sent
    to the bypass service (latest first). *)
Record World : Type := {
  db : DB;
  sent : list HttpRequest }.

Inductive outcome (A : Type) : Type :=
| Ok (a : A)
| Throw (e : exn).
Arguments Ok {A} a.
Arguments Throw {A} e.

Definition M (A : Type) : Type := Env -> World -> outcome A * World.

Definition ret {A} (a : A) : M A := fun _ w => (Ok a, w).
Definition throw {A} (e : exn) : M A := fun _ w => (Throw e, w).
Definition bind {A B} (m : M A) (k : A -> M B) : M B :=
  fun env w =>
    match m env w with
    | (Ok a, w') => k a env w'
    | (Throw e, w') => (Throw e, w')
    end.
(** [try { m } catch (e) { h e }]: what [m] wrote before throwing stays. *)
Definition try_catch {A} (m : M A) (h : exn -> M A) : M A :=
  fun env w =>
    match m env w with
    | (Ok a, w') => (Ok a, w')
    | (Throw e, w') => h e env w'
    end.

Definition ask : M Env := fun env w => (Ok env, w).
Definition get_db : M DB := fun _ w => (Ok (db w), w).
Definition put_db (d : DB) : M unit :=
  fun _ w => (Ok tt, {| db := d; sent := sent w |}).
Definition do_fetch (r : HttpRequest) : M FetchOutcome :=
  fun env w => (Ok (fetch env r), {| db := db w; sent := r :: sent w |}).

Declare Scope eff_scope.
Delimit Scope eff_scope with eff.
Notation "x <- m ;; k" := (bind m (fun x => k))
  (at level 61, m at next level, right associativity) : eff_scope.
Notation "m ;; k" := (bind m (fun _ => k))
  (at level 61, right associativity) : eff_scope.

(** [a || b] on strings: the empty string is falsy. *)
Definition or_str (a b : string) : string :=
  if (a =? "") then b else a.
Definition or_opt_str (a : option string) (b : string) : string :=
  match a with Some s => or_str s b | None => b end.
Definition truthy_str (a : option string) : bool :=
  match a with Some s => negb (s =? "") | None => false end.

End Eff.

(* ================================================================= *)
(** ** The shared types of [@shared/schema] *)

Module Schema.

Import Number.

(** [User]: what [storage.getUser] returns; [credits] is a string. *)
Module User.
Record t : Type := {
  id : string;
  username : string;
  password : string;
  isOwner : bool;
  credits : numstr;
  isActive : bool;
  createdAt : Z;
  lastActive : option Z }.
End User.

(** [Uid]: what the storage returns for a UID; [cost] is a string. *)
Module Uid.
Record t : Type := {
  id : string;
  userId : string;
  uidValue : string;
  duration : number;
  cost : numstr;
  status : string;
  createdAt : Z;
  expiresAt : Z }.
End Uid.

(** [Settings]. *)
Module Settings.
Record t : Type := {
  baseUrl : option string;
  apiKey : option string;
  updatedAt : Z }.
End Settings.

(** [InsertUid]: the result of [insertUidSchema.parse]. *)
Module InsertUid.
Record t : Type := {
  userId : string;
  uidValue : string;
  duration : number }.
End InsertUid.

(** [CreateUid]: the argument of [storage.createUid]; an invalid [Date] is
    [None]. *)
Module CreateUid.
Record t : Type := {
  userId : string;
  uidValue : string;
  duration : number;
  planId : Eff.jv;
  cost : numstr;
  expiresAt : option Z }.
End CreateUid.

(** [InsertActivityLog]. *)
Module InsertActivityLog.
Record t : Type := {
  userId : string;
  action : string;
  details : Mongo.text }.
End InsertActivityLog.

End Schema.

(* ================================================================= *)
(** ** [server/storage.ts] *)

Module Storage.

Import Number Mongo Eff Schema.
Open Scope string_scope.
Open Scope eff_scope.

(** [UidModel.create(fields)]: build the document, validate it against
    [UidSchema], insert it with a fresh [_id]. *)
Definition UidModel_create (f : UidFields) : M IUid :=
  env <- ask ;;
  d <- get_db ;;
  match UidSchema_build (oid (nextOid d)) (now env) f with
  | Some doc =>
      put_db (with_fresh (with_Uids (Uids d ++ [doc]) d)) ;;
      ret doc
  | None =>
      throw (ValidationError (validation_message "Uid" (UidSchema_missing f)))
  end.

(** [ActivityLogModel.create({ userId, action, details, createdAt })]. *)
Definition ActivityLogModel_create (userId action : string)
    (details : option text) (createdAt : Z) : M unit :=
  d <- get_db ;;
  put_db (with_ActivityLogs
            (ActivityLogs d ++
             [{| log_userId := userId; action := action; details := details;
                 log_createdAt := createdAt |}]) d).

Definition toUser (u : IUser) : User.t :=
  {| User.id := user_id u;
     User.username := Mongo.username u;
     User.password := Mongo.password u;
     User.isOwner := Mongo.isOwner u;
     User.credits := toString (Mongo.credits u);
     User.isActive := Mongo.isActive u;
     User.createdAt := user_createdAt u;
     User.lastActive := Mongo.lastActive u |}.

Definition toUid (d : IUid) : Uid.t :=
  {| Uid.id := uid_id d;
     Uid.userId := Mongo.userId d;
     Uid.uidValue := Mongo.uidValue d;
     Uid.duration := Mongo.duration d;
     Uid.cost := toString (Mongo.cost d);
     Uid.status := Mongo.status d;
     Uid.createdAt := Mongo.createdAt d;
     Uid.expiresAt := Mongo.expiresAt d |}.

Definition getUser (id : string) : M (option User.t) :=
  d <- get_db ;;
  ret (option_map toUser (findById user_id (Users d) id)).

Definition updateUserCredits (userId : string) (newCredits : numstr) : M unit :=
  d <- get_db ;;
  put_db (with_Users
            (updateById user_id (Users d) userId
                        (set_credits (parseFloat newCredits))) d).

Definition nonempty (s : option string) : option string :=
  match s with
  | Some x => if x =? "" then None else Some x
  | None => None
  end.

Definition getSettings : M (option Settings.t) :=
  d <- get_db ;;
  ret (match SettingsColl d with
       | [] => None
       | s :: _ =>
           Some {| Settings.baseUrl := nonempty (Mongo.baseUrl s);
                   Settings.apiKey := nonempty (Mongo.apiKey s);
                   Settings.updatedAt := Mongo.updatedAt s |}
       end).

(** [createUid]: the fields it hands to [UidModel.create] are [userId],
    [uidValue], [duration], [cost], [status], [createdAt] and [expiresAt];
    [createUid.planId] is not among them. *)
Definition createUid (createUid : CreateUid.t) : M Uid.t :=
  env <- ask ;;
  uid <- UidModel_create
           {| f_userId := Some (CreateUid.userId createUid);
              f_apiKeyId := None;
              f_uidValue := Some (CreateUid.uidValue createUid);
              f_playerName := None;
              f_region := None;
              f_planId := None;
              f_duration := Some (CreateUid.duration createUid);
              f_cost := Some (parseFloat (CreateUid.cost createUid));
              f_status := Some "active";
              f_createdAt := Some (now env);
              f_expiresAt := CreateUid.expiresAt createUid |} ;;
  ret (toUid uid).

Definition getUid (uidId : string) : M (option Uid.t) :=
  d <- get_db ;;
  ret (option_map toUid (findById uid_id (Uids d) uidId)).

Definition getUserUids (userId : string) : M (list Uid.t) :=
  d <- get_db ;;
  ret (map toUid
         (sort_createdAt_desc
            (filter (fun u => Mongo.userId u =? userId) (Uids d)))).

Definition deleteUid (uidId : string) : M unit :=
  d <- get_db ;;
  put_db (with_Uids (deleteById uid_id (Uids d) uidId) d).

(** [updateUid(uidId, status)]: [status] comes straight from the request
    body; when it is absent the update sets nothing. *)
Definition updateUid (uidId : string) (status : option string) : M unit :=
  d <- get_db ;;
  match status with
  | Some s => put_db (with_Uids (updateById uid_id (Uids d) uidId (set_status s)) d)
  | None => ret tt
  end.

Definition updateUidValue (uidId newUidValue : string) : M unit :=
  d <- get_db ;;
  put_db (with_Uids (updateById uid_id (Uids d) uidId (set_uidValue newUidValue)) d).

Definition logActivity (insertLog : InsertActivityLog.t) : M unit :=
  env <- ask ;;
  ActivityLogModel_create (InsertActivityLog.userId insertLog)
                          (InsertActivityLog.action insertLog)
                          (Some (InsertActivityLog.details insertLog))
                          (now env).

End Storage.

(* ================================================================= *)
(** ** [UIDBypassClient] *)

Module ApiClient.

Import Number Mongo Eff Schema.
Open Scope string_scope.
Open Scope eff_scope.

(** An instance of the class. *)
Record UIDBypassClient : Type := {
  this_baseUrl : string;
  this_apiKey : string;
  timeoutMs : Z }.

(** What [routes.ts] uses of the class: the static factory [create] and the
    methods [createUID], [deleteUID] and [updateUID].  A revision that does
    not define a method has [None] for it. *)
Class Methods : Type := {
  create : M UIDBypassClient;
  createUID : UIDBypassClient -> string -> numstr -> M ExtData;
  deleteUID : UIDBypassClient -> string -> M ExtData;
  updateUID : option (UIDBypassClient -> string -> string -> M ExtData) }.

Definition configured (settings : option Settings.t) : option (string * string) :=
  match settings with
  | Some s =>
      match Settings.baseUrl s, Settings.apiKey s with
      | Some b, Some k => Some (b, k)
      | _, _ => None
      end
  | None => None
  end.

Definition has_params (params : list (string * jv)) : bool :=
  match params with [] => false | _ :: _ => true end.

Definition fetch_request (this : UIDBypassClient) (action : string)
    (params : list (string * jv)) (method : string) : HttpRequest :=
  {| req_base := this_baseUrl this;
     req_action := action;
     req_method := method;
     req_key := this_apiKey this;
     req_body := if (method =? "POST") && has_params params then params else [] |}.

(** [new URL(this.baseUrl)] stands before the [try] of [request]: a base URL
    that does not parse makes the method throw a [TypeError]. *)
Definition new_URL (this : UIDBypassClient) : M unit :=
  env <- ask ;;
  if URL_ok env (this_baseUrl this) then ret tt
  else throw (TypeError "Invalid URL").

(** *** [server/api-client.ts] *)
Module V1.

Definition create : M UIDBypassClient :=
  settings <- Storage.getSettings ;;
  match configured settings with
  | Some (b, k) => ret {| this_baseUrl := b; this_apiKey := k; timeoutMs := 20000 |}
  | None =>
      throw (UIDBypassError
               "API settings not configured. Please configure in Settings page."
               None None)
  end.

Definition request (this : UIDBypassClient) (action : string)
    (params : list (string * jv)) (method : string) : M ExtData :=
  new_URL this ;;
  out <- do_fetch (fetch_request this action params method) ;;
  match out with
  | Aborted => throw (UIDBypassError "Request timeout" None None)
  | NetworkError m => throw (UIDBypassError ("Request failed: " ++ m) None None)
  | HttpResponse ok status statusText _ (inr m) =>
      throw (UIDBypassError ("Request failed: " ++ m) None None)
  | HttpResponse ok status statusText _ (inl data) =>
      if negb ok then
        throw (UIDBypassError
                 (or_opt_str (ext_error data) ("HTTP error: " ++ statusText))
                 None (Some status))
      else if truthy_str (ext_error data) then
        throw (UIDBypassError (or_opt_str (ext_error data) "Unknown API error")
                              (ext_code data) (Some status))
      else ret data
  end.

(** [createUID(uid, duration)]: hours to plan id (days). *)
Definition createUID (this : UIDBypassClient) (uid : string) (duration : numstr)
  : M ExtData :=
  let durationInDays := Math_ceil (div (parseInt duration) 24%Q) in
  request this "add_uid_api"
          [("uid", JStr uid); ("plan_id", JNum durationInDays); ("region", JStr "PK")]
          "POST".

Definition deleteUID (this : UIDBypassClient) (uid : string) : M ExtData :=
  request this "remove_uid_api" [("uid", JStr uid)] "POST".

Definition renewUID (this : UIDBypassClient) (uid : string) (days : number)
  : M ExtData :=
  request this "renew_uid_api" [("uid", JStr uid); ("days", JNum days)] "POST".

End V1.

(** *** The later revision of the client ([unnamed/part_004]) *)
Module V2.

(** [baseUrl.replace(/\/$/, '')]. *)
Fixpoint strip_slash (s : string) : string :=
  match s with
  | EmptyString => EmptyString
  | String c EmptyString => if Ascii.eqb c "/"%char then EmptyString else s
  | String c s' => String c (strip_slash s')
  end.

Definition create : M UIDBypassClient :=
  settings <- Storage.getSettings ;;
  match configured settings with
  | Some (b, k) =>
      ret {| this_baseUrl := strip_slash b; this_apiKey := k; timeoutMs := 20000 |}
  | None =>
      throw (UIDBypassError
               "API configuration not found. Please configure Base URL and API Key in Settings."
               None None)
  end.

Definition Z_to_string (z : Z) : string :=
  DecimalString.NilZero.string_of_int (Z.to_int z).

Definition request (this : UIDBypassClient) (action : string)
    (params : list (string * jv)) (method : string) : M ExtData :=
  new_URL this ;;
  out <- do_fetch (fetch_request this action params method) ;;
  match out with
  | Aborted =>
      throw (UIDBypassError
               ("Request timeout (" ++ Z_to_string (timeoutMs this) ++ "ms)")
               None None)
  | NetworkError m => throw (UIDBypassError ("Request failed: " ++ m) None None)
  | HttpResponse ok status statusText responseText (inr _) =>
      throw (UIDBypassError
               ("Invalid JSON response from API: " ++ substring 0 200 responseText)
               None (Some status))
  | HttpResponse ok status statusText _ (inl data) =>
      if negb ok then
        throw (UIDBypassError
                 (or_opt_str (ext_error data)
                             ("HTTP " ++ Z_to_string status ++ ": " ++ statusText))
                 None (Some status))
      else if truthy_str (ext_error data) then
        throw (UIDBypassError (or_opt_str (ext_error data) "Unknown API error")
                              (ext_code data) (Some status))
      else ret data
  end.

(** [createUID(uid, planId, region = "PK")]: the plan id is sent as given. *)
Definition createUID (this : UIDBypassClient) (uid : string) (planId : numstr)
  : M ExtData :=
  request this "add_uid_api"
          [("uid", JStr uid); ("plan_id", JNumStr planId); ("region", JStr "PK")]
          "POST".

Definition createUIDFree (this : UIDBypassClient) (uid : string) : M ExtData :=
  request this "add_uid_free_api" [("uid", JStr uid); ("region", JStr "PK")] "POST".

Definition deleteUID (this : UIDBypassClient) (uid : string) : M ExtData :=
  request this "remove_uid_api" [("uid", JStr uid)] "POST".

Definition renewUID (this : UIDBypassClient) (uid : string) (days : number)
  : M ExtData :=
  request this "renew_uid_api" [("uid", JStr uid); ("days", JNum days)] "POST".

(** [updateUID(oldUid, newUid)]: delete the old UID, then create the new one
    on the free plan. *)
Definition updateUID (this : UIDBypassClient) (oldUid newUid : string) : M ExtData :=
  deleteUID this oldUid ;;
  createUIDFree this newUid.

End V2.

(** The class as [server/api-client.ts] defines it, and as the later
    revision does. *)
Definition api_client : Methods := {|
  create := V1.create;
  createUID := V1.createUID;
  deleteUID := V1.deleteUID;
  updateUID := None |}.

Definition api_client_rev : Methods := {|
  create := V2.create;
  createUID := V2.createUID;
  deleteUID := V2.deleteUID;
  updateUID := Some V2.updateUID |}.

End ApiClient.

(* ================================================================= *)
(** ** [server/routes.ts] *)

Module Routes.

Import Number Mongo Eff Schema.
Open Scope string_scope.
Open Scope eff_scope.

(** [req.session] behind [requireAuth]. *)
Record Session : Type := {
  session_userId : string;
  session_isOwner : bool }.

(** JSON bodies of the responses. *)
Inductive Body : Type :=
| ErrorJson (error : string) (details : option string)
| CreatedJson (uid : Uid.t) (newCredits : numstr) (apiResult : ExtData)
| UidsJson (uids : list Uid.t)
| SuccessJson
| ValueUpdatedJson (oldValue newValue : string)
| CreditsJson (newCredits : numstr).

Record Response : Type := {
  statusCode : Z;
  body : Body }.

Definition json (b : Body) : Response := {| statusCode := 200; body := b |}.
Definition status_json (code : Z) (b : Body) : Response :=
  {| statusCode := code; body := b |}.
Definition error_json (code : Z) (error : string) : Response :=
  status_json code (ErrorJson error None).

(** The body of [POST /api/uids].  [body_cost] stands for any further key a
    client may add, such as a price of its own. *)
Record UidBody : Type := {
  body_userId : string;
  body_uidValue : string;
  body_duration : number;
  body_cost : option numstr }.

(** The issues of a [ZodError], as zod builds them for a string that is too
    short or too long and for a number that is not positive: the code, the
    limit with its key ([minimum] or [maximum]), the type checked, whether
    the limit itself is allowed, the text, and the key of the body. *)
Record ZodIssue : Type := {
  issue_code : string;
  issue_limit : string * string;
  issue_type : string;
  issue_inclusive : bool;
  issue_message : string;
  issue_path : string }.

Definition too_short (path : string) : ZodIssue :=
  {| issue_code := "too_small"; issue_limit := ("minimum", "6");
     issue_type := "string"; issue_inclusive := true;
     issue_message := "UID must be at least 6 characters"; issue_path := path |}.
Definition too_long (path : string) : ZodIssue :=
  {| issue_code := "too_big"; issue_limit := ("maximum", "12");
     issue_type := "string"; issue_inclusive := true;
     issue_message := "UID must be at most 12 characters"; issue_path := path |}.
Definition not_positive (path : string) : ZodIssue :=
  {| issue_code := "too_small"; issue_limit := ("minimum", "0");
     issue_type := "number"; issue_inclusive := false;
     issue_message := "Number must be greater than 0"; issue_path := path |}.

(** [error.message] of a [ZodError]: [JSON.stringify(issues, null, 2)]. *)
Definition quote : string := String "034"%char EmptyString.
Definition newline : string := String "010"%char EmptyString.
Definition JSON_string (s : string) : string := quote ++ s ++ quote.
Definition JSON_boolean (b : bool) : string := if b then "true" else "false".

Definition JSON_issue (i : ZodIssue) : string :=
  "  {" ++ newline ++
  "    " ++ JSON_string "code" ++ ": " ++ JSON_string (issue_code i) ++ "," ++ newline ++
  "    " ++ JSON_string (fst (issue_limit i)) ++ ": " ++ snd (issue_limit i) ++ "," ++ newline ++
  "    " ++ JSON_string "type" ++ ": " ++ JSON_string (issue_type i) ++ "," ++ newline ++
  "    " ++ JSON_string "inclusive" ++ ": " ++ JSON_boolean (issue_inclusive i) ++ "," ++ newline ++
  "    " ++ JSON_string "exact" ++ ": false," ++ newline ++
  "    " ++ JSON_string "message" ++ ": " ++ JSON_string (issue_message i) ++ "," ++ newline ++
  "    " ++ JSON_string "path" ++ ": [" ++ newline ++
  "      " ++ JSON_string (issue_path i) ++ newline ++
  "    ]" ++ newline ++
  "  }".

Definition ZodError_message (issues : list ZodIssue) : string :=
  "[" ++ newline ++
  String.concat ("," ++ newline) (map JSON_issue issues) ++ newline ++
  "]".

(** The checks of [z.string().min(6, ...).max(12, ...)] on the key [path]
    and of [z.number().positive()]: every check that fails adds its issue. *)
Definition uid_issues (path value : string) : list ZodIssue :=
  (if (String.length value <? 6)%nat then [too_short path] else []) ++
  (if (12 <? String.length value)%nat then [too_long path] else []).
Definition positive_issues (path : string) (x : number) : list ZodIssue :=
  if leb x 0%Q then [not_positive path] else [].

Definition insertUid_issues (b : UidBody) : list ZodIssue :=
  uid_issues "uidValue" (body_uidValue b) ++
  positive_issues "duration" (body_duration b).

(** [insertUidSchema.parse]: [uidValue] of 6 to 12 characters, a positive
    [duration]; keys outside the schema are dropped.  When a check fails the
    [ZodError] thrown lists the issues of all the checks that fail. *)
Definition insertUidSchema_parse (b : UidBody) : M InsertUid.t :=
  if (String.length (body_uidValue b) <? 6)%nat then
    throw (ZodError (ZodError_message (insertUid_issues b)))
  else if (12 <? String.length (body_uidValue b))%nat then
    throw (ZodError (ZodError_message (insertUid_issues b)))
  else if leb (body_duration b) 0%Q then
    throw (ZodError (ZodError_message (insertUid_issues b)))
  else ret {| InsertUid.userId := body_userId b;
              InsertUid.uidValue := body_uidValue b;
              InsertUid.duration := body_duration b |}.

(** [updateUidValueSchema.parse]. *)
Definition updateUidValueSchema_parse (newUidValue : string) : M string :=
  if (String.length newUidValue <? 6)%nat then
    throw (ZodError (ZodError_message (uid_issues "newUidValue" newUidValue)))
  else if (12 <? String.length newUidValue)%nat then
    throw (ZodError (ZodError_message (uid_issues "newUidValue" newUidValue)))
  else ret newUidValue.

(** The body of [PATCH /api/users/:id/credits] and [updateCreditSchema]. *)
Record CreditBody : Type := {
  credit_userId : string;
  amount : number;
  operation : string }.

Definition updateCreditSchema_parse (b : CreditBody) : M CreditBody :=
  if (operation b =? "add") || (operation b =? "deduct") then ret b
  else throw (ZodError "Invalid enum value").

(** [pricingTiers[duration]]: the price of a duration that is a key of the
    table, [undefined] otherwise. *)
Definition pricingTiers (duration : number) : option number :=
  if eqb duration 24%Q then Some (lit 50)
  else if eqb duration 72%Q then Some (lit 130)
  else if eqb duration 168%Q then Some (lit 233)
  else if eqb duration 336%Q then Some (lit 350)
  else if eqb duration 720%Q then Some (lit 520)
  else None.

Definition cost_ok (cost : option number) : option number :=
  match cost with
  | Some c => if truthy c then Some c else None
  | None => None
  end.

Section Handlers.

Variable client : ApiClient.Methods.

(** [POST /api/uids]. *)
Definition POST_api_uids (session : Session) (b : UidBody) : M Response :=
  try_catch
    (uidData <- insertUidSchema_parse b ;;
     if negb (session_isOwner session) &&
        negb (InsertUid.userId uidData =? session_userId session)
     then ret (error_json 403 "Can only create UIDs for your own account")
     else
       match cost_ok (pricingTiers (InsertUid.duration uidData)) with
       | None => ret (error_json 400 "Invalid duration selected")
       | Some cost =>
           user <- Storage.getUser (InsertUid.userId uidData) ;;
           match user with
           | None => ret (error_json 404 "User not found")
           | Some user =>
               let currentCredits := parseFloat (User.credits user) in
               if ltb currentCredits cost then
                 ret (error_json 400 "Insufficient credits")
               else
                 try_catch
                   (env <- ask ;;
                    apiClient <- ApiClient.create ;;
                    apiResult <- ApiClient.createUID apiClient
                                   (InsertUid.uidValue uidData)
                                   (toString (InsertUid.duration uidData)) ;;
                    let expiresAt :=
                      JSDate.newDate
                        (add (ofZ (now env))
                             (mul (InsertUid.duration uidData) 3600000%Q)) in
                    let planId :=
                      match ext_plan_id apiResult with
                      | Some p => p
                      | None =>
                          JNumStr (toString
                                     (Math_ceil (div (InsertUid.duration uidData) 24%Q)))
                      end in
                    uid <- Storage.createUid
                             {| CreateUid.userId := InsertUid.userId uidData;
                                CreateUid.uidValue := InsertUid.uidValue uidData;
                                CreateUid.duration := InsertUid.duration uidData;
                                CreateUid.planId := planId;
                                CreateUid.cost := toFixed2 cost;
                                CreateUid.expiresAt := expiresAt |} ;;
                    let newCredits := sub currentCredits cost in
                    Storage.updateUserCredits (InsertUid.userId uidData)
                                              (toFixed2 newCredits) ;;
                    Storage.logActivity
                      {| InsertActivityLog.userId := InsertUid.userId uidData;
                         InsertActivityLog.action := "create_uid";
                         InsertActivityLog.details :=
                           [Lit "Created UID "; Str (InsertUid.uidValue uidData);
                            Lit " with "; Num (toString (InsertUid.duration uidData));
                            Lit "h duration - Cost: $"; Num (toFixed2 cost)] |} ;;
                    ret (json (CreatedJson uid (toFixed2 newCredits) apiResult)))
                   (fun apiError =>
                      match apiError with
                      | UIDBypassError m _ _ =>
                          ret (error_json 400 ("API Error: " ++ m))
                      | _ => throw apiError
                      end)
           end
       end)
    (fun error =>
       ret (error_json 400 (or_str (message_of error) "Failed to create UID"))).

(** [GET /api/uids/user/:userId]. *)
Definition GET_api_uids_user (session : Session) (userId : string) : M Response :=
  try_catch
    (if negb (session_isOwner session) && negb (userId =? session_userId session)
     then ret (error_json 403 "Can only view your own UIDs")
     else
       userUids <- Storage.getUserUids userId ;;
       ret (json (UidsJson userUids)))
    (fun _ => ret (error_json 500 "Failed to fetch UIDs")).

Definition details_of (apiError : exn) : option string :=
  Some (match apiError with
        | UIDBypassError m _ _ => m
        | _ => "Unknown error"
        end).

(** [DELETE /api/uids/:id]. *)
Definition DELETE_api_uids (session : Session) (id : string) : M Response :=
  try_catch
    (uid <- Storage.getUid id ;;
     match uid with
     | None => ret (error_json 404 "UID not found")
     | Some uid =>
         if negb (session_isOwner session) &&
            negb (Uid.userId uid =? session_userId session)
         then ret (error_json 403 "Can only delete your own UIDs")
         else
           failed <- try_catch
                       (apiClient <- ApiClient.create ;;
                        ApiClient.deleteUID apiClient (Uid.uidValue uid) ;;
                        ret None)
                       (fun apiError =>
                          ret (Some (status_json 500
                                       (ErrorJson "Failed to delete UID from external service"
                                                  (details_of apiError))))) ;;
           match failed with
           | Some response => ret response
           | None =>
               Storage.deleteUid id ;;
               Storage.logActivity
                 {| InsertActivityLog.userId := session_userId session;
                    InsertActivityLog.action := "delete_uid";
                    InsertActivityLog.details :=
                      [Lit "Deleted UID "; Str (Uid.uidValue uid);
                       Lit " (User: "; Str (Uid.userId uid); Lit ")"] |} ;;
               ret (json SuccessJson)
           end
     end)
    (fun error =>
       ret (error_json 500 (or_str (message_of error) "Failed to delete UID"))).

Definition find_uid (id : string) (l : list Uid.t) : option Uid.t :=
  find (fun u => Uid.id u =? id) l.

Definition render_status (status : option string) : piece :=
  match status with Some s => Str s | None => Lit "undefined" end.

(** [PATCH /api/uids/:id]: status only, no call to the bypass service. *)
Definition PATCH_api_uids (session : Session) (id : string)
    (status : option string) : M Response :=
  try_catch
    (allUids <- Storage.getUserUids (session_userId session) ;;
     let uid := find_uid id allUids in
     match uid, session_isOwner session with
     | None, false => ret (error_json 403 "Can only update your own UIDs")
     | _, _ =>
         Storage.updateUid id status ;;
         match uid with
         | Some uid =>
             Storage.logActivity
               {| InsertActivityLog.userId := Uid.userId uid;
                  InsertActivityLog.action := "update_uid";
                  InsertActivityLog.details :=
                    [Lit "Updated UID "; Str (Uid.uidValue uid);
                     Lit " status to "; render_status status] |}
         | None => ret tt
         end ;;
         ret (json SuccessJson)
     end)
    (fun _ => ret (error_json 500 "Failed to update UID")).

(** The call [apiClient.updateUID(old, new)]: calling a method the class does
    not define throws a [TypeError]. *)
Definition call_updateUID (apiClient : ApiClient.UIDBypassClient)
    (oldUid newUid : string) : M ExtData :=
  match ApiClient.updateUID with
  | Some updateUID => updateUID apiClient oldUid newUid
  | None => throw (TypeError "apiClient.updateUID is not a function")
  end.

(** [PATCH /api/uids/:id/value]. *)
Definition PATCH_api_uids_value (session : Session) (id : string)
    (newValue : string) : M Response :=
  try_catch
    (newUidValue <- updateUidValueSchema_parse newValue ;;
     uid <- Storage.getUid id ;;
     match uid with
     | None => ret (error_json 404 "UID not found")
     | Some uid =>
         if negb (session_isOwner session) &&
            negb (Uid.userId uid =? session_userId session)
         then ret (error_json 403 "Can only update your own UIDs")
         else
           let oldUidValue := Uid.uidValue uid in
           failed <- try_catch
                       (apiClient <- ApiClient.create ;;
                        call_updateUID apiClient oldUidValue newUidValue ;;
                        ret None)
                       (fun apiError =>
                          ret (Some (status_json 400
                                       (ErrorJson "Failed to update UID on external service"
                                                  (details_of apiError))))) ;;
           match failed with
           | Some response => ret response
           | None =>
               Storage.updateUidValue id newUidValue ;;
               Storage.logActivity
                 {| InsertActivityLog.userId := session_userId session;
                    InsertActivityLog.action := "update_uid_value";
                    InsertActivityLog.details :=
                      [Lit "Updated UID from "; Str oldUidValue;
                       Lit " to "; Str newUidValue] |} ;;
               ret (json (ValueUpdatedJson oldUidValue newUidValue))
           end
     end)
    (fun error =>
       ret (error_json 400 (or_str (message_of error) "Failed to update UID value"))).

End Handlers.

(** [PATCH /api/users/:id/credits], behind [requireOwner]. *)
Definition PATCH_api_users_credits (session : Session) (id : string)
    (b : CreditBody) : M Response :=
  try_catch
    (creditUpdate <- updateCreditSchema_parse b ;;
     user <- Storage.getUser id ;;
     match user with
     | None => ret (error_json 404 "User not found")
     | Some user =>
         let currentCredits := parseFloat (User.credits user) in
         let add_op := operation creditUpdate =? "add" in
         let newCredits :=
           if add_op then add currentCredits (amount creditUpdate)
           else sub currentCredits (amount creditUpdate) in
         if negb add_op && ltb newCredits 0%Q then
           ret (error_json 400 "Insufficient credits")
         else
           Storage.updateUserCredits id (toFixed2 newCredits) ;;
           Storage.logActivity
             {| InsertActivityLog.userId := session_userId session;
                InsertActivityLog.action := "credit_" ++ operation creditUpdate;
                InsertActivityLog.details :=
                  [Lit (if add_op then "Added" else "Deducted"); Lit " $";
                   Num (toFixed2 (amount creditUpdate));
                   Lit (if add_op then " to " else " from ");
                   Str (User.username user)] |} ;;
           ret (json (CreditsJson (toFixed2 newCredits)))
     end)
    (fun _ => ret (error_json 400 "Failed to update credits")).

End Routes.

(* ================================================================= *)
(** ** [server/api-handler.ts] *)

Module ApiHandler.

Import Number Mongo Eff.
Open Scope string_scope.
Open Scope eff_scope.

(** The request once [verifyApiKey] has run: the API key document, the user
    it belongs to, and the fields of the body the handlers read. *)
Record AuthenticatedRequest : Type := {
  apiKeyDoc : IApiKey;
  apiUserId : string;
  body_uid_id : option string;
  body_uid : option string;
  body_days : option number }.

Inductive Body : Type :=
| ErrorJson (error : string)
| RemovedJson (uid_id uid : string) (player_name : option string)
| RenewedJson (uid_id uid : string) (player_name : option string)
              (old_expire_date new_expire_date : Z) (days_added : number).

Record Response : Type := {
  statusCode : Z;
  body : Body }.

Definition json (b : Body) : Response := {| statusCode := 200; body := b |}.
Definition error_json (code : Z) (error : string) : Response :=
  {| statusCode := code; body := ErrorJson error |}.

Definition opt_eqb (a : option string) (b : string) : bool :=
  match a with Some x => x =? b | None => false end.

(** [UidModel.findOne({ _id | uidValue, apiKeyId })]: the UID named by the
    request among those created by the calling API key. *)
Definition find_scoped (req : AuthenticatedRequest) : M (option IUid) :=
  d <- get_db ;;
  let key := key_id (apiKeyDoc req) in
  if truthy_str (body_uid_id req) then
    ret (find (fun u => opt_eqb (body_uid_id req) (uid_id u) &&
                        opt_eqb (apiKeyId u) key) (Uids d))
  else
    ret (find (fun u => opt_eqb (body_uid req) (uidValue u) &&
                        opt_eqb (apiKeyId u) key) (Uids d)).

(** [uidDoc.save()] after the handler has assigned to paths of a document
    it has just read. *)
Definition save (uidDoc : IUid) (assign : IUid -> IUid) : M unit :=
  d <- get_db ;;
  put_db (with_Uids (updateById uid_id (Uids d) (uid_id uidDoc) assign) d).

(** [handleRemoveUid]. *)
Definition handleRemoveUid (req : AuthenticatedRequest) : M Response :=
  if negb (truthy_str (body_uid_id req)) && negb (truthy_str (body_uid req)) then
    ret (error_json 400 "Either uid_id or uid is required")
  else
    uidDoc <- find_scoped req ;;
    match uidDoc with
    | None => ret (error_json 404 "UID not found or not created by this API key")
    | Some uidDoc =>
        save uidDoc (set_status "deleted") ;;
        env <- ask ;;
        Storage.ActivityLogModel_create
          (apiUserId req) "delete_uid_api"
          (Some [Lit "UID "; Str (uidValue uidDoc); Lit " deleted via API"])
          (now env) ;;
        ret (json (RemovedJson (uid_id uidDoc) (uidValue uidDoc)
                               (playerName uidDoc)))
    end.

Definition days_ok (days : option number) : option number :=
  match days with
  | Some d => if negb (truthy d) || leb d 0%Q then None else Some d
  | None => None
  end.

(** [handleRenewUid]. *)
Definition handleRenewUid (req : AuthenticatedRequest) : M Response :=
  if negb (truthy_str (body_uid_id req)) && negb (truthy_str (body_uid req)) then
    ret (error_json 400 "Either uid_id or uid is required")
  else
    match days_ok (body_days req) with
    | None => ret (error_json 400 "Days must be a positive number")
    | Some days =>
        uidDoc <- find_scoped req ;;
        match uidDoc with
        | None => ret (error_json 404 "UID not found or not created by this API key")
        | Some uidDoc =>
            env <- ask ;;
            let oldExpireDate := expiresAt uidDoc in
            let newExpireDate :=
              JSDate.setDate (LocalTZA env) (expiresAt uidDoc)
                (add (ofZ (JSDate.getDate (LocalTZA env) (expiresAt uidDoc))) days) in
            match newExpireDate with
            | None =>
                throw (ValidationError
                         "Uid validation failed: expiresAt: Cast to date failed")
            | Some newExpireDate =>
                save uidDoc
                     (set_renewal newExpireDate
                        (add (duration uidDoc) (mul days 24%Q))
                        (if status uidDoc =? "expired" then "active"
                         else status uidDoc)) ;;
                Storage.ActivityLogModel_create
                  (apiUserId req) "renew_uid_api"
                  (Some [Lit "UID "; Str (uidValue uidDoc); Lit " renewed for ";
                         Num (toString days); Lit " days via API"])
                  (now env) ;;
                ret (json (RenewedJson (uid_id uidDoc) (uidValue uidDoc)
                                       (playerName uidDoc)
                                       oldExpireDate newExpireDate days))
            end
        end
    end.

(** The [try]/[catch] of [app.post("/api/handler", ...)] around a handler. *)
Definition api_handler (handler : AuthenticatedRequest -> M Response)
    (req : AuthenticatedRequest) : M Response :=
  try_catch (handler req)
    (fun error =>
       ret (error_json 500 (or_str (message_of error) "Internal server error"))).

End ApiHandler.

(* ================================================================= *)
(** ** Vocabulary of the statements *)

Module Spec.

Import Number Mongo Eff Schema.
Open Scope string_scope.
Open Scope eff_scope.

(** A computation that leaves the database as it found it. *)
Definition keeps_db {A} (m : M A) : Prop :=
  forall env w, db (snd (m env w)) = db w.

(** A client whose methods only talk to the bypass service. *)
Record remote_only (client : ApiClient.Methods) : Prop := {
  create_keeps : keeps_db (@ApiClient.create client);
  createUID_keeps :
    forall this uid d, keeps_db (@ApiClient.createUID client this uid d);
  deleteUID_keeps :
    forall this uid, keeps_db (@ApiClient.deleteUID client this uid);
  updateUID_keeps :
    forall f, @ApiClient.updateUID client = Some f ->
              forall this o n, keeps_db (f this o n) }.

(** The three external calls of the dashboard, as the handlers make them:
    build the client from the settings, then call the method. *)
Definition external_create (client : ApiClient.Methods) (uid : string)
    (duration : number) : M ExtData :=
  apiClient <- @ApiClient.create client ;;
  @ApiClient.createUID client apiClient uid (toString duration).

Definition external_delete (client : ApiClient.Methods) (uid : string) : M ExtData :=
  apiClient <- @ApiClient.create client ;;
  @ApiClient.deleteUID client apiClient uid.

Definition external_update (client : ApiClient.Methods) (oldUid newUid : string)
  : M ExtData :=
  apiClient <- @ApiClient.create client ;;
  Routes.call_updateUID client apiClient oldUid newUid.

Definition fails {A} (m : M A) (env : Env) (w : World) : Prop :=
  exists e, fst (m env w) = Throw e.
Definition succeeds {A} (m : M A) (env : Env) (w : World) : Prop :=
  exists a, fst (m env w) = Ok a.

(** The response of a handler and the world it leaves. *)
Definition response {R} (r : outcome R * World) : option R :=
  match fst r with Ok x => Some x | Throw _ => None end.
Definition after {R} (r : outcome R * World) : World := snd r.

(** [_id] is a key of the [Uids] collection. *)
Definition unique_ids (d : DB) : Prop := NoDup (map uid_id (Uids d)).

Definition lookup_uid (d : DB) (id : string) : option IUid :=
  findById uid_id (Uids d) id.
Definition lookup_user (d : DB) (id : string) : option IUser :=
  findById user_id (Users d) id.

(** The UIDs of one user as [storage.getUserUids] lists them. *)
Definition own_uids (d : DB) (userId : string) : list Uid.t :=
  map Storage.toUid
      (sort_createdAt_desc (filter (fun u => Mongo.userId u =? userId) (Uids d))).

(** The entry [storage.logActivity] and [ActivityLogModel.create] append. *)
Definition logged (w w' : World) (actor action : string) : Prop :=
  exists details t,
    ActivityLogs (db w') =
    (ActivityLogs (db w) ++
     [{| log_userId := actor; Mongo.action := action; details := details;
         log_createdAt := t |}])%list.

(** The request [add_uid_api] with a given plan id. *)
Definition add_uid_request (r : HttpRequest) (uid : string) (plan : jv) : Prop :=
  req_action r = "add_uid_api" /\ req_method r = "POST" /\
  req_body r = [("uid", JStr uid); ("plan_id", plan); ("region", JStr "PK")].

(** The server time zone keeps one offset from UTC. *)
Definition fixed_offset (tz : JSDate.Zone) : Prop :=
  exists off, forall t b, tz t b = off.

(** A whole number, as a JavaScript number. *)
Definition whole (x : number) (n : Z) : Prop := (x == inject_Z n)%Q.

(** Bodies that [insertUidSchema] and [updateUidValueSchema] accept. *)
Definition passes_insertUidSchema (b : Routes.UidBody) : Prop :=
  (6 <= String.length (Routes.body_uidValue b) <= 12)%nat /\
  (0 < Routes.body_duration b)%Q.
Definition passes_updateUidValueSchema (v : string) : Prop :=
  (6 <= String.length v <= 12)%nat.

(** The UID an API request names, by [uid_id] when it gives one and by
    [uid] otherwise, and the UIDs the calling key has created. *)
Definition names (req : ApiHandler.AuthenticatedRequest) (doc : IUid) : Prop :=
  if truthy_str (ApiHandler.body_uid_id req)
  then ApiHandler.body_uid_id req = Some (uid_id doc)
  else ApiHandler.body_uid req = Some (uidValue doc).
Definition created_by (req : ApiHandler.AuthenticatedRequest) (doc : IUid) : Prop :=
  apiKeyId doc = Some (key_id (ApiHandler.apiKeyDoc req)).
Definition selects (req : ApiHandler.AuthenticatedRequest) (u : IUid) : bool :=
  if truthy_str (ApiHandler.body_uid_id req)
  then ApiHandler.opt_eqb (ApiHandler.body_uid_id req) (uid_id u) &&
       ApiHandler.opt_eqb (apiKeyId u) (key_id (ApiHandler.apiKeyDoc req))
  else ApiHandler.opt_eqb (ApiHandler.body_uid req) (uidValue u) &&
       ApiHandler.opt_eqb (apiKeyId u) (key_id (ApiHandler.apiKeyDoc req)).
Definition gives_uid (req : ApiHandler.AuthenticatedRequest) : Prop :=
  truthy_str (ApiHandler.body_uid_id req) = true \/
  truthy_str (ApiHandler.body_uid req) = true.


End Spec.

(* ================================================================= *)
(** ** Sample data for the scenarios *)

Module Sample.

Import Number Mongo Eff Schema Routes.
Open Scope string_scope.

Definition user (id name : string) (owner : bool) (balance : number) : IUser :=
  {| user_id := id; username := name; password := "$2b$10$hash";
     isOwner := owner; credits := balance; isActive := true;
     user_createdAt := 1761000000000; lastActive := None |}.

Definition settings : ISettings :=
  {| baseUrl := Some "https://uidbypass.com/public/api/bypassapi.php";
     apiKey := Some "uid_key"; updatedAt := 1761000000000 |}.

(** A UID of [owner], created through API key [key], expiring at noon UTC of
    23 October 2025. *)
Definition uid_doc (id owner value st : string) (key : option string) : IUid :=
  {| uid_id := id; userId := owner; apiKeyId := key; uidValue := value;
     playerName := None; region := "PK"; planId := 3%Q; duration := 72%Q;
     cost := lit 130; status := st; createdAt := 1761000000000;
     expiresAt := 1761220800000 |}.

Definition database (alice_balance : number) : DB :=
  {| Users := [user "u1" "alice" false alice_balance;
               user "u2" "bob" false (lit 1000);
               user "o1" "admin" true (lit 99999999)];
     SettingsColl := [settings];
     Uids := [uid_doc "d1" "u1" "ABC123" "active" (Some "k1");
              uid_doc "d2" "u2" "BOB4567" "expired" (Some "k2")];
     ActivityLogs := [];
     nextOid := 3 |}.

Definition world (alice_balance : number) : World :=
  {| db := database alice_balance; sent := [] |}.

Definition accepted : ExtData :=
  {| ext_error := None; ext_code := None; ext_plan_id := None |}.
Definition refused (m : string) : ExtData :=
  {| ext_error := Some m; ext_code := Some 1%Z; ext_plan_id := None |}.

(** A bypass service that accepts everything, one that is down, and one
    that removes UIDs but refuses to add any. *)
Definition service_up (_ : HttpRequest) : FetchOutcome :=
  HttpResponse true 200 "OK" "{}" (inl accepted).
Definition service_down (_ : HttpRequest) : FetchOutcome := Aborted.
Definition service_no_add (r : HttpRequest) : FetchOutcome :=
  if req_action r =? "remove_uid_api" then
    HttpResponse true 200 "OK" "{}" (inl accepted)
  else HttpResponse true 200 "OK" "{}" (inl (refused "UID rejected")).

Definition env_with (f : HttpRequest -> FetchOutcome) : Env :=
  {| now := 1761220800000; fetch := f; URL_ok := fun _ => true;
     LocalTZA := fun _ _ => 0%Z |}.

Definition alice : Session := {| session_userId := "u1"; session_isOwner := false |}.
Definition admin : Session := {| session_userId := "o1"; session_isOwner := true |}.

Definition create_body (owner value : string) (hours : number) : UidBody :=
  {| body_userId := owner; body_uidValue := value; body_duration := hours;
     body_cost := Some (Fixed2 1) |}.

Definition credit_body (owner : string) (amount : number) (op : string) : CreditBody :=
  {| credit_userId := owner; Routes.amount := amount; operation := op |}.

Definition key (id owner : string) : IApiKey :=
  {| key_id := id; key_userId := owner; key_apiKey := "secret";
     isEnabled := true; isPaused := false; uidLimit := None; allowedPlans := [] |}.

Definition api_request (k owner : string) (value : string) (days : option number)
  : ApiHandler.AuthenticatedRequest :=
  {| ApiHandler.apiKeyDoc := key k owner; ApiHandler.apiUserId := owner;
     ApiHandler.body_uid_id := None; ApiHandler.body_uid := Some value;
     ApiHandler.body_days := days |}.

End Sample.

(* ================================================================= *)
(** ** Further methods of [MongoDBStorage] ([server/storage.ts]) *)

Module MongoDBStorage.

Import Number Mongo Eff Schema.
Open Scope string_scope.
Open Scope eff_scope.

Definition with_SettingsColl (l : list ISettings) (d : DB) : DB :=
  {| Users := Users d; SettingsColl := l; Uids := Uids d;
     ActivityLogs := ActivityLogs d; nextOid := nextOid d |}.

(** [deleteUser]: the user document ([findByIdAndDelete]), then every UID
    and every activity log entry whose [userId] is the user's
    ([deleteMany]). *)
Definition deleteUser (userId : string) : M unit :=
  d <- get_db ;;
  put_db (with_Users (deleteById user_id (Users d) userId) d) ;;
  d <- get_db ;;
  put_db (with_Uids
            (filter (fun u => negb (Mongo.userId u =? userId)) (Uids d)) d) ;;
  d <- get_db ;;
  put_db (with_ActivityLogs
            (filter (fun l => negb (log_userId l =? userId)) (ActivityLogs d)) d).

(** A key of the body of [POST /api/settings]: left out, or given with a
    string or [null]. *)
Inductive field : Type :=
| Absent
| Given (v : option string).

(** [InsertSettings]: the result of [insertSettingsSchema.parse]. *)
Record InsertSettings : Type := {
  ins_baseUrl : field;
  ins_apiKey : field }.

Definition assign (f : field) (old : option string) : option string :=
  match f with
  | Absent => old
  | Given v => v
  end.

Definition toSettings (s : ISettings) : Settings.t :=
  {| Settings.baseUrl := Storage.nonempty (Mongo.baseUrl s);
     Settings.apiKey := Storage.nonempty (Mongo.apiKey s);
     Settings.updatedAt := Mongo.updatedAt s |}.

(** [updateSettings]: the first settings document takes the keys that are
    given and the current time; when there is none, one is created. *)
Definition updateSettings (insertSettings : InsertSettings) : M Settings.t :=
  env <- ask ;;
  d <- get_db ;;
  let settings :=
    match SettingsColl d with
    | existing :: _ =>
        {| baseUrl := assign (ins_baseUrl insertSettings) (Mongo.baseUrl existing);
           apiKey := assign (ins_apiKey insertSettings) (Mongo.apiKey existing);
           updatedAt := now env |}
    | [] =>
        {| baseUrl := assign (ins_baseUrl insertSettings) None;
           apiKey := assign (ins_apiKey insertSettings) None;
           updatedAt := now env |}
    end in
  put_db (with_SettingsColl (settings :: tl (SettingsColl d)) d) ;;
  ret (toSettings settings).

(** [cleanupOldActivityLogs(daysOld)]: the cutoff is the current time moved
    back by [daysOld] calendar days ([setDate(getDate() - daysOld)]); entries
    created before it are deleted and counted.  A cutoff that is not a valid
    date is refused when Mongoose casts the query (a cast error of Mongoose,
    which [exn] files with its other errors). *)
Definition cleanupOldActivityLogs (daysOld : number) : M number :=
  env <- ask ;;
  let cutoffDate :=
    JSDate.setDate (LocalTZA env) (now env)
      (sub (ofZ (JSDate.getDate (LocalTZA env) (now env))) daysOld) in
  match cutoffDate with
  | None =>
      throw (ValidationError "Cast to date failed for value Invalid Date at path createdAt")
  | Some cutoffDate =>
      d <- get_db ;;
      let old l := (log_createdAt l <? cutoffDate)%Z in
      put_db (with_ActivityLogs
                (filter (fun l => negb (old l)) (ActivityLogs d)) d) ;;
      ret (ofZ (Z.of_nat (List.length (filter old (ActivityLogs d)))))
  end.

End MongoDBStorage.

(* ================================================================= *)
(** ** The owner's routes of [server/routes.ts] (behind [requireOwner]) *)

Module OwnerRoutes.

Import Number Mongo Eff Schema.
Open Scope string_scope.
Open Scope eff_scope.

Inductive Body : Type :=
| ErrorJson (error : string)
| SuccessJson
| CleanupJson (deletedCount : number)
| SettingsJson (settings : Settings.t).

Record Response : Type := {
  statusCode : Z;
  body : Body }.

Definition json (b : Body) : Response := {| statusCode := 200; body := b |}.
Definition error_json (code : Z) (error : string) : Response :=
  {| statusCode := code; body := ErrorJson error |}.

(** [DELETE /api/users/:id]. *)
Definition DELETE_api_users (id : string) : M Response :=
  try_catch
    (user <- Storage.getUser id ;;
     match user with
     | None => ret (error_json 404 "User not found")
     | Some user =>
         if User.isOwner user then
           ret (error_json 403 "Cannot delete owner account")
         else
           MongoDBStorage.deleteUser id ;;
           ret (json SuccessJson)
     end)
    (fun _ => ret (error_json 500 "Failed to delete user")).

(** [POST /api/settings]; [settingsData] is the body as
    [insertSettingsSchema.parse] hands it on. *)
Definition POST_api_settings (settingsData : MongoDBStorage.InsertSettings)
  : M Response :=
  try_catch
    (updated <- MongoDBStorage.updateSettings settingsData ;;
     ret (json (SettingsJson updated)))
    (fun _ => ret (error_json 400 "Failed to update settings")).

(** [req.body.daysOld || 2]. *)
Definition daysOld_or_2 (daysOld : option number) : number :=
  match daysOld with
  | Some d => if truthy d then d else 2%Q
  | None => 2%Q
  end.

(** [POST /api/activity/cleanup]. *)
Definition POST_api_activity_cleanup (session : Routes.Session)
    (body_daysOld : option number) : M Response :=
  try_catch
    (let daysOld := daysOld_or_2 body_daysOld in
     deletedCount <- MongoDBStorage.cleanupOldActivityLogs daysOld ;;
     Storage.logActivity
       {| InsertActivityLog.userId := Routes.session_userId session;
          InsertActivityLog.action := "activity_cleanup";
          InsertActivityLog.details :=
            [Lit "Cleaned up "; Num (toString deletedCount);
             Lit " activity logs older than "; Num (toString daysOld);
             Lit " days"] |} ;;
     ret (json (CleanupJson deletedCount)))
    (fun _ => ret (error_json 500 "Failed to cleanup activity logs")).

End OwnerRoutes.

(* ================================================================= *)
(** ** Adding UIDs through the API ([server/api-handler.ts]) *)

Module ApiHandlerAdd.

Import Number Mongo Eff.
Open Scope string_scope.
Open Scope eff_scope.

(** [IPlan], a document of the plans collection. *)
Record IPlan : Type := {
  code : number;
  name : string;
  days : number;
  creditsCost : number;
  plan_isActive : bool }.

(** [d.getHours()] and [d.setHours(hour)], in local time: minutes, seconds
    and milliseconds are kept. *)
Definition getHours (tz : JSDate.Zone) (t : Z) : Z :=
  (JSDate.TimeWithinDay (JSDate.LocalTime tz t) / JSDate.msPerHour)%Z.

Definition setHours (tz : JSDate.Zone) (t : Z) (hour : number) : option Z :=
  let l := JSDate.LocalTime tz t in
  let time := (ToInteger hour * JSDate.msPerHour +
               JSDate.TimeWithinDay l mod JSDate.msPerHour)%Z in
  JSDate.TimeClip (JSDate.UTC tz (JSDate.Day l * JSDate.msPerDay + time)%Z).

(** The request behind [verifyApiKey] with the body keys of the two add
    actions: [uid] and [region] are strings when present, [plan_id] a
    number. *)
Record AddRequest : Type := {
  apiKeyDoc : IApiKey;
  apiUserId : string;
  body_uid : option string;
  body_plan_id : option number;
  body_region : option string }.

(** The JSON bodies; a date is given by its time value. *)
Inductive Body : Type :=
| ErrorJson (error : string)
| AddedJson (uid_id uid : string) (player_name : option string)
            (region : string) (plan_id : number) (plan_name : string)
            (plan_days : number) (start_date expire_date : Z)
            (credits_used : option number) (credits_remaining : number).

Record Response : Type := {
  statusCode : Z;
  body : Body }.

Definition json (b : Body) : Response := {| statusCode := 200; body := b |}.
Definition error_json (code : Z) (error : string) : Response :=
  {| statusCode := code; body := ErrorJson error |}.

(** [const { region = 'PK' } = req.body]. *)
Definition region_of (req : AddRequest) : string :=
  match body_region req with Some r => r | None => "PK" end.

(** [UidModel.countDocuments({ apiKeyId, status: 'active' })]. *)
Definition countActive (d : DB) (apiKeyId : string) : Z :=
  Z.of_nat (List.length
              (filter (fun u => ApiHandler.opt_eqb (Mongo.apiKeyId u) apiKeyId &&
                                (status u =? "active")) (Uids d))).

(** [if (apiKeyDoc.uidLimit) { ... currentUidCount >= apiKeyDoc.uidLimit }]. *)
Definition limit_reached (d : DB) (k : IApiKey) : bool :=
  match uidLimit k with
  | Some limit =>
      truthy limit && leb limit (ofZ (countActive d (key_id k)))
  | None => false
  end.

(** [allowedPlans.length > 0 && !allowedPlans.includes(plan_id)]. *)
Definition plan_refused (k : IApiKey) (plan_id : number) : bool :=
  match allowedPlans k with
  | [] => false
  | l => negb (existsb (eqb plan_id) l)
  end.

(** [new UidModel(fields).save()]: a [region] given as the empty string
    fails the [required] validator of [UidSchema], as a path left out
    does. *)
Definition empty_region (f : UidFields) : list string :=
  match f_region f with
  | Some r => if r =? "" then ["region"] else []
  | None => []
  end.

Definition UidModel_save (f : UidFields) : M IUid :=
  match empty_region f with
  | [] => Storage.UidModel_create f
  | paths =>
      throw (ValidationError
               (validation_message "Uid"
                  (missing "userId" (f_userId f) ++ missing "uidValue" (f_uidValue f) ++
                   paths ++
                   missing "planId" (f_planId f) ++ missing "duration" (f_duration f) ++
                   missing "cost" (f_cost f) ++ missing "expiresAt" (f_expiresAt f))))
  end.

Section Handlers.

(** The plans collection, which the handlers only read. *)
Variable plans : list IPlan.

(** What the player endpoint of the bypass service tells about a UID in a
    region, asked with a base URL and an API key: [data.playerName ||
    data.name], or nothing when the request fails or is not answered with
    [ok]. *)
Variable player_service : string -> string -> string -> string -> option string.

Definition fetchPlayerName (uid region : string) (baseUrl apiKey : option string)
  : option string :=
  if negb (truthy_str baseUrl) || negb (truthy_str apiKey) then None
  else match baseUrl, apiKey with
       | Some b, Some k => player_service b k uid region
       | _, _ => None
       end.

Definition settings_baseUrl (s : option Schema.Settings.t) : option string :=
  match s with Some s => Schema.Settings.baseUrl s | None => None end.
Definition settings_apiKey (s : option Schema.Settings.t) : option string :=
  match s with Some s => Schema.Settings.apiKey s | None => None end.

(** [handleAddUidFree]. *)
Definition handleAddUidFree (req : AddRequest) : M Response :=
  match body_uid req with
  | None => ret (error_json 400 "UID is required")
  | Some uid =>
      if uid =? "" then ret (error_json 400 "UID is required")
      else
        let region := region_of req in
        let userId := apiUserId req in
        d <- get_db ;;
        if limit_reached d (apiKeyDoc req) then
          ret (error_json 403 "UID limit reached for this API key")
        else
          match findById user_id (Users d) userId with
          | None => ret (error_json 404 "User not found")
          | Some user =>
              settings <- Storage.getSettings ;;
              let playerName :=
                fetchPlayerName uid region (settings_baseUrl settings)
                                (settings_apiKey settings) in
              env <- ask ;;
              let duration := 24%Q in
              let expiresAt :=
                setHours (LocalTZA env) (now env)
                         (add (ofZ (getHours (LocalTZA env) (now env))) duration) in
              newUid <- UidModel_save
                          {| f_userId := Some userId;
                             f_apiKeyId := Some (key_id (apiKeyDoc req));
                             f_uidValue := Some uid;
                             f_playerName := playerName;
                             f_region := Some region;
                             f_planId := Some 1%Q;
                             f_duration := Some duration;
                             f_cost := Some 0%Q;
                             f_status := Some "active";
                             f_createdAt := None;
                             f_expiresAt := expiresAt |} ;;
              Storage.ActivityLogModel_create
                userId "create_uid_api_free"
                (Some [Lit "UID "; Str uid; Lit " created via API (FREE - 1 day)"])
                (now env) ;;
              ret (json (AddedJson (uid_id newUid) (uidValue newUid)
                                   (Mongo.playerName newUid) (Mongo.region newUid)
                                   1%Q "1 day" 1%Q
                                   (createdAt newUid) (Mongo.expiresAt newUid)
                                   (Some 0%Q) (credits user)))
          end
  end.

(** [PlanModel.findOne({ code: plan_id, isActive: true })]. *)
Definition find_plan (plan_id : number) : option IPlan :=
  find (fun p => eqb (code p) plan_id && plan_isActive p) plans.

(** [handleAddUid]. *)
Definition handleAddUid (req : AddRequest) : M Response :=
  match body_uid req, body_plan_id req with
  | Some uid, Some plan_id =>
      if (uid =? "") || negb (truthy plan_id) then
        ret (error_json 400 "UID and plan_id are required")
      else
        let region := region_of req in
        let userId := apiUserId req in
        if plan_refused (apiKeyDoc req) plan_id then
          ret (error_json 403 "This plan is not allowed for this API key")
        else
          d <- get_db ;;
          if limit_reached d (apiKeyDoc req) then
            ret (error_json 403 "UID limit reached for this API key")
          else
            match find_plan plan_id with
            | None => ret (error_json 404 "Plan not found or inactive")
            | Some plan =>
                match findById user_id (Users d) userId with
                | None => ret (error_json 404 "User not found")
                | Some user =>
                    if ltb (credits user) (creditsCost plan) then
                      ret (error_json 400 "Insufficient credits")
                    else
                      settings <- Storage.getSettings ;;
                      let playerName :=
                        fetchPlayerName uid region (settings_baseUrl settings)
                                        (settings_apiKey settings) in
                      env <- ask ;;
                      let duration := mul (days plan) 24%Q in
                      let expiresAt :=
                        setHours (LocalTZA env) (now env)
                                 (add (ofZ (getHours (LocalTZA env) (now env)))
                                      duration) in
                      let remaining := sub (credits user) (creditsCost plan) in
                      put_db (with_Users
                                (updateById user_id (Users d) userId
                                            (set_credits remaining)) d) ;;
                      newUid <- UidModel_save
                                  {| f_userId := Some userId;
                                     f_apiKeyId := Some (key_id (apiKeyDoc req));
                                     f_uidValue := Some uid;
                                     f_playerName := playerName;
                                     f_region := Some region;
                                     f_planId := Some plan_id;
                                     f_duration := Some duration;
                                     f_cost := Some (creditsCost plan);
                                     f_status := Some "active";
                                     f_createdAt := None;
                                     f_expiresAt := expiresAt |} ;;
                      Storage.ActivityLogModel_create
                        userId "create_uid_api"
                        (Some [Lit "UID "; Str uid;
                               Lit " created via API with plan "; Str (name plan)])
                        (now env) ;;
                      ret (json (AddedJson (uid_id newUid) (uidValue newUid)
                                           (Mongo.playerName newUid)
                                           (Mongo.region newUid)
                                           plan_id (name plan) (days plan)
                                           (createdAt newUid)
                                           (Mongo.expiresAt newUid)
                                           None remaining))
                end
            end
  | _, _ => ret (error_json 400 "UID and plan_id are required")
  end.

End Handlers.

(** The [try]/[catch] of [app.post("/api/handler", ...)] around a handler. *)
Definition api_handler (handler : AddRequest -> M Response) (req : AddRequest)
  : M Response :=
  try_catch (handler req)
    (fun error =>
       ret (error_json 500 (or_str (message_of error) "Internal server error"))).

End ApiHandlerAdd.

(* ================================================================= *)
(** ** Further vocabulary of the statements *)

Module Props.

Import Number Mongo Eff Schema.
Open Scope string_scope.

(** No usable API settings: there is no settings document, or the first one
    lacks the base URL or the API key. *)
Definition unconfigured (d : DB) : Prop :=
  match SettingsColl d with
  | [] => True
  | s :: _ => Storage.nonempty (baseUrl s) = None \/
              Storage.nonempty (apiKey s) = None
  end.

(** The requests [deleteUID] and [createUIDFree] send. *)
Definition remove_request (this : ApiClient.UIDBypassClient) (uid : string)
  : HttpRequest :=
  ApiClient.fetch_request this "remove_uid_api" [("uid", JStr uid)] "POST".
Definition add_free_request (this : ApiClient.UIDBypassClient) (uid : string)
  : HttpRequest :=
  ApiClient.fetch_request this "add_uid_free_api"
                          [("uid", JStr uid); ("region", JStr "PK")] "POST".

(** A list of UIDs as a [sort({ createdAt: -1 })] leaves it: no UID is
    followed by one created later. *)
Definition newer (a b : IUid) : Prop := (createdAt b <= createdAt a)%Z.
Definition newest_first (l : list Uid.t) : Prop :=
  Sorted.StronglySorted
    (fun a b => (Uid.createdAt b <= Uid.createdAt a)%Z) l.

(** A cleanup request that names no number of days, or zero. *)
Definition no_days (daysOld : option number) : Prop :=
  match daysOld with
  | Some d => (d == 0)%Q
  | None => True
  end.

(** A response of the bypass service that [request] hands on: status [ok],
    a JSON body, no [error] in it. *)
Definition accepted_by (env : Env) (r : HttpRequest) (data : ExtData) : Prop :=
  exists status statusText responseText,
    fetch env r = HttpResponse true status statusText responseText (inl data) /\
    truthy_str (ext_error data) = false.

End Props.

(* ================================================================= *)
(** ** Further sample data *)

Module Fixtures.

Import Number Mongo Eff Schema.
Open Scope string_scope.

(** The client [UIDBypassClient.create] builds from [Sample.settings]. *)
Definition client : ApiClient.UIDBypassClient :=
  {| ApiClient.this_baseUrl := "https://uidbypass.com/public/api/bypassapi.php";
     ApiClient.this_apiKey := "uid_key";
     ApiClient.timeoutMs := 20000 |}.

(** The sample database before the owner has saved any settings. *)
Definition unconfigured_world : World :=
  {| db := MongoDBStorage.with_SettingsColl [] (Sample.database (lit 500));
     sent := [] |}.

(** The plans [initializeDatabase] creates ([DEFAULT_PLANS]). *)
Definition DEFAULT_PLANS : list ApiHandlerAdd.IPlan :=
  [ {| ApiHandlerAdd.code := 1; ApiHandlerAdd.name := "1 day";
       ApiHandlerAdd.days := 1; ApiHandlerAdd.creditsCost := 10;
       ApiHandlerAdd.plan_isActive := true |};
    {| ApiHandlerAdd.code := 2; ApiHandlerAdd.name := "3 days";
       ApiHandlerAdd.days := 3; ApiHandlerAdd.creditsCost := 25;
       ApiHandlerAdd.plan_isActive := true |};
    {| ApiHandlerAdd.code := 3; ApiHandlerAdd.name := "7 days";
       ApiHandlerAdd.days := 7; ApiHandlerAdd.creditsCost := 50;
       ApiHandlerAdd.plan_isActive := true |};
    {| ApiHandlerAdd.code := 4; ApiHandlerAdd.name := "15 days";
       ApiHandlerAdd.days := 15; ApiHandlerAdd.creditsCost := 90;
       ApiHandlerAdd.plan_isActive := true |};
    {| ApiHandlerAdd.code := 5; ApiHandlerAdd.name := "30 days";
       ApiHandlerAdd.days := 30; ApiHandlerAdd.creditsCost := 150;
       ApiHandlerAdd.plan_isActive := true |} ]%Q.

(** A player endpoint that knows no names. *)
Definition no_names (_ _ _ _ : string) : option string := None.

(** An add request of API key [k] of user [owner]. *)
Definition add_request (k owner uid : string) (plan_id : option number)
    (region : option string) : ApiHandlerAdd.AddRequest :=
  {| ApiHandlerAdd.apiKeyDoc := Sample.key k owner;
     ApiHandlerAdd.apiUserId := owner;
     ApiHandlerAdd.body_uid := Some uid;
     ApiHandlerAdd.body_plan_id := plan_id;
     ApiHandlerAdd.body_region := region |}.

End Fixtures.

(* ================================================================= *)
(** * Theorems *)

Unset Implicit Arguments.

(** ** Rounding to binary64 *)

Module NumberFacts.

Import Number.
Open Scope Q_scope.

Lemma pow2_pos e : 0 < 2 ^ e.
Proof. apply Qpower_0_lt. lra. Qed.


Lemma pow2_Z (n : Z) : (0 <= n)%Z -> 2 ^ n == inject_Z (2 ^ n).
Proof. intros. rewrite Zpower_Qpower by assumption. reflexivity. Qed.

Lemma Qnum_pos a : 0 < a -> (0 < Qnum a)%Z.
Proof. destruct a as [p q]. unfold Qlt. simpl. lia. Qed.

Lemma Q_as_div a : a == inject_Z (Qnum a) / inject_Z (Zpos (Qden a)).
Proof. destruct a as [p q]. simpl. rewrite <- Qmake_Qdiv. reflexivity. Qed.

Lemma ilog2_le a : 0 < a -> 2 ^ ilog2 a <= a.
Proof.
  intros Ha. unfold ilog2.
  set (n := Qnum a). set (d := Zpos (Qden a)).
  destruct (Qle_bool (2 ^ (Z.log2 n - Z.log2 d)) a) eqn:E.
  - apply Qle_bool_iff in E. exact E.
  - clear E.
    assert (Hn : (0 < n)%Z) by (apply Qnum_pos; assumption).
    assert (Hd : (0 < d)%Z) by (unfold d; lia).
    pose proof (Z.log2_spec n Hn) as [Hn1 _].
    pose proof (Z.log2_spec d Hd) as [_ Hd2].
    pose proof (Z.log2_nonneg n). pose proof (Z.log2_nonneg d).
    replace (Z.log2 n - Z.log2 d - 1)%Z with (Z.log2 n + - (Z.log2 d + 1))%Z by lia.
    rewrite Qpower_plus by lra. rewrite Qpower_opp.
    rewrite !pow2_Z by lia.
    rewrite (Q_as_div a). fold n d.
    assert (HD : 0 < inject_Z d) by (change 0 with (inject_Z 0); rewrite <- Zlt_Qlt; lia).
    assert (Hy : inject_Z d <= inject_Z (2 ^ (Z.log2 d + 1))) by (rewrite <- Zle_Qle; lia).
    assert (Hx : inject_Z (2 ^ Z.log2 n) <= inject_Z n) by (rewrite <- Zle_Qle; lia).
    assert (Hx0 : 0 < inject_Z (2 ^ Z.log2 n)).
    { change 0 with (inject_Z 0). rewrite <- Zlt_Qlt. apply Z.pow_pos_nonneg; lia. }
    set (x := inject_Z (2 ^ Z.log2 n)) in *. set (y := inject_Z (2 ^ (Z.log2 d + 1))) in *.
    set (N := inject_Z n) in *. set (D := inject_Z d) in *.
    apply Qle_shift_div_l; [assumption|].
    assert (Hyy : x * / y * y == x) by (field; lra).
    assert (Hz : 0 <= x * / y).
    { apply Qmult_le_0_compat; [lra|]. apply Qinv_le_0_compat. lra. }
    set (z := x * / y) in *. nra.
Qed.

Lemma ilog2_lt_pow a E : 0 < a -> a < 2 ^ E -> (ilog2 a < E)%Z.
Proof.
  intros Ha Hlt. pose proof (ilog2_le a Ha) as Hle.
  destruct (Z_lt_le_dec (ilog2 a) E) as [|Hge]; [assumption|exfalso].
  assert (2 ^ E <= 2 ^ ilog2 a) by (apply Qpower_le_compat_l; [assumption|lra]).
  lra.
Qed.

Lemma nearest_even_err s : Qabs (inject_Z (nearest_even s) - s) <= 1#2.
Proof.
  unfold nearest_even.
  pose proof (Qfloor_le s) as Hlo. pose proof (Qlt_floor s) as Hhi.
  rewrite inject_Z_plus in Hhi. change (inject_Z 1) with 1 in Hhi.
  apply Qabs_Qle_condition.
  destruct (Qlt_le_dec (s - inject_Z (Qfloor s)) (1#2)) as [H1|H1].
  - split; lra.
  - destruct (Qlt_le_dec (1#2) (s - inject_Z (Qfloor s))) as [H2|H2].
    + rewrite inject_Z_plus. change (inject_Z 1) with 1. split; lra.
    + destruct (Z.even (Qfloor s)).
      * split; lra.
      * rewrite inject_Z_plus. change (inject_Z 1) with 1. split; lra.
Qed.

Lemma nearest_even_Z (k : Z) : nearest_even (inject_Z k) = k.
Proof.
  unfold nearest_even. rewrite Qfloor_Z.
  destruct (Qlt_le_dec (inject_Z k - inject_Z k) (1#2)) as [H1|H1]; [reflexivity|exfalso; lra].
Qed.

Lemma rnd_abs_err q : ~ q == 0 -> Qabs (rnd q - q) <= (1#2) * ulp (Qabs q).
Proof.
  intros Hq. unfold rnd.
  destruct (Qeq_bool q 0) eqn:E; [apply Qeq_bool_iff in E; contradiction|clear E].
  rewrite Qred_correct.
  set (a := Qabs q). set (u := ulp a).
  assert (Hu : 0 < u) by apply pow2_pos.
  pose proof (nearest_even_err (a / u)) as Herr.
  set (k := inject_Z (nearest_even (a / u))) in *.
  apply Qabs_Qle_condition in Herr.
  assert (Hau : a / u * u == a) by (field; lra).
  set (s := a / u) in *.
  apply Qabs_Qle_condition.
  destruct (Qlt_le_dec q 0) as [Hneg|Hpos].
  - assert (Ha : a == - q) by (apply Qabs_neg; lra). split; nra.
  - assert (Ha : a == q) by (apply Qabs_pos; lra). split; nra.
Qed.

Lemma rnd_zero q : q == 0 -> rnd q = 0.
Proof. intros H. unfold rnd. apply Qeq_bool_iff in H. rewrite H. reflexivity. Qed.

Lemma ulp_le a E : 0 < a -> a < 2 ^ E -> ulp a <= 2 ^ (E - 53).
Proof.
  intros Ha Hlt. unfold ulp. apply Qpower_le_compat_l; [|lra].
  pose proof (ilog2_lt_pow a E Ha Hlt). lia.
Qed.

Lemma Qabs_gt0 q : ~ q == 0 -> 0 < Qabs q.
Proof.
  intros Hq. destruct (Qlt_le_dec q 0) as [H|H].
  - rewrite Qabs_neg by lra. lra.
  - rewrite Qabs_pos by lra. destruct (Qeq_dec q 0); [contradiction|lra].
Qed.

Lemma pow2_half e : (1#2) * 2 ^ (e + 1) == 2 ^ e.
Proof. rewrite Qpower_plus by lra. change (2 ^ 1) with 2. field. Qed.

Lemma rnd_err_bound q E : Qabs q < 2 ^ E -> Qabs (rnd q - q) <= 2 ^ (E - 54).
Proof.
  intros Hq.
  destruct (Qeq_dec q 0) as [Hz|Hnz].
  - rewrite (rnd_zero q Hz).
    assert (Qabs (0 - q) == 0) as -> by (rewrite Hz; reflexivity).
    apply Qlt_le_weak, pow2_pos.
  - pose proof (rnd_abs_err q Hnz) as Herr.
    pose proof (ulp_le (Qabs q) E (Qabs_gt0 q Hnz) Hq) as Hu.
    pose proof (pow2_half (E - 54)) as Hh.
    replace (E - 54 + 1)%Z with (E - 53)%Z in Hh by lia.
    lra.
Qed.

Lemma nearest_even_int s k : s == inject_Z k -> nearest_even s = k.
Proof.
  intros Hs. unfold nearest_even. rewrite (Qfloor_comp _ _ Hs), Qfloor_Z.
  destruct (Qlt_le_dec (s - inject_Z k) (1#2)) as [H1|H1]; [reflexivity|exfalso; lra].
Qed.

Lemma rnd_exact q m e : q == inject_Z m * 2 ^ e -> (Z.abs m < 2 ^ 53)%Z -> rnd q == q.
Proof.
  intros Hq Hm.
  destruct (Qeq_dec q 0) as [Hz|Hnz]; [rewrite (rnd_zero q Hz), Hz; reflexivity|].
  unfold rnd.
  destruct (Qeq_bool q 0) eqn:E0; [apply Qeq_bool_iff in E0; contradiction|clear E0].
  rewrite Qred_correct.
  set (a := Qabs q).
  assert (Ha0 : 0 < a) by (apply Qabs_gt0; assumption).
  assert (Ha : a == inject_Z (Z.abs m) * 2 ^ e).
  { unfold a. rewrite Hq, Qabs_Qmult, (Qabs_pos (2 ^ e)) by (apply Qlt_le_weak, pow2_pos).
    apply Qmult_comp; [|reflexivity]. unfold Qabs, inject_Z. reflexivity. }
  assert (Hlt : a < 2 ^ (53 + e)).
  { rewrite Ha, Qpower_plus by lra. pose proof (pow2_pos e).
    assert (inject_Z (Z.abs m) < 2 ^ 53).
    { rewrite pow2_Z by lia. rewrite <- Zlt_Qlt. assumption. }
    nra. }
  pose proof (ilog2_lt_pow a _ Ha0 Hlt) as Hil.
  unfold ulp. set (il := ilog2 a) in *.
  assert (Hs : a / 2 ^ (il - 52) == inject_Z (Z.abs m * 2 ^ (e - (il - 52)))).
  { rewrite inject_Z_mult, <- pow2_Z by lia.
    replace (e - (il - 52))%Z with (e + - (il - 52))%Z by lia.
    rewrite Qpower_plus, Qpower_opp by lra. rewrite Ha.
    field. pose proof (pow2_pos (il - 52)). lra. }
  rewrite (nearest_even_int _ _ Hs).
  assert (Hback : a / 2 ^ (il - 52) * 2 ^ (il - 52) == a).
  { field. pose proof (pow2_pos (il - 52)). lra. }
  destruct (Qlt_le_dec q 0) as [Hneg|Hpos]; rewrite <- Hs, Hback; unfold a.
  - rewrite Qabs_neg by lra. ring.
  - rewrite Qabs_pos by lra. reflexivity.
Qed.

Lemma rnd_Z n : (Z.abs n < 2 ^ 53)%Z -> rnd (inject_Z n) == inject_Z n.
Proof.
  intros Hn. apply (rnd_exact _ n 0); [|assumption].
  change (2 ^ 0) with 1. ring.
Qed.


Lemma rnd_rel_err q : Qabs (rnd q - q) <= Qabs q * (1 # 9007199254740992).
Proof.
  destruct (Qeq_dec q 0) as [Hz|Hnz].
  - rewrite (rnd_zero q Hz).
    assert (Qabs (0 - q) == 0) as -> by (rewrite Hz; reflexivity).
    pose proof (Qabs_nonneg q). nra.
  - pose proof (rnd_abs_err q Hnz) as Herr.
    pose proof (ilog2_le (Qabs q) (Qabs_gt0 q Hnz)) as Hil.
    unfold ulp in Herr.
    replace (ilog2 (Qabs q) - 52)%Z with (ilog2 (Qabs q) + -52)%Z in Herr by lia.
    rewrite Qpower_plus in Herr by lra.
    assert (H52 : 2 ^ (-52) == 1 # 4503599627370496) by reflexivity.
    rewrite H52 in Herr.
    pose proof (pow2_pos (ilog2 (Qabs q))).
    set (P := 2 ^ ilog2 (Qabs q)) in *. set (a := Qabs q) in *.
    set (d := Qabs (rnd q - q)) in *. nra.
Qed.

Lemma rnd_neg q : q < 0 -> rnd q < 0.
Proof.
  intros Hq. pose proof (rnd_rel_err q) as H.
  rewrite (Qabs_neg q) in H by lra.
  apply Qabs_Qle_condition in H. nra.
Qed.

Lemma rnd_nonneg q : 0 <= q -> 0 <= rnd q.
Proof.
  intros Hq. pose proof (rnd_rel_err q) as H.
  rewrite (Qabs_pos q) in H by lra.
  apply Qabs_Qle_condition in H. nra.
Qed.

Lemma Z_between (f k : Z) :
  inject_Z f < inject_Z k + 1 -> inject_Z k < inject_Z f + 1 -> f = k.
Proof.
  intros H1 H2.
  assert (E1 : inject_Z k + 1 == inject_Z (k + 1)) by (rewrite inject_Z_plus; reflexivity).
  assert (E2 : inject_Z f + 1 == inject_Z (f + 1)) by (rewrite inject_Z_plus; reflexivity).
  rewrite E1 in H1. rewrite E2 in H2. rewrite <- Zlt_Qlt in H1, H2. lia.
Qed.

Lemma toFixed2_near x k :
  Qabs (x * 100 - inject_Z k) < 1#2 -> toFixed2_cents x = k.
Proof.
  intros H. apply Qabs_Qlt_condition in H. destruct H as [Hlo Hhi].
  unfold toFixed2_cents.
  destruct (Qlt_le_dec x 0) as [Hneg|Hpos].
  - pose proof (Qfloor_le (- x * 100 + (1#2))) as F1.
    pose proof (Qlt_floor (- x * 100 + (1#2))) as F2.
    set (f := Qfloor (- x * 100 + (1#2))) in *.
    rewrite inject_Z_plus in F2. change (inject_Z 1) with 1 in F2.
    assert (f = (- k)%Z); [|lia].
    apply Z_between; rewrite inject_Z_opp; lra.
  - pose proof (Qfloor_le (x * 100 + (1#2))) as F1.
    pose proof (Qlt_floor (x * 100 + (1#2))) as F2.
    set (f := Qfloor (x * 100 + (1#2))) in *.
    rewrite inject_Z_plus in F2. change (inject_Z 1) with 1 in F2.
    apply Z_between; lra.
Qed.

Lemma Qceiling_unique x k :
  inject_Z k - 1 < x -> x <= inject_Z k -> Qceiling x = k.
Proof.
  intros H1 H2. unfold Qceiling.
  pose proof (Qfloor_le (- x)) as F1. pose proof (Qlt_floor (- x)) as F2.
  set (f := Qfloor (- x)) in *.
  rewrite inject_Z_plus in F2. change (inject_Z 1) with 1 in F2.
  assert (f = (- k)%Z); [|lia].
  apply Z_between; rewrite inject_Z_opp; lra.
Qed.

Lemma ToInteger_whole x k : x == inject_Z k -> ToInteger x = k.
Proof.
  intros H. unfold ToInteger.
  destruct (Qlt_le_dec x 0).
  - apply Qceiling_unique; lra.
  - rewrite (Qfloor_comp _ _ H). apply Qfloor_Z.
Qed.

Lemma cents_value c : (c # 100) * 100 == inject_Z c.
Proof. rewrite (Qmake_Qdiv c 100). field. Qed.

Lemma cents_bound c : (Z.abs c < cents_cap)%Z -> Qabs (c # 100) < 2 ^ 42.
Proof.
  intros Hc. rewrite <- Zabs_Qabs. unfold cents_cap in Hc.
  rewrite (Qmake_Qdiv (Z.abs c) 100).
  apply Qlt_shift_div_r; [reflexivity|].
  assert (E : 2 ^ 42 * inject_Z 100 == inject_Z 439804651110400) by reflexivity.
  rewrite E. rewrite <- Zlt_Qlt. assumption.
Qed.

Lemma lit_err c :
  (Z.abs c < cents_cap)%Z -> Qabs (lit c - (c # 100)) <= 1 # 4096.
Proof.
  intros Hc. unfold lit.
  pose proof (rnd_err_bound (c # 100) 42 (cents_bound c Hc)) as B.
  assert (E : 2 ^ (42 - 54) == 1 # 4096) by reflexivity.
  rewrite E in B. exact B.
Qed.

Ltac cents_facts c p Hc Hp :=
  let Ec := fresh "Ec" in let Ep := fresh "Ep" in
  let Bc := fresh "Bc" in let Bp := fresh "Bp" in
  let Vc := fresh "Vc" in let Vp := fresh "Vp" in
  let P42 := fresh "P42" in
  pose proof (lit_err c Hc) as Ec; pose proof (lit_err p Hp) as Ep;
  pose proof (cents_bound c Hc) as Bc; pose proof (cents_bound p Hp) as Bp;
  pose proof (cents_value c) as Vc; pose proof (cents_value p) as Vp;
  apply Qabs_Qle_condition in Ec, Ep; apply Qabs_Qlt_condition in Bc, Bp;
  assert (P42 : 2 ^ 42 == 4398046511104 # 1) by reflexivity;
  rewrite P42 in Bc, Bp.

Lemma sum_err x :
  Qabs x < 17592186044416 # 1 -> Qabs (rnd x - x) <= 1 # 1024.
Proof.
  intros Hs.
  assert (P44 : 2 ^ 44 == 17592186044416 # 1) by reflexivity.
  rewrite <- P44 in Hs.
  pose proof (rnd_err_bound _ 44 Hs) as Es.
  assert (E : 2 ^ (44 - 54) == 1 # 1024) by reflexivity.
  rewrite E in Es. exact Es.
Qed.

Lemma add_cents c p :
  (Z.abs c < cents_cap)%Z -> (Z.abs p < cents_cap)%Z ->
  toFixed2_cents (add (lit c) (lit p)) = (c + p)%Z.
Proof.
  intros Hc Hp. apply toFixed2_near. cents_facts c p Hc Hp.
  assert (Hs : Qabs (lit c + lit p) < 17592186044416 # 1)
    by (apply Qabs_Qlt_condition; lra).
  pose proof (sum_err _ Hs) as Es. apply Qabs_Qle_condition in Es.
  unfold add. rewrite inject_Z_plus.
  apply Qabs_Qlt_condition. lra.
Qed.

Lemma sub_cents c p :
  (Z.abs c < cents_cap)%Z -> (Z.abs p < cents_cap)%Z ->
  toFixed2_cents (sub (lit c) (lit p)) = (c - p)%Z.
Proof.
  intros Hc Hp. apply toFixed2_near. cents_facts c p Hc Hp.
  assert (Hs : Qabs (lit c - lit p) < 17592186044416 # 1)
    by (apply Qabs_Qlt_condition; lra).
  pose proof (sum_err _ Hs) as Es. apply Qabs_Qle_condition in Es.
  unfold sub. unfold Z.sub. rewrite inject_Z_plus, inject_Z_opp.
  apply Qabs_Qlt_condition. lra.
Qed.

Lemma Z_succ_Q (c p : Z) : (c < p)%Z -> inject_Z c + 1 <= inject_Z p.
Proof.
  intros H. assert (E : inject_Z c + 1 == inject_Z (c + 1)) by (rewrite inject_Z_plus; reflexivity).
  rewrite E, <- Zle_Qle. lia.
Qed.

Lemma lt_cents c p :
  (Z.abs c < cents_cap)%Z -> (Z.abs p < cents_cap)%Z ->
  ltb (lit c) (lit p) = (c <? p)%Z.
Proof.
  intros Hc Hp. cents_facts c p Hc Hp.
  unfold ltb. destruct (Z.ltb_spec c p) as [Hlt|Hge].
  - pose proof (Z_succ_Q c p Hlt).
    destruct (Qle_bool (lit p) (lit c)) eqn:E; [|reflexivity].
    apply Qle_bool_iff in E. lra.
  - destruct (Z.eq_dec c p) as [->|Hne].
    + assert (Qle_bool (lit p) (lit p) = true) as -> by (apply Qle_bool_iff; lra). reflexivity.
    + assert (Hpc : (p < c)%Z) by lia. pose proof (Z_succ_Q p c Hpc).
      assert (Qle_bool (lit p) (lit c) = true) as -> by (apply Qle_bool_iff; lra). reflexivity.
Qed.

Lemma sub_cents_negative c p :
  (Z.abs c < cents_cap)%Z -> (Z.abs p < cents_cap)%Z ->
  ltb (sub (lit c) (lit p)) 0 = (c <? p)%Z.
Proof.
  intros Hc Hp. cents_facts c p Hc Hp.
  unfold ltb, sub. destruct (Z.ltb_spec c p) as [Hlt|Hge].
  - pose proof (Z_succ_Q c p Hlt).
    assert (Hneg : lit c - lit p < 0) by lra.
    pose proof (rnd_neg _ Hneg) as Hr.
    destruct (Qle_bool 0 (rnd (lit c - lit p))) eqn:E; [|reflexivity].
    apply Qle_bool_iff in E. lra.
  - assert (Hnn : 0 <= lit c - lit p).
    { destruct (Z.eq_dec c p) as [->|Hne]; [lra|].
      assert (Hpc : (p < c)%Z) by lia. pose proof (Z_succ_Q p c Hpc). lra. }
    pose proof (rnd_nonneg _ Hnn) as Hr.
    assert (Qle_bool 0 (rnd (lit c - lit p)) = true) as -> by (apply Qle_bool_iff; lra).
    reflexivity.
Qed.

Lemma ofZ_whole n : (Z.abs n < 2 ^ 53)%Z -> ofZ n == inject_Z n.
Proof. apply rnd_Z. Qed.

Lemma rnd_whole x n : x == inject_Z n -> (Z.abs n < 2 ^ 53)%Z -> rnd x == inject_Z n.
Proof.
  intros Hx Hn. rewrite <- Hx. apply (rnd_exact x n 0); [|assumption].
  rewrite Hx. change (2 ^ 0) with 1. ring.
Qed.

Lemma add_whole x y a b :
  x == inject_Z a -> y == inject_Z b -> (Z.abs (a + b) < 2 ^ 53)%Z ->
  add x y == inject_Z (a + b).
Proof.
  intros Hx Hy H. unfold add. apply rnd_whole; [|assumption].
  rewrite Hx, Hy, inject_Z_plus. reflexivity.
Qed.


(** Hours to days: binary64 division by 24 followed by [Math.ceil] is the
    exact ceiling for every whole number of hours below 2^53. *)
Lemma hours_to_days n :
  (0 <= n < 2 ^ 53)%Z ->
  Qceiling (div (inject_Z n) 24) = ((n + 23) / 24)%Z.
Proof.
  intros Hn. set (k := ((n + 23) / 24)%Z).
  assert (Hk : (24 * (k - 1) < n <= 24 * k)%Z).
  { unfold k. pose proof (Z.div_mod (n + 23) 24 ltac:(lia)).
    pose proof (Z.mod_pos_bound (n + 23) 24 ltac:(lia)). lia. }
  unfold div.
  destruct (Z.eq_dec n (24 * k)) as [E|NE].
  - assert (Hq : inject_Z n / 24 == inject_Z k).
    { rewrite E, inject_Z_mult. change (inject_Z 24) with 24. field. }
    assert (Hr : rnd (inject_Z n / 24) == inject_Z k) by (apply rnd_whole; [assumption|lia]).
    apply Qceiling_unique; lra.
  - assert (H1 : inject_Z (24 * (k - 1)) + 1 <= inject_Z n) by (apply Z_succ_Q; lia).
    assert (H2 : inject_Z n + 1 <= inject_Z (24 * k)) by (apply Z_succ_Q; lia).
    rewrite inject_Z_mult in H1, H2. unfold Z.sub in H1.
    rewrite inject_Z_plus, inject_Z_opp in H1.
    change (inject_Z 24) with 24 in *. change (inject_Z 1) with 1 in *.
    assert (Hn53 : inject_Z n < 9007199254740992 # 1).
    { change (9007199254740992 # 1) with (inject_Z (2 ^ 53)). rewrite <- Zlt_Qlt. lia. }
    assert (Hn0 : 0 <= inject_Z n).
    { change 0 with (inject_Z 0). rewrite <- Zle_Qle. lia. }
    assert (Hq : inject_Z n / 24 * 24 == inject_Z n) by field.
    set (q := inject_Z n / 24) in *.
    assert (Hb : Qabs q < 2 ^ 49).
    { assert (P : 2 ^ 49 == 562949953421312 # 1) by reflexivity. rewrite P.
      apply Qabs_Qlt_condition. lra. }
    pose proof (rnd_err_bound q 49 Hb) as Er.
    assert (P : 2 ^ (49 - 54) == 1 # 32) by reflexivity. rewrite P in Er.
    apply Qabs_Qle_condition in Er.
    apply Qceiling_unique; lra.
Qed.

End NumberFacts.

(* ================================================================= *)
(** ** Facts about the handlers *)

Module HandlerFacts.

Import Number Mongo Eff Schema Spec NumberFacts.
Import Routes.
Open Scope string_scope.

Ltac run :=
  unfold bind, try_catch, ret, throw, ask, get_db, put_db, do_fetch in *; simpl in *.

Ltac split_match :=
  match goal with
  | |- context [match ?x with _ => _ end] => destruct x eqn:?; simpl in *
  | |- context [if ?x then _ else _] => destruct x eqn:?; simpl in *
  end.

Lemma keeps_ret {A} (a : A) : keeps_db (ret a).
Proof. intros env w. reflexivity. Qed.

Lemma keeps_throw {A} e : keeps_db (@throw A e).
Proof. intros env w. reflexivity. Qed.

Lemma keeps_bind {A B} (m : M A) (k : A -> M B) :
  keeps_db m -> (forall a, keeps_db (k a)) -> keeps_db (bind m k).
Proof.
  intros Hm Hk env w. unfold bind. specialize (Hm env w).
  destruct (m env w) as [[a|e] w1]; simpl in *.
  - rewrite (Hk a env w1). assumption.
  - assumption.
Qed.

Lemma keeps_try {A} (m : M A) (h : exn -> M A) :
  keeps_db m -> (forall e, keeps_db (h e)) -> keeps_db (try_catch m h).
Proof.
  intros Hm Hh env w. unfold try_catch. specialize (Hm env w).
  destruct (m env w) as [[a|e] w1]; simpl in *.
  - assumption.
  - rewrite (Hh e env w1). assumption.
Qed.

Lemma keeps_ask : keeps_db ask.
Proof. intros env w. reflexivity. Qed.
Lemma keeps_get_db : keeps_db get_db.
Proof. intros env w. reflexivity. Qed.
Lemma keeps_do_fetch r : keeps_db (do_fetch r).
Proof. intros env w. reflexivity. Qed.

Ltac keeps :=
  repeat first
    [ apply keeps_ret | apply keeps_throw | apply keeps_ask | apply keeps_get_db
    | apply keeps_do_fetch
    | apply keeps_bind; [|intros ?]
    | apply keeps_try; [|intros ?]
    | match goal with
      | |- keeps_db (match ?x with _ => _ end) => destruct x
      | |- keeps_db (if ?x then _ else _) => destruct x
      end
    | assumption ].

Lemma keeps_getSettings : keeps_db Storage.getSettings.
Proof. unfold Storage.getSettings. keeps. Qed.
Lemma keeps_getUser id : keeps_db (Storage.getUser id).
Proof. unfold Storage.getUser. keeps. Qed.
Lemma keeps_getUid id : keeps_db (Storage.getUid id).
Proof. unfold Storage.getUid. keeps. Qed.
Lemma keeps_getUserUids id : keeps_db (Storage.getUserUids id).
Proof. unfold Storage.getUserUids. keeps. Qed.

Lemma keeps_V1_create : keeps_db ApiClient.V1.create.
Proof. unfold ApiClient.V1.create. pose proof keeps_getSettings. keeps. Qed.
Lemma keeps_V2_create : keeps_db ApiClient.V2.create.
Proof. unfold ApiClient.V2.create. pose proof keeps_getSettings. keeps. Qed.
Lemma keeps_new_URL this : keeps_db (ApiClient.new_URL this).
Proof. unfold ApiClient.new_URL. apply keeps_bind; [apply keeps_ask|intros env]. destruct (URL_ok env _); keeps. Qed.
Lemma keeps_V1_request this a p m : keeps_db (ApiClient.V1.request this a p m).
Proof. unfold ApiClient.V1.request. pose proof (keeps_new_URL this). keeps. Qed.
Lemma keeps_V2_request this a p m : keeps_db (ApiClient.V2.request this a p m).
Proof. unfold ApiClient.V2.request. pose proof (keeps_new_URL this). keeps. Qed.

Lemma api_client_remote_only : remote_only ApiClient.api_client.
Proof.
  constructor; simpl.
  - apply keeps_V1_create.
  - intros. apply keeps_V1_request.
  - intros. apply keeps_V1_request.
  - intros f H. discriminate.
Qed.

Lemma api_client_rev_remote_only : remote_only ApiClient.api_client_rev.
Proof.
  constructor; simpl.
  - apply keeps_V2_create.
  - intros. apply keeps_V2_request.
  - intros. apply keeps_V2_request.
  - intros f H. injection H as <-. intros. unfold ApiClient.V2.updateUID.
    apply keeps_bind; intros; apply keeps_V2_request.
Qed.

(** The create handler never writes: [storage.createUid] is rejected by the schema. *)
Lemma keeps_createUid c : keeps_db (Storage.createUid c).
Proof.
  unfold Storage.createUid, Storage.UidModel_create.
  apply keeps_bind; [apply keeps_ask|intros env].
  apply keeps_bind; [|intros; keeps].
  apply keeps_bind; [apply keeps_ask|intros env'].
  apply keeps_bind; [apply keeps_get_db|intros d].
  unfold UidSchema_build. simpl. keeps.
Qed.

Lemma keeps_parse b : keeps_db (insertUidSchema_parse b).
Proof. unfold insertUidSchema_parse. keeps. Qed.

(** [storage.createUid] always throws: the document lacks [planId]. *)
Lemma createUid_throws c env w :
  exists m, Storage.createUid c env w = (Throw (ValidationError m), w).
Proof.
  unfold Storage.createUid, Storage.UidModel_create, UidSchema_build. run.
  eexists. reflexivity.
Qed.

Lemma POST_api_uids_keeps_db client :
  remote_only client -> forall session b, keeps_db (POST_api_uids client session b).
Proof.
  intros [Hc Hu Hd _] session b. unfold POST_api_uids.
  pose proof (keeps_parse b). pose proof keeps_getUser.
  apply keeps_try; [|intros; keeps].
  apply keeps_bind; [assumption|intros uidData].
  destruct (_ && _); [keeps|].
  destruct (cost_ok _); [|keeps].
  apply keeps_bind; [apply keeps_getUser|intros [user|]]; [|keeps].
  destruct (ltb _ _); [keeps|].
  apply keeps_try; [|intros []; keeps].
  apply keeps_bind; [apply keeps_ask|intros env].
  apply keeps_bind; [apply Hc|intros this].
  apply keeps_bind; [apply Hu|intros data].
  intros env' w. unfold bind at 1.
  destruct (createUid_throws {|
      CreateUid.userId := InsertUid.userId uidData;
      CreateUid.uidValue := InsertUid.uidValue uidData;
      CreateUid.duration := InsertUid.duration uidData;
      CreateUid.planId :=
        match ext_plan_id data with
        | Some p => p
        | None => JNumStr (toString (Math_ceil (div (InsertUid.duration uidData) 24)))
        end;
      CreateUid.cost := toFixed2 n;
      CreateUid.expiresAt :=
        JSDate.newDate (add (ofZ (now env)) (mul (InsertUid.duration uidData) 3600000)) |} env' w) as [m ->].
  reflexivity.
Qed.

Ltac break :=
  match goal with
  | H : (_, _) = (_, _) |- _ => inversion H; subst; clear H
  | H : Ok _ = Ok _ |- _ => inversion H; subst; clear H
  | H : Some _ = Some _ |- _ => inversion H; subst; clear H
  | H : Ok _ = Throw _ |- _ => discriminate H
  | H : Throw _ = Ok _ |- _ => discriminate H
  | H : Some _ = None |- _ => discriminate H
  | H : None = Some _ |- _ => discriminate H
  end.

Ltac split_inner :=
  match goal with
  | |- context [match ?x with _ => _ end] =>
      lazymatch x with
      | context [match _ with _ => _ end] => fail
      | _ => destruct x eqn:?
      end
  end.

Ltac createUid_absurd :=
  match goal with
  | H : Storage.createUid ?c ?env ?w = _ |- _ =>
      let m := fresh "m" in let Hm := fresh "Hm" in
      destruct (createUid_throws c env w) as [m Hm]; rewrite Hm in H; discriminate
  end.

Ltac frame_facts Hro :=
  repeat match goal with
  | H : @ApiClient.create _ ?env ?w = (_, ?w1) |- _ =>
      lazymatch goal with
      | _ : db w1 = db w |- _ => fail
      | _ => let F := fresh "F" in
             pose proof (create_keeps Hro env w) as F; rewrite H in F; cbn [snd] in F
      end
  | H : @ApiClient.createUID _ ?t ?u ?d ?env ?w = (_, ?w1) |- _ =>
      lazymatch goal with
      | _ : db w1 = db w |- _ => fail
      | _ => let F := fresh "F" in
             pose proof (createUID_keeps Hro t u d env w) as F; rewrite H in F; cbn [snd] in F
      end
  | H : @ApiClient.deleteUID _ ?t ?u ?env ?w = (_, ?w1) |- _ =>
      lazymatch goal with
      | _ : db w1 = db w |- _ => fail
      | _ => let F := fresh "F" in
             pose proof (deleteUID_keeps Hro t u env w) as F; rewrite H in F; cbn [snd] in F
      end
  | H1 : @ApiClient.updateUID _ = Some ?f, H : ?f ?t ?o ?n ?env ?w = (_, ?w1) |- _ =>
      lazymatch goal with
      | _ : db w1 = db w |- _ => fail
      | _ => let F := fresh "F" in
             pose proof (updateUID_keeps Hro H1 t o n env w) as F; rewrite H in F; cbn [snd] in F
      end
  end.

Ltac unfold_eff :=
  unfold bind, try_catch, ret, throw, ask, get_db, put_db in *.

Ltac crunch := repeat (split_inner; cbn [fst snd db sent] in *; repeat break).

Lemma V2_deleteUID_sent this uid env w :
  sent (snd (ApiClient.V2.deleteUID this uid env w)) = sent w \/
  sent (snd (ApiClient.V2.deleteUID this uid env w)) =
    ApiClient.fetch_request this "remove_uid_api" [("uid", JStr uid)] "POST" :: sent w.
Proof.
  unfold ApiClient.V2.deleteUID, ApiClient.V2.request, ApiClient.new_URL.
  unfold_eff. unfold do_fetch.
  crunch; auto.
Qed.

Section CollectionFacts.
Variable A : Type.
Variable key : A -> string.

Lemma findById_In l id d : findById key l id = Some d -> In d l /\ key d = id.
Proof.
  induction l as [|x l IH]; simpl; [discriminate|].
  destruct (key x =? id) eqn:E.
  - intros [= <-]. apply String.eqb_eq in E. auto.
  - intros H. destruct (IH H). auto.
Qed.

Lemma findById_unique l d :
  NoDup (map key l) -> In d l -> findById key l (key d) = Some d.
Proof.
  induction l as [|x l IH]; simpl; [contradiction|].
  intros Hnd Hin. inversion Hnd as [|? ? Hx Hl]; subst.
  destruct (key x =? key d) eqn:E.
  - destruct Hin as [->|Hin]; [reflexivity|].
    apply String.eqb_eq in E. exfalso. apply Hx. rewrite E. apply in_map. assumption.
  - destruct Hin as [->|Hin]; [rewrite String.eqb_refl in E; discriminate|].
    apply IH; assumption.
Qed.

Lemma findById_updateById l id f :
  (forall d, key (f d) = key d) ->
  findById key (updateById key l id f) id = option_map f (findById key l id).
Proof.
  intros Hf. induction l as [|x l IH]; simpl; [reflexivity|].
  destruct (key x =? id) eqn:E; simpl.
  - rewrite Hf, E. reflexivity.
  - rewrite E. assumption.
Qed.

Lemma findById_updateById_other l id id' f :
  (forall d, key (f d) = key d) -> id' <> id ->
  findById key (updateById key l id f) id' = findById key l id'.
Proof.
  intros Hf Hne. induction l as [|x l IH]; simpl; [reflexivity|].
  destruct (key x =? id) eqn:E; simpl.
  - rewrite Hf. apply String.eqb_eq in E. subst id.
    destruct (key x =? id') eqn:E'; [apply String.eqb_eq in E'; congruence|reflexivity].
  - destruct (key x =? id'); [reflexivity|assumption].
Qed.


Lemma findById_not_in l id : ~ In id (map key l) -> findById key l id = None.
Proof.
  induction l as [|x l IH]; simpl; [reflexivity|].
  intros H. destruct (key x =? id) eqn:E.
  - apply String.eqb_eq in E. exfalso. auto.
  - apply IH. auto.
Qed.

Lemma findById_deleteById l id :
  NoDup (map key l) -> findById key (deleteById key l id) id = None.
Proof.
  induction l as [|x l IH]; simpl; [reflexivity|].
  intros Hnd. inversion Hnd as [|? ? Hx Hl]; subst.
  destruct (key x =? id) eqn:E; simpl.
  - apply String.eqb_eq in E. subst id. apply findById_not_in. assumption.
  - rewrite E. apply IH. assumption.
Qed.

Lemma length_updateById l id f :
  List.length (updateById key l id f) = List.length l.
Proof.
  induction l as [|x l IH]; simpl; [reflexivity|].
  destruct (key x =? id); simpl; congruence.
Qed.

End CollectionFacts.

Import ApiHandler.

Lemma find_scoped_eq req env w :
  find_scoped req env w = (Ok (find (selects req) (Uids (db w))), w).
Proof.
  unfold find_scoped, selects. unfold_eff.
  destruct (truthy_str (body_uid_id req)); reflexivity.
Qed.

Lemma opt_eqb_eq a b : opt_eqb a b = true <-> a = Some b.
Proof.
  destruct a as [x|]; simpl.
  - rewrite String.eqb_eq. split; [intros ->; reflexivity|intros [= ->]; reflexivity].
  - split; discriminate.
Qed.

Lemma selects_iff req u : selects req u = true <-> names req u /\ created_by req u.
Proof.
  unfold selects, names, created_by.
  destruct (truthy_str (body_uid_id req)); rewrite andb_true_iff, !opt_eqb_eq; tauto.
Qed.



Lemma gives_uid_test req :
  gives_uid req ->
  negb (truthy_str (body_uid_id req)) && negb (truthy_str (body_uid req)) = false.
Proof. intros [H|H]; rewrite H; simpl; [reflexivity|apply andb_false_r]. Qed.

Lemma set_status_id s d : uid_id (set_status s d) = uid_id d.
Proof. reflexivity. Qed.
Lemma set_uidValue_id s d : uid_id (set_uidValue s d) = uid_id d.
Proof. reflexivity. Qed.

Lemma handleRemoveUid_found req env w doc :
  gives_uid req ->
  find (selects req) (Uids (db w)) = Some doc ->
  handleRemoveUid req env w =
  (Ok (json (RemovedJson (uid_id doc) (uidValue doc) (playerName doc))),
   {| db := with_ActivityLogs
              (ActivityLogs (db w) ++
               [{| log_userId := apiUserId req; action := "delete_uid_api";
                   details := Some [Lit "UID "; Str (uidValue doc); Lit " deleted via API"];
                   log_createdAt := now env |}])
              (with_Uids (updateById uid_id (Uids (db w)) (uid_id doc) (set_status "deleted"))
                         (db w));
      sent := sent w |}).
Proof.
  intros Hg Hf. unfold handleRemoveUid. rewrite (gives_uid_test req Hg).
  unfold bind at 1. rewrite find_scoped_eq, Hf.
  unfold save, Storage.ActivityLogModel_create. unfold_eff. reflexivity.
Qed.


Lemma DELETE_success client session id env w doc :
  remote_only client ->
  lookup_uid (db w) id = Some doc ->
  response (DELETE_api_uids client session id env w) = Some (Routes.json Routes.SuccessJson) ->
  Uids (db (after (DELETE_api_uids client session id env w))) =
    deleteById uid_id (Uids (db w)) id /\
  Users (db (after (DELETE_api_uids client session id env w))) = Users (db w) /\
  succeeds (external_delete client (uidValue doc)) env w /\
  logged w (after (DELETE_api_uids client session id env w))
         (session_userId session) "delete_uid".
Proof.
  intros Hro Hdoc. unfold lookup_uid in *.
  unfold succeeds, external_delete, response, after, logged.
  unfold DELETE_api_uids, Storage.getUid, Storage.deleteUid, Storage.logActivity,
    Storage.ActivityLogModel_create.
  unfold_eff. rewrite Hdoc. cbn [option_map Storage.toUid Uid.userId Uid.uidValue].
  crunch; frame_facts Hro;
    cbn [fst snd db sent Uids Users ActivityLogs with_Uids with_ActivityLogs
         InsertActivityLog.userId InsertActivityLog.action InsertActivityLog.details] in *;
    intros Hr; try discriminate.
  all: repeat break.
  all: repeat split; try congruence.
  all: try (eexists; reflexivity).
  all: eexists _, _; f_equal; congruence.
Qed.

Lemma DateFromTime_range t : (1 <= JSDate.DateFromTime t <= 31)%Z.
Proof.
  unfold JSDate.DateFromTime, JSDate.Day, JSDate.msPerDay.
  set (z := (t / 86400000 + 719468)%Z). clearbody z.
  Z.to_euclidean_division_equations. lia.
Qed.

(** Adding a whole number of days with [setDate(getDate() + days)], in a
    zone with a fixed offset, moves the time value by that many days. *)
Lemma setDate_whole_days tz t days n :
  fixed_offset tz -> whole days n -> (Z.abs n < 2 ^ 52)%Z ->
  JSDate.setDate tz t (add (ofZ (JSDate.getDate tz t)) days) =
  JSDate.TimeClip (t + n * JSDate.msPerDay).
Proof.
  intros [off Hoff] Hd Hn. unfold JSDate.setDate, JSDate.getDate.
  unfold JSDate.LocalTime, JSDate.UTC. rewrite !Hoff.
  set (l := (t + off)%Z).
  pose proof (DateFromTime_range l) as Hr.
  assert (Hi : ToInteger (add (ofZ (JSDate.DateFromTime l)) days) =
               (JSDate.DateFromTime l + n)%Z).
  { apply ToInteger_whole. apply add_whole; [apply ofZ_whole; lia|exact Hd|lia]. }
  rewrite Hi. f_equal.
  unfold JSDate.Day, JSDate.TimeWithinDay, JSDate.msPerDay.
  pose proof (Z.div_mod l 86400000 ltac:(lia)). lia.
Qed.





Lemma handleRenewUid_logged req env w b :
  response (handleRenewUid req env w) = Some (json b) ->
  logged w (after (handleRenewUid req env w)) (apiUserId req) "renew_uid_api".
Proof.
  unfold response, after, logged, handleRenewUid, find_scoped, save,
    Storage.ActivityLogModel_create.
  unfold_eff.
  crunch; cbn [fst snd db sent ActivityLogs with_Uids with_ActivityLogs] in *;
    intros Hr; try discriminate.
  all: eexists _, _; reflexivity.
Qed.

Lemma handleRemoveUid_logged req env w b :
  response (handleRemoveUid req env w) = Some (json b) ->
  logged w (after (handleRemoveUid req env w)) (apiUserId req) "delete_uid_api".
Proof.
  unfold response, after, logged, handleRemoveUid, find_scoped, save,
    Storage.ActivityLogModel_create.
  unfold_eff.
  crunch; cbn [fst snd db sent ActivityLogs with_Uids with_ActivityLogs] in *;
    intros Hr; try discriminate.
  all: eexists _, _; reflexivity.
Qed.

Import Routes.

Lemma In_insert_desc d x l : In x (insert_desc d l) <-> x = d \/ In x l.
Proof.
  induction l as [|y l IH]; simpl.
  - intuition congruence.
  - destruct (createdAt y <? createdAt d)%Z; simpl; [intuition congruence|].
    rewrite IH. intuition congruence.
Qed.

Lemma In_sort x l : In x (sort_createdAt_desc l) <-> In x l.
Proof.
  unfold sort_createdAt_desc. induction l as [|y l IH]; simpl; [tauto|].
  rewrite In_insert_desc, IH. intuition congruence.
Qed.

Lemma In_own_uids d userId t :
  In t (own_uids d userId) <->
  exists doc, In doc (Uids d) /\ Mongo.userId doc = userId /\ t = Storage.toUid doc.
Proof.
  unfold own_uids. rewrite in_map_iff. split.
  - intros (doc & <- & Hin). apply In_sort, filter_In in Hin. destruct Hin as [Hin He].
    apply String.eqb_eq in He. eauto.
  - intros (doc & Hin & Hu & ->). exists doc. split; [reflexivity|].
    apply In_sort, filter_In. split; [assumption|]. apply String.eqb_eq. assumption.
Qed.

Lemma find_uid_some d userId id t :
  find_uid id (own_uids d userId) = Some t ->
  exists doc, In doc (Uids d) /\ Mongo.userId doc = userId /\ uid_id doc = id /\
              t = Storage.toUid doc.
Proof.
  unfold find_uid. intros H. apply find_some in H. destruct H as [Hin He].
  apply In_own_uids in Hin. destruct Hin as (doc & Hin & Hu & ->).
  apply String.eqb_eq in He. simpl in He. eauto 6.
Qed.

Lemma find_uid_own d userId id doc :
  In doc (Uids d) -> Mongo.userId doc = userId -> uid_id doc = id ->
  exists t, find_uid id (own_uids d userId) = Some t /\ Uid.userId t = userId.
Proof.
  intros Hin Hu Hi. unfold find_uid.
  destruct (find (fun u => Uid.id u =? id) (own_uids d userId)) as [t|] eqn:E.
  - exists t. split; [reflexivity|]. apply find_some in E. destruct E as [Ht _].
    apply In_own_uids in Ht. destruct Ht as (doc' & _ & Hu' & ->). exact Hu'.
  - exfalso. assert (Ht : In (Storage.toUid doc) (own_uids d userId)).
    { apply In_own_uids. eauto. }
    pose proof (find_none _ _ E _ Ht) as Hn. simpl in Hn.
    rewrite Hi, String.eqb_refl in Hn. discriminate.
Qed.

Lemma find_uid_none d userId id :
  (forall doc, In doc (Uids d) -> Mongo.userId doc = userId -> uid_id doc <> id) ->
  find_uid id (own_uids d userId) = None.
Proof.
  intros H. destruct (find_uid id (own_uids d userId)) as [t|] eqn:E; [|reflexivity].
  apply find_uid_some in E. destruct E as (doc & Hin & Hu & Hi & _).
  exfalso. exact (H doc Hin Hu Hi).
Qed.

Lemma PATCH_api_uids_eq session id status env w :
  PATCH_api_uids session id status env w =
  match find_uid id (own_uids (db w) (session_userId session)),
        session_isOwner session with
  | None, false => (Ok (error_json 403 "Can only update your own UIDs"), w)
  | None, true =>
      (Ok (json SuccessJson),
       snd (Storage.updateUid id status env w))
  | Some uid, _ =>
      (Ok (json SuccessJson),
       snd (Storage.logActivity
              {| InsertActivityLog.userId := Uid.userId uid;
                 InsertActivityLog.action := "update_uid";
                 InsertActivityLog.details :=
                   [Lit "Updated UID "; Str (Uid.uidValue uid);
                    Lit " status to "; render_status status] |}
              env (snd (Storage.updateUid id status env w))))
  end.
Proof.
  unfold PATCH_api_uids, Storage.getUserUids, Storage.updateUid, Storage.logActivity,
    Storage.ActivityLogModel_create, own_uids.
  unfold_eff. cbn [fst snd db].
  destruct (find_uid id _) as [uid|]; destruct (session_isOwner session);
    destruct status; reflexivity.
Qed.

Lemma updateUid_logs id status env w :
  ActivityLogs (db (snd (Storage.updateUid id status env w))) = ActivityLogs (db w).
Proof.
  unfold Storage.updateUid. unfold_eff. destruct status; reflexivity.
Qed.

Lemma PATCH_api_uids_own session id status env w doc :
  In doc (Uids (db w)) -> Mongo.userId doc = session_userId session -> uid_id doc = id ->
  response (PATCH_api_uids session id status env w) = Some (json SuccessJson) /\
  logged w (after (PATCH_api_uids session id status env w))
         (session_userId session) "update_uid".
Proof.
  intros Hin Hu Hi. rewrite PATCH_api_uids_eq.
  destruct (find_uid_own (db w) _ id doc Hin Hu Hi) as (t & -> & Ht).
  unfold response, after, logged. cbn [fst snd]. split; [reflexivity|].
  unfold Storage.logActivity, Storage.ActivityLogModel_create. unfold_eff.
  cbn [fst snd db ActivityLogs with_ActivityLogs InsertActivityLog.userId
       InsertActivityLog.action InsertActivityLog.details].
  rewrite updateUid_logs, Ht. eexists _, _. reflexivity.
Qed.

Lemma PATCH_api_uids_other session id status env w :
  (forall doc, In doc (Uids (db w)) -> Mongo.userId doc = session_userId session ->
               uid_id doc <> id) ->
  (session_isOwner session = true ->
   response (PATCH_api_uids session id status env w) = Some (json SuccessJson) /\
   ActivityLogs (db (after (PATCH_api_uids session id status env w))) =
     ActivityLogs (db w)) /\
  (session_isOwner session = false ->
   PATCH_api_uids session id status env w =
     (Ok (error_json 403 "Can only update your own UIDs"), w)).
Proof.
  intros Hnone. rewrite PATCH_api_uids_eq, (find_uid_none _ _ _ Hnone).
  split; intros ->; [|reflexivity].
  unfold response, after. cbn [fst snd]. split; [reflexivity|apply updateUid_logs].
Qed.

Lemma PATCH_value_success client session id newValue env w doc b :
  remote_only client ->
  lookup_uid (db w) id = Some doc ->
  response (PATCH_api_uids_value client session id newValue env w) = Some (json b) ->
  Uids (db (after (PATCH_api_uids_value client session id newValue env w))) =
    updateById uid_id (Uids (db w)) id (set_uidValue newValue) /\
  succeeds (external_update client (uidValue doc) newValue) env w /\
  logged w (after (PATCH_api_uids_value client session id newValue env w))
         (session_userId session) "update_uid_value".
Proof.
  intros Hro Hdoc. unfold lookup_uid in *.
  unfold succeeds, external_update, call_updateUID, response, after, logged.
  unfold PATCH_api_uids_value, updateUidValueSchema_parse, call_updateUID,
    Storage.getUid, Storage.updateUidValue, Storage.logActivity,
    Storage.ActivityLogModel_create.
  unfold_eff.
  crunch; frame_facts Hro;
    cbn [fst snd db sent Uids Users ActivityLogs with_Uids with_ActivityLogs
         InsertActivityLog.userId InsertActivityLog.action InsertActivityLog.details] in *;
    intros Hr; try discriminate.
  all: try rewrite Hdoc in *; cbn [option_map Storage.toUid Uid.userId Uid.uidValue] in *.
  all: repeat break; cbn [option_map Storage.toUid Uid.userId Uid.uidValue] in *.
  all: repeat split; try congruence.
  all: try (eexists; match goal with H : _ = (Ok _, _) |- _ => rewrite H end; reflexivity).
  all: try (eexists _, _; f_equal; congruence).
Qed.

Lemma neq_eqb a b : a <> b -> (a =? b) = false.
Proof. intros H. apply String.eqb_neq. exact H. Qed.

Lemma passes_insert_parse b env w :
  passes_insertUidSchema b ->
  insertUidSchema_parse b env w =
  (Ok {| InsertUid.userId := body_userId b; InsertUid.uidValue := body_uidValue b;
         InsertUid.duration := body_duration b |}, w).
Proof.
  intros [[H1 H2] H3]. unfold insertUidSchema_parse.
  destruct (Nat.ltb_spec (String.length (body_uidValue b)) 6); [lia|].
  destruct (Nat.ltb_spec 12 (String.length (body_uidValue b))); [lia|].
  unfold leb. destruct (Qle_bool (body_duration b) 0) eqn:E;
    [apply Qle_bool_iff in E; lra|reflexivity].
Qed.

Lemma parse_insert_cases b env w :
  (exists m, insertUidSchema_parse b env w = (Throw (ZodError m), w)) \/
  insertUidSchema_parse b env w =
  (Ok {| InsertUid.userId := body_userId b; InsertUid.uidValue := body_uidValue b;
         InsertUid.duration := body_duration b |}, w).
Proof.
  unfold insertUidSchema_parse.
  destruct (_ <? 6)%nat; [left; eexists; reflexivity|].
  destruct (12 <? _)%nat; [left; eexists; reflexivity|].
  destruct (leb _ _); [left; eexists; reflexivity|right; reflexivity].
Qed.

Lemma passes_value_parse v env w :
  passes_updateUidValueSchema v -> updateUidValueSchema_parse v env w = (Ok v, w).
Proof.
  intros [H1 H2]. unfold updateUidValueSchema_parse.
  destruct (Nat.ltb_spec (String.length v) 6); [lia|].
  destruct (Nat.ltb_spec 12 (String.length v)); [lia|reflexivity].
Qed.

Lemma parse_value_cases v env w :
  (exists m, updateUidValueSchema_parse v env w = (Throw (ZodError m), w)) \/
  updateUidValueSchema_parse v env w = (Ok v, w).
Proof.
  unfold updateUidValueSchema_parse.
  destruct (_ <? 6)%nat; [left; eexists; reflexivity|].
  destruct (12 <? _)%nat; [left; eexists; reflexivity|right; reflexivity].
Qed.

(** A non-owner creating for another account. *)
Lemma POST_other_account client session b env w :
  session_isOwner session = false ->
  body_userId b <> session_userId session ->
  exists code error,
    POST_api_uids client session b env w = (Ok (error_json code error), w) /\
    (code = 403 \/ code = 400)%Z /\
    (passes_insertUidSchema b -> code = 403%Z).
Proof.
  intros Ho Hne. unfold POST_api_uids, try_catch. unfold bind at 1.
  destruct (parse_insert_cases b env w) as [[m Hp]|Hp].
  - rewrite Hp. eexists _, _. split; [reflexivity|]. split; [auto|].
    intros Hpass. rewrite (passes_insert_parse b env w Hpass) in Hp. discriminate.
  - rewrite Hp. cbn [InsertUid.userId]. rewrite Ho, (neq_eqb _ _ Hne). cbn.
    eexists _, _. split; [reflexivity|]. auto.
Qed.

Lemma GET_other_account session userId env w :
  session_isOwner session = false ->
  userId <> session_userId session ->
  GET_api_uids_user session userId env w =
    (Ok (error_json 403 "Can only view your own UIDs"), w).
Proof.
  intros Ho Hne. unfold GET_api_uids_user, try_catch.
  rewrite Ho, (neq_eqb _ _ Hne). reflexivity.
Qed.

Lemma GET_allowed session userId env w :
  (session_isOwner session = true \/ userId = session_userId session) ->
  GET_api_uids_user session userId env w =
    (Ok (json (UidsJson (own_uids (db w) userId))), w).
Proof.
  intros H. unfold GET_api_uids_user, try_catch, Storage.getUserUids, own_uids.
  unfold_eff.
  assert (negb (session_isOwner session) && negb (userId =? session_userId session) = false)
    as ->.
  { destruct H as [->| ->]; [reflexivity|]. rewrite String.eqb_refl. apply andb_false_r. }
  reflexivity.
Qed.

Lemma DELETE_other_account client session id env w doc :
  session_isOwner session = false ->
  lookup_uid (db w) id = Some doc ->
  Mongo.userId doc <> session_userId session ->
  DELETE_api_uids client session id env w =
    (Ok (error_json 403 "Can only delete your own UIDs"), w).
Proof.
  intros Ho Hdoc Hne. unfold lookup_uid in Hdoc.
  unfold DELETE_api_uids, Storage.getUid. unfold_eff.
  rewrite Hdoc. cbn [option_map Storage.toUid Uid.userId].
  rewrite Ho, (neq_eqb _ _ Hne). reflexivity.
Qed.

Lemma PATCH_value_other_account client session id newValue env w doc :
  session_isOwner session = false ->
  lookup_uid (db w) id = Some doc ->
  Mongo.userId doc <> session_userId session ->
  exists code error,
    PATCH_api_uids_value client session id newValue env w =
      (Ok (error_json code error), w) /\
    (code = 403 \/ code = 400)%Z /\
    (passes_updateUidValueSchema newValue -> code = 403%Z).
Proof.
  intros Ho Hdoc Hne. unfold lookup_uid in Hdoc.
  unfold PATCH_api_uids_value, try_catch. unfold bind at 1.
  destruct (parse_value_cases newValue env w) as [[m Hp]|Hp].
  - rewrite Hp. eexists _, _. split; [reflexivity|]. split; [auto|].
    intros Hpass. rewrite (passes_value_parse _ env w Hpass) in Hp. discriminate.
  - rewrite Hp. unfold Storage.getUid. unfold_eff.
    rewrite Hdoc. cbn [option_map Storage.toUid Uid.userId].
    rewrite Ho, (neq_eqb _ _ Hne). cbn.
    eexists _, _. split; [reflexivity|]. auto.
Qed.

Lemma allowed_test session owner :
  (session_isOwner session = true \/ owner = session_userId session) ->
  negb (session_isOwner session) && negb (owner =? session_userId session) = false.
Proof.
  intros [->| ->]; [reflexivity|]. rewrite String.eqb_refl. apply andb_false_r.
Qed.

Lemma DELETE_allowed client session id env w doc :
  remote_only client ->
  (session_isOwner session = true \/ Mongo.userId doc = session_userId session) ->
  lookup_uid (db w) id = Some doc ->
  succeeds (external_delete client (uidValue doc)) env w ->
  response (DELETE_api_uids client session id env w) = Some (json SuccessJson).
Proof.
  intros Hro Hal Hdoc [a Ha]. unfold lookup_uid in Hdoc.
  unfold external_delete in Ha. revert Ha.
  unfold response, DELETE_api_uids, Storage.getUid, Storage.deleteUid,
    Storage.logActivity, Storage.ActivityLogModel_create.
  unfold_eff. rewrite Hdoc. cbn [option_map Storage.toUid Uid.userId Uid.uidValue].
  rewrite (allowed_test _ _ Hal).
  crunch; intros Ha; try discriminate; reflexivity.
Qed.

Lemma PATCH_value_allowed client session id newValue env w doc :
  remote_only client ->
  (session_isOwner session = true \/ Mongo.userId doc = session_userId session) ->
  lookup_uid (db w) id = Some doc ->
  passes_updateUidValueSchema newValue ->
  succeeds (external_update client (uidValue doc) newValue) env w ->
  response (PATCH_api_uids_value client session id newValue env w) =
    Some (json (ValueUpdatedJson (uidValue doc) newValue)).
Proof.
  intros Hro Hal Hdoc Hpass [a Ha]. unfold lookup_uid in Hdoc.
  unfold external_update in Ha. revert Ha.
  unfold response, PATCH_api_uids_value, try_catch. unfold bind at 2.
  rewrite (passes_value_parse _ env w Hpass).
  unfold Storage.getUid, Storage.updateUidValue,
    Storage.logActivity, Storage.ActivityLogModel_create.
  unfold_eff. rewrite Hdoc. cbn [option_map Storage.toUid Uid.userId Uid.uidValue].
  rewrite (allowed_test _ _ Hal).
  crunch; intros Ha; try discriminate; reflexivity.
Qed.

Lemma set_credits_id c u : user_id (set_credits c u) = user_id u.
Proof. reflexivity. Qed.

Lemma credits_result session id b env w u :
  lookup_user (db w) id = Some u ->
  (operation b = "add" \/ operation b = "deduct") ->
  PATCH_api_users_credits session id b env w =
  (let newCredits :=
     if operation b =? "add" then add (credits u) (amount b)
     else sub (credits u) (amount b) in
   if negb (operation b =? "add") && ltb newCredits 0 then
     (Ok (error_json 400 "Insufficient credits"), w)
   else
     (Ok (json (CreditsJson (toFixed2 newCredits))),
      {| db := with_ActivityLogs
                 (ActivityLogs (db w) ++
                  [{| log_userId := session_userId session;
                      action := "credit_" ++ operation b;
                      details :=
                        Some [Lit (if operation b =? "add" then "Added" else "Deducted");
                              Lit " $"; Num (toFixed2 (amount b));
                              Lit (if operation b =? "add" then " to " else " from ");
                              Str (username u)];
                      log_createdAt := now env |}])
                 (with_Users
                    (updateById user_id (Users (db w)) id
                       (set_credits (parseFloat (toFixed2 newCredits))))
                    (db w));
         sent := sent w |})).
Proof.
  intros Hu Hop. unfold lookup_user in Hu.
  unfold PATCH_api_users_credits, updateCreditSchema_parse, Storage.getUser,
    Storage.updateUserCredits, Storage.logActivity, Storage.ActivityLogModel_create.
  assert ((operation b =? "add") || (operation b =? "deduct") = true) as ->.
  { destruct Hop as [-> | ->]; reflexivity. }
  unfold_eff. rewrite Hu. cbn [option_map Storage.toUser User.credits parseFloat toString User.username].
  cbv zeta.
  destruct (negb (operation b =? "add") && ltb _ 0); reflexivity.
Qed.

Lemma credits_add session id b env w u c p :
  lookup_user (db w) id = Some u ->
  credits u = lit c -> amount b = lit p -> operation b = "add" ->
  (0 <= c < cents_cap)%Z -> (0 <= p < cents_cap)%Z ->
  response (PATCH_api_users_credits session id b env w) =
    Some (json (CreditsJson (Fixed2 (c + p)))) /\
  lookup_user (db (after (PATCH_api_users_credits session id b env w))) id =
    Some (set_credits (lit (c + p)) u) /\
  logged w (after (PATCH_api_users_credits session id b env w))
         (session_userId session) "credit_add".
Proof.
  intros Hu Hc Hp Hop Bc Bp.
  rewrite (credits_result session id b env w u Hu (or_introl Hop)).
  rewrite Hop, Hc, Hp. cbn [String.eqb Ascii.eqb Bool.eqb negb andb].
  cbv zeta. unfold toFixed2. rewrite add_cents by lia.
  unfold response, after, lookup_user, logged.
  cbn [fst snd db Users ActivityLogs with_Users with_ActivityLogs parseFloat].
  split; [reflexivity|]. split.
  - rewrite findById_updateById by apply set_credits_id.
    unfold lookup_user in Hu. rewrite Hu. reflexivity.
  - eexists _, _. reflexivity.
Qed.

Lemma credits_deduct session id b env w u c p :
  lookup_user (db w) id = Some u ->
  credits u = lit c -> amount b = lit p -> operation b = "deduct" ->
  (0 <= c < cents_cap)%Z -> (0 <= p < cents_cap)%Z ->
  ((p <= c)%Z ->
   response (PATCH_api_users_credits session id b env w) =
     Some (json (CreditsJson (Fixed2 (c - p)))) /\
   lookup_user (db (after (PATCH_api_users_credits session id b env w))) id =
     Some (set_credits (lit (c - p)) u) /\
   logged w (after (PATCH_api_users_credits session id b env w))
          (session_userId session) "credit_deduct") /\
  ((c < p)%Z ->
   PATCH_api_users_credits session id b env w =
     (Ok (error_json 400 "Insufficient credits"), w)).
Proof.
  intros Hu Hc Hp Hop Bc Bp.
  rewrite (credits_result session id b env w u Hu (or_intror Hop)).
  rewrite Hop, Hc, Hp. cbn [String.eqb Ascii.eqb Bool.eqb negb andb].
  cbv zeta. rewrite sub_cents_negative by lia.
  split; intros Hcp.
  - destruct (Z.ltb_spec c p); [lia|].
    unfold toFixed2. rewrite sub_cents by lia.
    unfold response, after, lookup_user, logged.
    cbn [fst snd db Users ActivityLogs with_Users with_ActivityLogs parseFloat].
    split; [reflexivity|]. split.
    + rewrite findById_updateById by apply set_credits_id.
      unfold lookup_user in Hu. rewrite Hu. reflexivity.
    + eexists _, _. reflexivity.
  - destruct (Z.ltb_spec c p); [reflexivity|lia].
Qed.

Lemma pricingTiers_some d cost :
  pricingTiers d = Some cost ->
  exists h c, whole d h /\ cost = lit c /\
              In (h, c) [(24, 50); (72, 130); (168, 233); (336, 350); (720, 520)]%Z.
Proof.
  unfold pricingTiers, eqb, whole.
  repeat match goal with
         | |- context [Qeq_bool d ?k] =>
             destruct (Qeq_bool d k) eqn:?;
             [ match goal with H : Qeq_bool d _ = true |- _ => apply Qeq_bool_iff in H end;
               intros [= <-]; eexists _, _; split; [eassumption|]; split; [reflexivity|];
               simpl; tauto
             | ]
         end.
  discriminate.
Qed.

Lemma pricingTiers_truthy d cost : pricingTiers d = Some cost -> truthy cost = true.
Proof.
  intros H. destruct (pricingTiers_some d cost H) as (h & c & _ & -> & Hin).
  simpl in Hin. repeat (destruct Hin as [[= <- <-]|Hin]; [vm_compute; reflexivity|]).
  contradiction.
Qed.

Lemma cost_ok_tier d cost : pricingTiers d = Some cost -> cost_ok (pricingTiers d) = Some cost.
Proof. intros H. rewrite H. unfold cost_ok. rewrite (pricingTiers_truthy d cost H). reflexivity. Qed.

Lemma cost_ok_none d : pricingTiers d = None -> cost_ok (pricingTiers d) = None.
Proof. intros ->. reflexivity. Qed.

(** A balance below the price: the create request is turned down before
    anything is sent or written. *)
Lemma POST_insufficient client session b env w u cost :
  lookup_user (db w) (body_userId b) = Some u ->
  pricingTiers (body_duration b) = Some cost ->
  (credits u < cost)%Q ->
  exists code error,
    POST_api_uids client session b env w = (Ok (error_json code error), w) /\
    (code = 400 \/ code = 403)%Z /\
    (passes_insertUidSchema b ->
     (session_isOwner session = true \/ body_userId b = session_userId session) ->
     code = 400%Z /\ error = "Insufficient credits").
Proof.
  intros Hu Hcost Hlt. unfold lookup_user in Hu.
  assert (Hltb : ltb (credits u) cost = true).
  { unfold ltb. destruct (Qle_bool cost (credits u)) eqn:E; [|reflexivity].
    apply Qle_bool_iff in E. lra. }
  unfold POST_api_uids, try_catch. unfold bind at 1.
  destruct (parse_insert_cases b env w) as [[m Hp]|Hp].
  - rewrite Hp. eexists _, _. split; [reflexivity|]. split; [auto|].
    intros Hpass. rewrite (passes_insert_parse b env w Hpass) in Hp. discriminate.
  - rewrite Hp. cbn [InsertUid.userId InsertUid.duration].
    destruct (negb (session_isOwner session) && negb (body_userId b =? session_userId session)) eqn:Ea.
    + eexists _, _. split; [reflexivity|]. split; [auto|].
      intros _ Hal. rewrite (allowed_test _ _ Hal) in Ea. discriminate.
    + rewrite (cost_ok_tier _ _ Hcost).
      unfold Storage.getUser. unfold_eff. rewrite Hu.
      cbn [option_map Storage.toUser User.credits parseFloat toString].
      rewrite Hltb. eexists _, _. split; [reflexivity|]. split; [auto|]. auto.
Qed.

(** A duration outside the table. *)
Lemma POST_invalid_duration client session b env w :
  pricingTiers (body_duration b) = None ->
  exists code error,
    POST_api_uids client session b env w = (Ok (error_json code error), w) /\
    (code = 400 \/ code = 403)%Z /\
    (passes_insertUidSchema b ->
     (session_isOwner session = true \/ body_userId b = session_userId session) ->
     code = 400%Z /\ error = "Invalid duration selected").
Proof.
  intros Hcost.
  unfold POST_api_uids, try_catch. unfold bind at 1.
  destruct (parse_insert_cases b env w) as [[m Hp]|Hp].
  - rewrite Hp. eexists _, _. split; [reflexivity|]. split; [auto|].
    intros Hpass. rewrite (passes_insert_parse b env w Hpass) in Hp. discriminate.
  - rewrite Hp. cbn [InsertUid.userId InsertUid.duration].
    destruct (negb (session_isOwner session) && negb (body_userId b =? session_userId session)) eqn:Ea.
    + eexists _, _. split; [reflexivity|]. split; [auto|].
      intros _ Hal. rewrite (allowed_test _ _ Hal) in Ea. discriminate.
    + rewrite (cost_ok_none _ Hcost).
      eexists _, _. split; [reflexivity|]. split; [auto|]. auto.
Qed.

(** What [createUID] of [server/api-client.ts] sends. *)
Lemma V1_createUID_sent this uid d env w :
  sent (snd (ApiClient.V1.createUID this uid d env w)) = sent w \/
  sent (snd (ApiClient.V1.createUID this uid d env w)) =
    ApiClient.fetch_request this "add_uid_api"
      [("uid", JStr uid); ("plan_id", JNum (Math_ceil (div (parseInt d) 24)));
       ("region", JStr "PK")] "POST" :: sent w.
Proof.
  unfold ApiClient.V1.createUID, ApiClient.V1.request, ApiClient.new_URL.
  unfold_eff. unfold do_fetch.
  crunch; auto.
Qed.

Lemma V1_create_sent env w : sent (snd (ApiClient.V1.create env w)) = sent w.
Proof.
  unfold ApiClient.V1.create, Storage.getSettings. unfold_eff.
  crunch; reflexivity.
Qed.

Lemma plan_of_whole_hours d n :
  whole d n -> (0 <= n < 2 ^ 53)%Z ->
  Math_ceil (div (parseInt (toString d)) 24) = inject_Z ((n + 23) / 24).
Proof.
  intros Hd Hn. unfold Math_ceil, parseInt, toString.
  rewrite (ToInteger_whole d n Hd), hours_to_days by assumption. reflexivity.
Qed.

Lemma bind_ok {A B} (m : M A) (k : A -> M B) env w a w1 :
  m env w = (Ok a, w1) -> bind m k env w = k a env w1.
Proof. intros H. unfold bind. rewrite H. reflexivity. Qed.

Lemma bind_throw {A B} (m : M A) (k : A -> M B) env w e w1 :
  m env w = (Throw e, w1) -> bind m k env w = (Throw e, w1).
Proof. intros H. unfold bind. rewrite H. reflexivity. Qed.

Lemma getUser_eq id env w :
  Storage.getUser id env w = (Ok (option_map Storage.toUser (lookup_user (db w) id)), w).
Proof. reflexivity. Qed.

Lemma POST_sent session b env w :
  sent (after (POST_api_uids ApiClient.api_client session b env w)) = sent w \/
  exists req cost,
    sent (after (POST_api_uids ApiClient.api_client session b env w)) = req :: sent w /\
    pricingTiers (body_duration b) = Some cost /\
    add_uid_request req (body_uidValue b)
      (JNum (Math_ceil (div (parseInt (toString (body_duration b))) 24))).
Proof.
  unfold after, POST_api_uids, try_catch.
  destruct (parse_insert_cases b env w) as [[m Hp]|Hp].
  { rewrite (bind_throw _ _ _ _ _ _ Hp). left; reflexivity. }
  rewrite (bind_ok _ _ _ _ _ _ Hp).
  cbn [InsertUid.userId InsertUid.duration InsertUid.uidValue].
  destruct (_ && _); [left; reflexivity|].
  destruct (pricingTiers (body_duration b)) as [cost|] eqn:Hc;
    [rewrite <- Hc, (cost_ok_tier _ _ Hc)|left; reflexivity].
  rewrite (bind_ok _ _ _ _ _ _ (getUser_eq _ env w)).
  destruct (option_map Storage.toUser (lookup_user (db w) (body_userId b)))
    as [user|]; [|left; reflexivity].
  destruct (ltb _ _); [left; reflexivity|].
  pose proof (V1_create_sent env w) as Hs1.
  unfold bind, ask. cbn [ApiClient.create ApiClient.createUID ApiClient.api_client].
  destruct (ApiClient.V1.create env w) as [[this|e] w1]; cbn [snd] in Hs1.
  - pose proof (V1_createUID_sent this (body_uidValue b) (toString (body_duration b)) env w1) as Hs2.
    destruct (ApiClient.V1.createUID this _ _ env w1) as [[data|e] w2]; cbn [snd] in Hs2.
    + match goal with
      | |- context [Storage.createUid ?c ?env ?w] =>
          destruct (createUid_throws c env w) as [m ->]
      end.
      cbn [fst snd ret throw]. destruct Hs2 as [Hs2|Hs2]; rewrite Hs2, Hs1; [left; reflexivity|].
      right. eexists _, cost. split; [reflexivity|]. split; [assumption|].
      unfold add_uid_request. cbn. auto.
    + destruct e; cbn [fst snd ret throw];
        (destruct Hs2 as [Hs2|Hs2]; rewrite Hs2, Hs1; [left; reflexivity|]);
        right; eexists _, cost; (split; [reflexivity|]); (split; [assumption|]);
        unfold add_uid_request; cbn; auto.
  - destruct e; cbn [fst snd ret throw]; left; assumption.
Qed.

(** Whatever the bypass service answers, [POST /api/uids] ends in an error
    response. *)
Lemma POST_api_uids_error client session b env w :
  exists code error,
    response (POST_api_uids client session b env w) = Some (error_json code error) /\
    code <> 200%Z.
Proof.
  unfold response, POST_api_uids, insertUidSchema_parse, Storage.getUser.
  unfold_eff.
  repeat (split_inner; cbn [fst snd] in *; repeat break).
  all: try discriminate.
  all: try (eexists _, _; split; [reflexivity|discriminate]).
  all: createUid_absurd.
Qed.

Lemma fails_insert_parse b env w :
  ~ passes_insertUidSchema b ->
  exists m, insertUidSchema_parse b env w = (Throw (ZodError m), w).
Proof.
  intros Hn. destruct (parse_insert_cases b env w) as [H|H]; [exact H|].
  exfalso. apply Hn. unfold insertUidSchema_parse in H.
  destruct (String.length (body_uidValue b) <? 6)%nat eqn:E1; [discriminate|].
  destruct (12 <? String.length (body_uidValue b))%nat eqn:E2; [discriminate|].
  destruct (leb (body_duration b) 0) eqn:E3; [discriminate|].
  apply Nat.ltb_ge in E1, E2. unfold passes_insertUidSchema.
  split; [lia|]. apply Qnot_le_lt. intros Hle.
  apply Qle_bool_iff in Hle. unfold leb in E3. congruence.
Qed.

Lemma fails_value_parse v env w :
  ~ passes_updateUidValueSchema v ->
  exists m, updateUidValueSchema_parse v env w = (Throw (ZodError m), w).
Proof.
  intros Hn. destruct (parse_value_cases v env w) as [H|H]; [exact H|].
  exfalso. apply Hn. unfold updateUidValueSchema_parse in H.
  destruct (String.length v <? 6)%nat eqn:E1; [discriminate|].
  destruct (12 <? String.length v)%nat eqn:E2; [discriminate|].
  apply Nat.ltb_ge in E1, E2. unfold passes_updateUidValueSchema. lia.
Qed.

Lemma POST_invalid_body client session b env w :
  ~ passes_insertUidSchema b ->
  exists error,
    POST_api_uids client session b env w = (Ok (error_json 400 error), w).
Proof.
  intros Hn. destruct (fails_insert_parse b env w Hn) as [m Hp].
  unfold POST_api_uids, try_catch. rewrite (bind_throw _ _ _ _ _ _ Hp).
  eexists. reflexivity.
Qed.

Lemma PATCH_value_invalid_body client session id newValue env w :
  ~ passes_updateUidValueSchema newValue ->
  exists error,
    PATCH_api_uids_value client session id newValue env w =
      (Ok (error_json 400 error), w).
Proof.
  intros Hn. destruct (fails_value_parse newValue env w Hn) as [m Hp].
  unfold PATCH_api_uids_value, try_catch. rewrite (bind_throw _ _ _ _ _ _ Hp).
  eexists. reflexivity.
Qed.

Lemma POST_owner_passes_the_check client session b env w r :
  session_isOwner session = true ->
  response (POST_api_uids client session b env w) = Some r ->
  statusCode r <> 403%Z.
Proof.
  destruct session as [sid own]. cbn [session_isOwner]. intros ->.
  unfold response, POST_api_uids, insertUidSchema_parse, Storage.getUser.
  unfold_eff. cbn [session_isOwner negb andb].
  repeat (split_inner; cbn [fst snd] in *; repeat break).
  all: try discriminate.
  all: try (intros H; inversion H; subst; cbn; discriminate).
Qed.

Lemma V1_create_world env w :
  snd (ApiClient.V1.create env w) = w.
Proof.
  unfold ApiClient.V1.create, Storage.getSettings. unfold_eff. cbn [fst snd].
  destruct (ApiClient.configured _) as [[bs k]|]; reflexivity.
Qed.

Lemma V1_request_world this action params method env w :
  URL_ok env (ApiClient.this_baseUrl this) = true ->
  snd (ApiClient.V1.request this action params method env w) =
    {| db := db w;
       sent := ApiClient.fetch_request this action params method :: sent w |}.
Proof.
  intros H. unfold ApiClient.V1.request, ApiClient.new_URL.
  unfold_eff. unfold do_fetch. cbn [fst snd]. rewrite H. cbn [fst snd].
  destruct (fetch env _) as [|m|ok st stt txt [data|m]]; cbn [fst snd]; try reflexivity.
  destruct ok; cbn [negb fst snd]; [|reflexivity].
  destruct (truthy_str (ext_error data)); reflexivity.
Qed.

Lemma POST_sends session b env w u cost this :
  passes_insertUidSchema b ->
  (session_isOwner session = true \/ body_userId b = session_userId session) ->
  pricingTiers (body_duration b) = Some cost ->
  lookup_user (db w) (body_userId b) = Some u ->
  (cost <= credits u)%Q ->
  fst (ApiClient.V1.create env w) = Ok this ->
  URL_ok env (ApiClient.this_baseUrl this) = true ->
  sent (after (POST_api_uids ApiClient.api_client session b env w)) =
    ApiClient.fetch_request this "add_uid_api"
      [("uid", JStr (body_uidValue b));
       ("plan_id", JNum (Math_ceil (div (parseInt (toString (body_duration b))) 24)));
       ("region", JStr "PK")] "POST" :: sent w.
Proof.
  intros Hp Ha Hc Hu Hle Hcr Hurl.
  unfold after, POST_api_uids, try_catch.
  rewrite (bind_ok _ _ _ _ _ _ (passes_insert_parse b env w Hp)).
  cbn [InsertUid.userId InsertUid.duration InsertUid.uidValue].
  rewrite (allowed_test _ _ Ha), (cost_ok_tier _ _ Hc).
  rewrite (bind_ok _ _ _ _ _ _ (getUser_eq _ env w)). rewrite Hu.
  cbn [option_map Storage.toUser User.credits parseFloat toString].
  assert (Hlt : ltb (credits u) cost = false).
  { unfold ltb. apply negb_false_iff, Qle_bool_iff. exact Hle. }
  rewrite Hlt.
  pose proof (V1_create_world env w) as Hw.
  unfold bind, ask. cbn [ApiClient.create ApiClient.createUID ApiClient.api_client].
  destruct (ApiClient.V1.create env w) as [[this'|e] w1]; cbn [fst snd] in *;
    [|discriminate]. inversion Hcr; subst this' w1.
  pose proof (V1_request_world this "add_uid_api"
                [("uid", JStr (body_uidValue b));
                 ("plan_id", JNum (Math_ceil (div (parseInt (toString (body_duration b))) 24)));
                 ("region", JStr "PK")] "POST" env w Hurl) as Hs.
  unfold ApiClient.V1.createUID.
  destruct (ApiClient.V1.request this _ _ _ env w) as [[data|e] w2]; cbn [snd] in Hs;
    subst w2.
  - match goal with
    | |- context [Storage.createUid ?c ?env ?w] =>
        destruct (createUid_throws c env w) as [m ->]
    end.
    cbn [fst snd ret throw sent]. reflexivity.
  - destruct e; cbn [fst snd ret throw sent]; reflexivity.
Qed.

End HandlerFacts.

(* ================================================================= *)
(** ** The dashboard: create, delete, rename, ownership, credits *)

Module Dashboard.

Import Number Mongo Eff Schema Spec NumberFacts HandlerFacts.
Import Routes.
Open Scope string_scope.

(** C1: when the external client call of a create request fails, the
    handler answers with an error and the balance of the user, the UID
    records and the activity log are what they were. *)
Theorem create_fails_atomically client session b env w :
  remote_only client ->
  fails (external_create client (body_uidValue b) (body_duration b)) env w ->
  (exists code error,
      response (POST_api_uids client session b env w) = Some (error_json code error) /\
      code <> 200%Z) /\
  lookup_user (db (after (POST_api_uids client session b env w))) (body_userId b) =
    lookup_user (db w) (body_userId b) /\
  Uids (db (after (POST_api_uids client session b env w))) = Uids (db w) /\
  ActivityLogs (db (after (POST_api_uids client session b env w))) = ActivityLogs (db w).
Proof.
  intros Hro _. split; [apply POST_api_uids_error|].
  unfold after. rewrite (POST_api_uids_keeps_db client Hro session b env w).
  unfold lookup_user. auto.
Qed.

Lemma create_fails_atomically_witness :
  remote_only ApiClient.api_client /\
  fails (external_create ApiClient.api_client "XYZ99900" 72)
        (Sample.env_with Sample.service_down) (Sample.world (lit 500)) /\
  lookup_user
    (db (after (POST_api_uids ApiClient.api_client Sample.alice
                  (Sample.create_body "u1" "XYZ99900" 72)
                  (Sample.env_with Sample.service_down) (Sample.world (lit 500)))))
    "u1" = Some (Sample.user "u1" "alice" false (lit 500)).
Proof.
  assert (Hf : fails (external_create ApiClient.api_client "XYZ99900" 72)
                     (Sample.env_with Sample.service_down) (Sample.world (lit 500))).
  { eexists. vm_compute. reflexivity. }
  split; [exact api_client_remote_only|]. split; [exact Hf|].
  destruct (create_fails_atomically ApiClient.api_client Sample.alice
              (Sample.create_body "u1" "XYZ99900" 72)
              (Sample.env_with Sample.service_down) (Sample.world (lit 500))
              api_client_remote_only Hf) as (_ & Hu & _ & _).
  etransitivity; [exact Hu|]. vm_compute. reflexivity.
Defined.

(** C2: a create request for a duration of the tier table, by a user who
    can pay and with the bypass service accepting the UID, is answered with
    the validation error of [UidModel.create]: the request [add_uid_api]
    has been sent, no UID record is written and the balance is not debited.
    No request at all makes the handler write to the database; a duration
    outside the table is turned down with status 400 before anything is
    sent. *)
Theorem create_is_rejected_by_the_uid_schema :
  (response (POST_api_uids ApiClient.api_client Sample.alice
               (Sample.create_body "u1" "XYZ99900" 72)
               (Sample.env_with Sample.service_up) (Sample.world (lit 500))) =
     Some (error_json 400 "Uid validation failed: planId: Path `planId` is required.") /\
   (exists req,
       sent (after (POST_api_uids ApiClient.api_client Sample.alice
                      (Sample.create_body "u1" "XYZ99900" 72)
                      (Sample.env_with Sample.service_up) (Sample.world (lit 500)))) =
         [req] /\
       add_uid_request req "XYZ99900" (JNum 3)) /\
   db (after (POST_api_uids ApiClient.api_client Sample.alice
                (Sample.create_body "u1" "XYZ99900" 72)
                (Sample.env_with Sample.service_up) (Sample.world (lit 500)))) =
     Sample.database (lit 500)) /\
  (forall client session b env w,
      remote_only client ->
      db (after (POST_api_uids client session b env w)) = db w /\
      exists code error,
        response (POST_api_uids client session b env w) = Some (error_json code error) /\
        code <> 200%Z) /\
  (forall client session b env w,
      pricingTiers (body_duration b) = None ->
      exists code error,
        POST_api_uids client session b env w = (Ok (error_json code error), w) /\
        (code = 400 \/ code = 403)%Z /\
        (passes_insertUidSchema b ->
         (session_isOwner session = true \/ body_userId b = session_userId session) ->
         code = 400%Z /\ error = "Invalid duration selected")).
Proof.
  split; [|split].
  - split; [vm_compute; reflexivity|]. split; [|vm_compute; reflexivity].
    eexists. split; [vm_compute; reflexivity|].
    unfold add_uid_request. cbn. auto.
  - intros client session b env w Hro. split.
    + apply (POST_api_uids_keeps_db client Hro session b env w).
    + apply POST_api_uids_error.
  - intros. apply POST_invalid_duration. assumption.
Qed.

Lemma create_is_rejected_by_the_uid_schema_witness :
  pricingTiers (body_duration (Sample.create_body "u1" "XYZ99900" 48)) = None /\
  passes_insertUidSchema (Sample.create_body "u1" "XYZ99900" 48) /\
  POST_api_uids ApiClient.api_client Sample.alice
    (Sample.create_body "u1" "XYZ99900" 48)
    (Sample.env_with Sample.service_up) (Sample.world (lit 500)) =
  (Ok (error_json 400 "Invalid duration selected"), Sample.world (lit 500)).
Proof.
  assert (Ht : pricingTiers (body_duration (Sample.create_body "u1" "XYZ99900" 48)) = None)
    by reflexivity.
  assert (Hp : passes_insertUidSchema (Sample.create_body "u1" "XYZ99900" 48)).
  { split; [cbn; lia|reflexivity]. }
  split; [exact Ht|]. split; [exact Hp|].
  destruct create_is_rejected_by_the_uid_schema as (_ & _ & H).
  destruct (H ApiClient.api_client Sample.alice (Sample.create_body "u1" "XYZ99900" 48)
              (Sample.env_with Sample.service_up) (Sample.world (lit 500)) Ht)
    as (code & error & He & _ & Hc).
  destruct (Hc Hp (or_intror eq_refl)) as [-> ->]. exact He.
Defined.

(** C4: when the external [deleteUID] call of a delete request fails, the
    handler answers with an error and the database is what it was, the UID
    record included; and the record can only leave the collection when the
    external delete has succeeded. *)
Theorem delete_external_failure_keeps_record client session id env w doc :
  remote_only client ->
  lookup_uid (db w) id = Some doc ->
  (fails (external_delete client (uidValue doc)) env w ->
   (exists code error details,
       response (DELETE_api_uids client session id env w) =
         Some (status_json code (ErrorJson error details)) /\ code <> 200%Z) /\
   db (after (DELETE_api_uids client session id env w)) = db w /\
   lookup_uid (db (after (DELETE_api_uids client session id env w))) id = Some doc) /\
  (Uids (db (after (DELETE_api_uids client session id env w))) <> Uids (db w) ->
   succeeds (external_delete client (uidValue doc)) env w).
Proof.
  intros Hro Hdoc. unfold lookup_uid in *.
  unfold fails, succeeds, external_delete, response, after.
  unfold DELETE_api_uids, Storage.getUid, Storage.deleteUid, Storage.logActivity,
    Storage.ActivityLogModel_create.
  unfold_eff. rewrite Hdoc. cbn [option_map Storage.toUid Uid.userId Uid.uidValue].
  split.
  - intros [e He].
    crunch; frame_facts Hro; cbn [fst snd db sent] in *; try discriminate.
    all: try (split; [eexists _, _, _; split; [reflexivity|discriminate]|]).
    all: try (split; [congruence|]); try congruence.
  - crunch; frame_facts Hro; cbn [fst snd db sent Uids with_Uids with_ActivityLogs] in *;
      intros Hneq; try discriminate.
    all: try (exfalso; apply Hneq; congruence).
    all: eexists; reflexivity.
Qed.

Lemma delete_external_failure_keeps_record_witness :
  remote_only ApiClient.api_client /\
  lookup_uid (db (Sample.world (lit 500))) "d1" =
    Some (Sample.uid_doc "d1" "u1" "ABC123" "active" (Some "k1")) /\
  fails (external_delete ApiClient.api_client "ABC123")
        (Sample.env_with Sample.service_down) (Sample.world (lit 500)) /\
  lookup_uid
    (db (after (DELETE_api_uids ApiClient.api_client Sample.alice "d1"
                  (Sample.env_with Sample.service_down) (Sample.world (lit 500)))))
    "d1" = Some (Sample.uid_doc "d1" "u1" "ABC123" "active" (Some "k1")).
Proof.
  assert (Hd : lookup_uid (db (Sample.world (lit 500))) "d1" =
               Some (Sample.uid_doc "d1" "u1" "ABC123" "active" (Some "k1")))
    by reflexivity.
  assert (Hf : fails (external_delete ApiClient.api_client "ABC123")
                     (Sample.env_with Sample.service_down) (Sample.world (lit 500))).
  { eexists. vm_compute. reflexivity. }
  split; [exact api_client_remote_only|]. split; [exact Hd|]. split; [exact Hf|].
  destruct (delete_external_failure_keeps_record ApiClient.api_client Sample.alice "d1"
              (Sample.env_with Sample.service_down) (Sample.world (lit 500)) _
              api_client_remote_only Hd) as [H _].
  destruct (H Hf) as (_ & _ & Hl). exact Hl.
Defined.

(** C5: when the composite [updateUID] call of a rename request fails, the
    handler answers with an error and the database is what it was, so the
    record keeps its [uidValue]; [updateUID] is [deleteUID] of the old value
    followed by [createUIDFree] of the new one, and when the delete fails
    the whole call fails there and no [add_uid_free_api] request is sent. *)
Theorem rename_external_failure_keeps_value client session id newValue env w doc :
  remote_only client ->
  lookup_uid (db w) id = Some doc ->
  (fails (external_update client (uidValue doc) newValue) env w ->
   (exists code error details,
       response (PATCH_api_uids_value client session id newValue env w) =
         Some (status_json code (ErrorJson error details)) /\ code <> 200%Z) /\
   db (after (PATCH_api_uids_value client session id newValue env w)) = db w /\
   lookup_uid (db (after (PATCH_api_uids_value client session id newValue env w))) id =
     Some doc) /\
  (forall this oldUid newUid env0 w0,
      ApiClient.V2.updateUID this oldUid newUid env0 w0 =
      bind (ApiClient.V2.deleteUID this oldUid)
           (fun _ => ApiClient.V2.createUIDFree this newUid) env0 w0) /\
  (forall this oldUid newUid env0 w0,
      fails (ApiClient.V2.deleteUID this oldUid) env0 w0 ->
      fails (ApiClient.V2.updateUID this oldUid newUid) env0 w0 /\
      after (ApiClient.V2.updateUID this oldUid newUid env0 w0) =
        after (ApiClient.V2.deleteUID this oldUid env0 w0) /\
      forall r, In r (sent (after (ApiClient.V2.updateUID this oldUid newUid env0 w0))) ->
                req_action r = "add_uid_free_api" -> In r (sent w0)).
Proof.
  intros Hro Hdoc. unfold lookup_uid in *. split; [|split].
  - unfold fails, external_update, call_updateUID, response, after.
    unfold PATCH_api_uids_value, updateUidValueSchema_parse, call_updateUID,
      Storage.getUid, Storage.updateUidValue, Storage.logActivity,
      Storage.ActivityLogModel_create.
    unfold_eff. intros [e He]. revert He.
    crunch; frame_facts Hro; cbn [fst snd db sent option_map Storage.toUid Uid.userId Uid.uidValue] in *;
      intros He; try discriminate.
    all: try rewrite Hdoc in *; cbn [option_map Storage.toUid Uid.userId Uid.uidValue] in *.
    all: repeat break; cbn [option_map Storage.toUid Uid.userId Uid.uidValue] in *.
    all: try (match goal with
              | H : ?m = (Ok _, _), He : fst ?m = Throw _ |- _ =>
                  rewrite H in He; discriminate He
              end).
    all: try (split; [eexists _, _, _; split; [reflexivity|discriminate]|]).
    all: try (split; [congruence|]); try congruence.
  - reflexivity.
  - intros this oldUid newUid env0 w0 [e He].
    unfold fails, after, ApiClient.V2.updateUID, bind.
    pose proof (V2_deleteUID_sent this oldUid env0 w0) as Hs.
    destruct (ApiClient.V2.deleteUID this oldUid env0 w0) as [[a|e'] w1]; cbn [fst snd] in *;
      [discriminate|].
    split; [eexists; reflexivity|]. split; [reflexivity|].
    intros r Hin Hact. destruct Hs as [Hs|Hs]; rewrite Hs in Hin; [assumption|].
    destruct Hin as [<-|Hin]; [discriminate Hact|assumption].
Qed.

Lemma rename_external_failure_keeps_value_witness :
  remote_only ApiClient.api_client_rev /\
  lookup_uid (db (Sample.world (lit 500))) "d1" =
    Some (Sample.uid_doc "d1" "u1" "ABC123" "active" (Some "k1")) /\
  fails (external_update ApiClient.api_client_rev "ABC123" "XYZ999")
        (Sample.env_with Sample.service_no_add) (Sample.world (lit 500)) /\
  lookup_uid
    (db (after (PATCH_api_uids_value ApiClient.api_client_rev Sample.alice "d1" "XYZ999"
                  (Sample.env_with Sample.service_no_add) (Sample.world (lit 500)))))
    "d1" = Some (Sample.uid_doc "d1" "u1" "ABC123" "active" (Some "k1")).
Proof.
  assert (Hd : lookup_uid (db (Sample.world (lit 500))) "d1" =
               Some (Sample.uid_doc "d1" "u1" "ABC123" "active" (Some "k1")))
    by reflexivity.
  assert (Hf : fails (external_update ApiClient.api_client_rev "ABC123" "XYZ999")
                     (Sample.env_with Sample.service_no_add) (Sample.world (lit 500))).
  { eexists. vm_compute. reflexivity. }
  split; [exact api_client_rev_remote_only|]. split; [exact Hd|]. split; [exact Hf|].
  destruct (rename_external_failure_keeps_value ApiClient.api_client_rev Sample.alice
              "d1" "XYZ999" (Sample.env_with Sample.service_no_add)
              (Sample.world (lit 500)) _ api_client_rev_remote_only Hd) as [H _].
  destruct (H Hf) as (_ & _ & Hl). exact Hl.
Defined.

(** C10: a create request that reaches the external call -- the body
    passes the schema, the session may act for the user, the duration is a
    tier of the table, the user has the price, the client is built from the
    settings and its base URL parses -- sends, with the client of
    [server/api-client.ts], exactly one request to the bypass service: an
    [add_uid_api] for the requested UID with region "PK" whose [plan_id] is
    the number of days [ceil(duration / 24)], which is 3 for 72 hours.  No
    create request sends more than that one request, and for every whole
    number of hours below 2^53 [createUID] sends the exact ceiling of
    [hours / 24], never less. *)
Theorem create_sends_days_rounded_up :
  (forall session b env w u cost this,
      passes_insertUidSchema b ->
      (session_isOwner session = true \/ body_userId b = session_userId session) ->
      pricingTiers (body_duration b) = Some cost ->
      lookup_user (db w) (body_userId b) = Some u ->
      (cost <= credits u)%Q ->
      fst (ApiClient.V1.create env w) = Ok this ->
      URL_ok env (ApiClient.this_baseUrl this) = true ->
      exists req days,
        sent (after (POST_api_uids ApiClient.api_client session b env w)) =
          req :: sent w /\
        req_base req = ApiClient.this_baseUrl this /\
        add_uid_request req (body_uidValue b) (JNum (inject_Z days)) /\
        (inject_Z (24 * (days - 1)) < body_duration b)%Q /\
        (body_duration b <= inject_Z (24 * days))%Q /\
        (whole (body_duration b) 72 -> days = 3%Z)) /\
  (forall session b env w,
      sent (after (POST_api_uids ApiClient.api_client session b env w)) = sent w \/
      exists req days,
        sent (after (POST_api_uids ApiClient.api_client session b env w)) =
          req :: sent w /\
        add_uid_request req (body_uidValue b) (JNum (inject_Z days)) /\
        (inject_Z (24 * (days - 1)) < body_duration b)%Q /\
        (body_duration b <= inject_Z (24 * days))%Q) /\
  (forall this uid hours env w,
      (0 <= hours < 2 ^ 53)%Z ->
      sent (snd (ApiClient.V1.createUID this uid (toString (inject_Z hours)) env w)) =
        sent w \/
      exists req,
        sent (snd (ApiClient.V1.createUID this uid (toString (inject_Z hours)) env w)) =
          req :: sent w /\
        add_uid_request req uid (JNum (inject_Z ((hours + 23) / 24))) /\
        (24 * ((hours + 23) / 24 - 1) < hours <= 24 * ((hours + 23) / 24))%Z).
Proof.
  split; [|split].
  - intros session b env w u cost this Hp Ha Hc Hu Hle Hcr Hurl.
    pose proof (POST_sends session b env w u cost this Hp Ha Hc Hu Hle Hcr Hurl) as Hs.
    destruct (pricingTiers_some _ _ Hc) as (h & c & Hw & _ & Hin).
    assert (Hh : (0 <= h < 2 ^ 53)%Z).
    { simpl in Hin. repeat (destruct Hin as [[= <- <-]|Hin]; [lia|]). contradiction. }
    rewrite (plan_of_whole_hours _ h Hw Hh) in Hs.
    eexists _, ((h + 23) / 24)%Z. split; [exact Hs|]. split; [reflexivity|].
    split; [unfold add_uid_request; cbn; auto|].
    assert (Hb : (24 * ((h + 23) / 24 - 1) < h <= 24 * ((h + 23) / 24))%Z).
    { pose proof (Z.div_mod (h + 23) 24 ltac:(lia)).
      pose proof (Z.mod_pos_bound (h + 23) 24 ltac:(lia)). lia. }
    unfold whole in Hw.
    split; [rewrite Hw, <- Zlt_Qlt; lia|]. split; [rewrite Hw, <- Zle_Qle; lia|].
    intros H72. unfold whole in H72.
    assert (E : h = 72%Z) by (apply inject_Z_injective; rewrite <- Hw; exact H72).
    subst h. reflexivity.
  - intros session b env w.
    destruct (POST_sent session b env w) as [H|(req & cost & Hs & Hc & Hr)]; [left; exact H|].
    right. destruct (pricingTiers_some _ _ Hc) as (h & c & Hw & _ & Hin).
    assert (Hh : (0 <= h < 2 ^ 53)%Z).
    { simpl in Hin. repeat (destruct Hin as [[= <- <-]|Hin]; [lia|]). contradiction. }
    rewrite (plan_of_whole_hours _ h Hw Hh) in Hr.
    exists req, ((h + 23) / 24)%Z. split; [exact Hs|]. split; [exact Hr|].
    unfold whole in Hw. rewrite Hw, <- Zlt_Qlt, <- Zle_Qle.
    simpl in Hin.
    repeat (destruct Hin as [[= <- <-]|Hin]; [vm_compute; split; [reflexivity|discriminate]|]).
    contradiction.
  - intros this uid hours env w Hh.
    destruct (V1_createUID_sent this uid (toString (inject_Z hours)) env w) as [H|H];
      [left; exact H|right].
    rewrite (plan_of_whole_hours (inject_Z hours) hours) in H by (unfold whole; reflexivity || assumption).
    eexists. split; [exact H|]. split; [unfold add_uid_request; cbn; auto|].
    pose proof (Z.div_mod (hours + 23) 24 ltac:(lia)).
    pose proof (Z.mod_pos_bound (hours + 23) 24 ltac:(lia)). lia.
Qed.

Lemma create_sends_days_rounded_up_witness :
  passes_insertUidSchema (Sample.create_body "u1" "XYZ99900" 72) /\
  (session_isOwner Sample.alice = true \/
   body_userId (Sample.create_body "u1" "XYZ99900" 72) = session_userId Sample.alice) /\
  pricingTiers (body_duration (Sample.create_body "u1" "XYZ99900" 72)) = Some (lit 130) /\
  lookup_user (db (Sample.world (lit 500))) "u1" =
    Some (Sample.user "u1" "alice" false (lit 500)) /\
  (lit 130 <= credits (Sample.user "u1" "alice" false (lit 500)))%Q /\
  (exists this,
      fst (ApiClient.V1.create (Sample.env_with Sample.service_up) (Sample.world (lit 500))) =
        Ok this /\
      URL_ok (Sample.env_with Sample.service_up) (ApiClient.this_baseUrl this) = true) /\
  exists req,
    sent (after (POST_api_uids ApiClient.api_client Sample.alice
                   (Sample.create_body "u1" "XYZ99900" 72)
                   (Sample.env_with Sample.service_up) (Sample.world (lit 500)))) =
      req :: sent (Sample.world (lit 500)) /\
    add_uid_request req "XYZ99900" (JNum (inject_Z 3)).
Proof.
  assert (Hp : passes_insertUidSchema (Sample.create_body "u1" "XYZ99900" 72)).
  { unfold passes_insertUidSchema. cbn. split; [lia|reflexivity]. }
  assert (Ha : session_isOwner Sample.alice = true \/
               body_userId (Sample.create_body "u1" "XYZ99900" 72) =
                 session_userId Sample.alice) by (right; reflexivity).
  assert (Hc : pricingTiers (body_duration (Sample.create_body "u1" "XYZ99900" 72)) =
               Some (lit 130)) by (vm_compute; reflexivity).
  assert (Hu : lookup_user (db (Sample.world (lit 500))) "u1" =
               Some (Sample.user "u1" "alice" false (lit 500))) by reflexivity.
  assert (Hle : (lit 130 <= credits (Sample.user "u1" "alice" false (lit 500)))%Q)
    by (vm_compute; discriminate).
  assert (Hcr : fst (ApiClient.V1.create (Sample.env_with Sample.service_up)
                                         (Sample.world (lit 500))) =
                Ok {| ApiClient.this_baseUrl := "https://uidbypass.com/public/api/bypassapi.php";
                      ApiClient.this_apiKey := "uid_key";
                      ApiClient.timeoutMs := 20000 |}) by reflexivity.
  split; [exact Hp|]. split; [exact Ha|]. split; [exact Hc|]. split; [exact Hu|].
  split; [exact Hle|]. split; [eexists; split; [exact Hcr|reflexivity]|].
  destruct create_sends_days_rounded_up as [H _].
  destruct (H Sample.alice (Sample.create_body "u1" "XYZ99900" 72)
              (Sample.env_with Sample.service_up) (Sample.world (lit 500))
              _ _ _ Hp Ha Hc Hu Hle Hcr eq_refl)
    as (req & days & Hs & _ & Hr & _ & _ & H72).
  rewrite (H72 ltac:(reflexivity)) in Hr.
  exists req. split; [exact Hs|exact Hr].
Defined.

(** C6, as stated, fails: balances are binary64 numbers.  The owner adds
    1.00 to a balance of 9007199254740992.00 and the handler stores and
    reports 9007199254740992.00 again, where exact decimals give
    9007199254740993.00. *)
Lemma credit_of_one_is_lost_at_2_53 :
  response (PATCH_api_users_credits Sample.admin "u1" (Sample.credit_body "u1" 1 "add")
              (Sample.env_with Sample.service_up)
              (Sample.world 9007199254740992)) =
    Some (json (CreditsJson (Fixed2 900719925474099200))) /\
  lookup_user
    (db (after (PATCH_api_users_credits Sample.admin "u1"
                  (Sample.credit_body "u1" 1 "add")
                  (Sample.env_with Sample.service_up)
                  (Sample.world 9007199254740992)))) "u1" =
    Some (Sample.user "u1" "alice" false 9007199254740992) /\
  (900719925474099200 <> 900719925474099200 + 100)%Z.
Proof.
  split; [vm_compute; reflexivity|]. split; [vm_compute; reflexivity|lia].
Qed.

(** C6, amended: balances are binary64 numbers that every owner credit
    operation prints with two decimals and reads back.  For a balance and an
    amount that are two-decimal values below 2^42 the stored and reported
    result of an add or a deduct is the exact decimal one, and a deduct
    beyond the balance is refused with nothing written; the debit expression
    of the create handler is exact in the same range.  A create request
    whose balance is below the tier price is refused with nothing sent and
    nothing written: 2.00 against 2.33 leaves 2.00, and 5.00 less 1.30
    prints as 3.70. *)
Theorem credits_are_binary64_exact_to_the_cent :
  (forall session id b env w u c p,
      lookup_user (db w) id = Some u ->
      credits u = lit c -> amount b = lit p ->
      (0 <= c < cents_cap)%Z -> (0 <= p < cents_cap)%Z ->
      (operation b = "add" ->
       response (PATCH_api_users_credits session id b env w) =
         Some (json (CreditsJson (Fixed2 (c + p)))) /\
       lookup_user (db (after (PATCH_api_users_credits session id b env w))) id =
         Some (set_credits (lit (c + p)) u)) /\
      (operation b = "deduct" -> (p <= c)%Z ->
       response (PATCH_api_users_credits session id b env w) =
         Some (json (CreditsJson (Fixed2 (c - p)))) /\
       lookup_user (db (after (PATCH_api_users_credits session id b env w))) id =
         Some (set_credits (lit (c - p)) u)) /\
      (operation b = "deduct" -> (c < p)%Z ->
       PATCH_api_users_credits session id b env w =
         (Ok (error_json 400 "Insufficient credits"), w))) /\
  (forall c p,
      (0 <= c < cents_cap)%Z -> (0 <= p < cents_cap)%Z ->
      toFixed2 (sub (lit c) (lit p)) = Fixed2 (c - p) /\
      ltb (lit c) (lit p) = (c <? p)%Z) /\
  (forall client session b env w u cost,
      lookup_user (db w) (body_userId b) = Some u ->
      pricingTiers (body_duration b) = Some cost ->
      (credits u < cost)%Q ->
      exists code error,
        POST_api_uids client session b env w = (Ok (error_json code error), w) /\
        (code = 400 \/ code = 403)%Z /\
        (passes_insertUidSchema b ->
         (session_isOwner session = true \/ body_userId b = session_userId session) ->
         code = 400%Z /\ error = "Insufficient credits")) /\
  POST_api_uids ApiClient.api_client Sample.alice
    (Sample.create_body "u1" "XYZ99900" 168)
    (Sample.env_with Sample.service_up) (Sample.world (lit 200)) =
    (Ok (error_json 400 "Insufficient credits"), Sample.world (lit 200)) /\
  toFixed2 (sub (lit 500) (lit 130)) = Fixed2 370.
Proof.
  split; [|split; [|split; [|split]]].
  - intros session id b env w u c p Hu Hc Hp Bc Bp. split; [|split].
    + intros Hop.
      destruct (credits_add session id b env w u c p Hu Hc Hp Hop Bc Bp) as (H1 & H2 & _).
      auto.
    + intros Hop Hle.
      destruct (credits_deduct session id b env w u c p Hu Hc Hp Hop Bc Bp) as [H _].
      destruct (H Hle) as (H1 & H2 & _). auto.
    + intros Hop Hlt.
      destruct (credits_deduct session id b env w u c p Hu Hc Hp Hop Bc Bp) as [_ H].
      exact (H Hlt).
  - intros c p Bc Bp. split.
    + unfold toFixed2. rewrite sub_cents by lia. reflexivity.
    + apply lt_cents; lia.
  - intros. eapply POST_insufficient; eassumption.
  - vm_compute. reflexivity.
  - vm_compute. reflexivity.
Qed.

Lemma credits_are_binary64_exact_to_the_cent_witness :
  lookup_user (db (Sample.world (lit 500))) "u1" =
    Some (Sample.user "u1" "alice" false (lit 500)) /\
  (0 <= 500 < cents_cap)%Z /\ (0 <= 130 < cents_cap)%Z /\ (130 <= 500)%Z /\
  response (PATCH_api_users_credits Sample.admin "u1"
              (Sample.credit_body "u1" (lit 130) "deduct")
              (Sample.env_with Sample.service_up) (Sample.world (lit 500))) =
    Some (json (CreditsJson (Fixed2 370))).
Proof.
  assert (Hu : lookup_user (db (Sample.world (lit 500))) "u1" =
               Some (Sample.user "u1" "alice" false (lit 500))) by reflexivity.
  assert (Bc : (0 <= 500 < cents_cap)%Z) by (unfold cents_cap; lia).
  assert (Bp : (0 <= 130 < cents_cap)%Z) by (unfold cents_cap; lia).
  assert (Hle : (130 <= 500)%Z) by lia.
  split; [exact Hu|]. split; [exact Bc|]. split; [exact Bp|]. split; [exact Hle|].
  destruct credits_are_binary64_exact_to_the_cent as (H & _).
  destruct (H Sample.admin "u1" (Sample.credit_body "u1" (lit 130) "deduct")
              (Sample.env_with Sample.service_up) (Sample.world (lit 500))
              (Sample.user "u1" "alice" false (lit 500)) 500%Z 130%Z
              Hu eq_refl eq_refl Bc Bp) as (_ & Hd & _).
  destruct (Hd eq_refl Hle) as [Hr _]. exact Hr.
Defined.

(** C3, as stated, fails: a session that is not the owner asks for a UID on
    another account with a UID value of three characters, and is answered
    with status 400, the answer to a body that fails the schema, not with
    the authorization error (status 403); the body is checked before the
    owner of the target account is. *)
Lemma create_for_another_account_can_answer_400 :
  session_isOwner Sample.alice = false /\
  body_userId (Sample.create_body "u2" "abc" 24) <> session_userId Sample.alice /\
  exists error,
    POST_api_uids ApiClient.api_client Sample.alice (Sample.create_body "u2" "abc" 24)
      (Sample.env_with Sample.service_up) (Sample.world (lit 500)) =
      (Ok (error_json 400 error), Sample.world (lit 500)) /\
    error_json 400 error <> error_json 403 "Can only create UIDs for your own account".
Proof.
  split; [reflexivity|]. split; [discriminate|].
  eexists. split; [vm_compute; reflexivity|]. discriminate.
Qed.

(** C3, amended: a session that is not the owner is turned down, with
    nothing sent and nothing written, when it creates a UID for another
    account or renames a UID of another account -- with status 403 when the
    body passes the schema and with status 400 when it does not --, and with
    status 403 when it lists the UIDs of another account or deletes a UID of
    another account.  An owner session lists the UIDs of any account,
    deletes or renames the UID of any account when the external call
    succeeds, and is never answered 403 when it creates a UID. *)
Theorem ownership_is_enforced client env w :
  remote_only client ->
  (forall session,
      session_isOwner session = false ->
      (forall b,
          body_userId b <> session_userId session ->
          exists code error,
            POST_api_uids client session b env w = (Ok (error_json code error), w) /\
            (code = 403 \/ code = 400)%Z /\
            (passes_insertUidSchema b -> code = 403%Z) /\
            (~ passes_insertUidSchema b -> code = 400%Z)) /\
      (forall userId,
          userId <> session_userId session ->
          GET_api_uids_user session userId env w =
            (Ok (error_json 403 "Can only view your own UIDs"), w)) /\
      (forall id doc,
          lookup_uid (db w) id = Some doc ->
          userId doc <> session_userId session ->
          DELETE_api_uids client session id env w =
            (Ok (error_json 403 "Can only delete your own UIDs"), w)) /\
      (forall id doc newValue,
          lookup_uid (db w) id = Some doc ->
          userId doc <> session_userId session ->
          exists code error,
            PATCH_api_uids_value client session id newValue env w =
              (Ok (error_json code error), w) /\
            (code = 403 \/ code = 400)%Z /\
            (passes_updateUidValueSchema newValue -> code = 403%Z) /\
            (~ passes_updateUidValueSchema newValue -> code = 400%Z))) /\
  (forall session,
      session_isOwner session = true ->
      (forall userId,
          GET_api_uids_user session userId env w =
            (Ok (json (UidsJson (own_uids (db w) userId))), w) /\
          forall doc, In doc (Uids (db w)) -> Mongo.userId doc = userId ->
                      In (Storage.toUid doc) (own_uids (db w) userId)) /\
      (forall id doc,
          unique_ids (db w) ->
          lookup_uid (db w) id = Some doc ->
          succeeds (external_delete client (uidValue doc)) env w ->
          response (DELETE_api_uids client session id env w) = Some (json SuccessJson) /\
          lookup_uid (db (after (DELETE_api_uids client session id env w))) id = None) /\
      (forall id doc newValue,
          lookup_uid (db w) id = Some doc ->
          passes_updateUidValueSchema newValue ->
          succeeds (external_update client (uidValue doc) newValue) env w ->
          response (PATCH_api_uids_value client session id newValue env w) =
            Some (json (ValueUpdatedJson (uidValue doc) newValue)) /\
          lookup_uid (db (after (PATCH_api_uids_value client session id newValue env w))) id =
            Some (set_uidValue newValue doc)) /\
      (forall b r,
          response (POST_api_uids client session b env w) = Some r ->
          statusCode r <> 403%Z)).
Proof.
  intros Hro. split.
  - intros session Ho. split; [|split; [|split]].
    + intros b Hne.
      destruct (POST_other_account client session b env w Ho Hne)
        as (code & error & HP & Hc & Hpass).
      exists code, error. split; [exact HP|]. split; [exact Hc|]. split; [exact Hpass|].
      intros Hn. destruct (POST_invalid_body client session b env w Hn) as [e He].
      rewrite He in HP. inversion HP. reflexivity.
    + intros userId Hne. apply GET_other_account; assumption.
    + intros id doc Hd Hne. eapply DELETE_other_account; eassumption.
    + intros id doc newValue Hd Hne.
      destruct (PATCH_value_other_account client session id newValue env w doc Ho Hd Hne)
        as (code & error & HP & Hc & Hpass).
      exists code, error. split; [exact HP|]. split; [exact Hc|]. split; [exact Hpass|].
      intros Hn.
      destruct (PATCH_value_invalid_body client session id newValue env w Hn) as [e He].
      rewrite He in HP. inversion HP. reflexivity.
  - intros session Ho. split; [|split; [|split]].
    + intros userId. split; [apply GET_allowed; auto|].
      intros doc Hin Hu. apply In_own_uids. eauto.
    + intros id doc Hu Hd Hs.
      pose proof (DELETE_allowed client session id env w doc Hro (or_introl Ho) Hd Hs) as Hr.
      split; [exact Hr|].
      destruct (DELETE_success client session id env w doc Hro Hd Hr) as (HU & _).
      unfold lookup_uid. rewrite HU. apply findById_deleteById. exact Hu.
    + intros id doc newValue Hd Hp Hs.
      pose proof (PATCH_value_allowed client session id newValue env w doc Hro
                    (or_introl Ho) Hd Hp Hs) as Hr.
      split; [exact Hr|].
      destruct (PATCH_value_success client session id newValue env w doc _ Hro Hd Hr)
        as (HU & _).
      unfold lookup_uid in *. rewrite HU.
      rewrite findById_updateById by apply set_uidValue_id. rewrite Hd. reflexivity.
    + intros b r. apply POST_owner_passes_the_check. exact Ho.
Qed.

Lemma ownership_is_enforced_witness :
  remote_only ApiClient.api_client /\
  session_isOwner Sample.alice = false /\
  lookup_uid (db (Sample.world (lit 500))) "d2" =
    Some (Sample.uid_doc "d2" "u2" "BOB4567" "expired" (Some "k2")) /\
  userId (Sample.uid_doc "d2" "u2" "BOB4567" "expired" (Some "k2")) <>
    session_userId Sample.alice /\
  DELETE_api_uids ApiClient.api_client Sample.alice "d2"
    (Sample.env_with Sample.service_up) (Sample.world (lit 500)) =
    (Ok (error_json 403 "Can only delete your own UIDs"), Sample.world (lit 500)) /\
  body_userId (Sample.create_body "u2" "abc" 24) <> session_userId Sample.alice /\
  ~ passes_insertUidSchema (Sample.create_body "u2" "abc" 24) /\
  (exists error,
      POST_api_uids ApiClient.api_client Sample.alice (Sample.create_body "u2" "abc" 24)
        (Sample.env_with Sample.service_up) (Sample.world (lit 500)) =
        (Ok (error_json 400 error), Sample.world (lit 500))) /\
  body_userId (Sample.create_body "u2" "XYZ99900" 24) <> session_userId Sample.alice /\
  passes_insertUidSchema (Sample.create_body "u2" "XYZ99900" 24) /\
  (exists error,
      POST_api_uids ApiClient.api_client Sample.alice (Sample.create_body "u2" "XYZ99900" 24)
        (Sample.env_with Sample.service_up) (Sample.world (lit 500)) =
        (Ok (error_json 403 error), Sample.world (lit 500))) /\
  session_isOwner Sample.admin = true /\
  unique_ids (db (Sample.world (lit 500))) /\
  succeeds (external_delete ApiClient.api_client "BOB4567")
           (Sample.env_with Sample.service_up) (Sample.world (lit 500)) /\
  lookup_uid
    (db (after (DELETE_api_uids ApiClient.api_client Sample.admin "d2"
                  (Sample.env_with Sample.service_up) (Sample.world (lit 500)))))
    "d2" = None /\
  remote_only ApiClient.api_client_rev /\
  passes_updateUidValueSchema "BOB99999" /\
  succeeds (external_update ApiClient.api_client_rev "BOB4567" "BOB99999")
           (Sample.env_with Sample.service_up) (Sample.world (lit 500)) /\
  response (PATCH_api_uids_value ApiClient.api_client_rev Sample.admin "d2" "BOB99999"
              (Sample.env_with Sample.service_up) (Sample.world (lit 500))) =
    Some (json (ValueUpdatedJson "BOB4567" "BOB99999")).
Proof.
  assert (Hd : lookup_uid (db (Sample.world (lit 500))) "d2" =
               Some (Sample.uid_doc "d2" "u2" "BOB4567" "expired" (Some "k2")))
    by reflexivity.
  assert (Hne : userId (Sample.uid_doc "d2" "u2" "BOB4567" "expired" (Some "k2")) <>
                session_userId Sample.alice) by discriminate.
  assert (Hb1 : body_userId (Sample.create_body "u2" "abc" 24) <>
                session_userId Sample.alice) by discriminate.
  assert (Hn1 : ~ passes_insertUidSchema (Sample.create_body "u2" "abc" 24)).
  { unfold passes_insertUidSchema. cbn. lia. }
  assert (Hb2 : body_userId (Sample.create_body "u2" "XYZ99900" 24) <>
                session_userId Sample.alice) by discriminate.
  assert (Hp2 : passes_insertUidSchema (Sample.create_body "u2" "XYZ99900" 24)).
  { unfold passes_insertUidSchema. cbn. split; [lia|reflexivity]. }
  assert (Hu : unique_ids (db (Sample.world (lit 500)))).
  { unfold unique_ids. cbn. repeat constructor; cbn; intuition discriminate. }
  assert (Hs : succeeds (external_delete ApiClient.api_client "BOB4567")
                        (Sample.env_with Sample.service_up) (Sample.world (lit 500))).
  { eexists. vm_compute. reflexivity. }
  destruct (ownership_is_enforced ApiClient.api_client (Sample.env_with Sample.service_up)
              (Sample.world (lit 500)) api_client_remote_only) as [Hn Ho].
  destruct (Hn Sample.alice eq_refl) as (Hcr & _ & Hdel & _).
  destruct (Ho Sample.admin eq_refl) as (_ & Hod & _).
  destruct (Hcr _ Hb1) as (c1 & e1 & HP1 & _ & _ & H400).
  destruct (Hcr _ Hb2) as (c2 & e2 & HP2 & _ & H403 & _).
  rewrite (H400 Hn1) in HP1. rewrite (H403 Hp2) in HP2.
  split; [exact api_client_remote_only|]. split; [reflexivity|].
  split; [exact Hd|]. split; [exact Hne|].
  split; [exact (Hdel "d2" _ Hd Hne)|].
  split; [exact Hb1|]. split; [exact Hn1|]. split; [exists e1; exact HP1|].
  split; [exact Hb2|]. split; [exact Hp2|]. split; [exists e2; exact HP2|].
  split; [reflexivity|].
  split; [exact Hu|]. split; [exact Hs|].
  split; [exact (proj2 (Hod "d2" _ Hu Hd Hs))|].
  assert (Hpv : passes_updateUidValueSchema "BOB99999").
  { unfold passes_updateUidValueSchema. cbn. lia. }
  assert (Hsr : succeeds (external_update ApiClient.api_client_rev "BOB4567" "BOB99999")
                         (Sample.env_with Sample.service_up) (Sample.world (lit 500))).
  { eexists. vm_compute. reflexivity. }
  destruct (ownership_is_enforced ApiClient.api_client_rev
              (Sample.env_with Sample.service_up) (Sample.world (lit 500))
              api_client_rev_remote_only) as [_ Hor].
  destruct (Hor Sample.admin eq_refl) as (_ & _ & Hren & _).
  split; [exact api_client_rev_remote_only|]. split; [exact Hpv|]. split; [exact Hsr|].
  exact (proj1 (Hren "d2" _ "BOB99999" Hd Hpv Hsr)).
Defined.

End Dashboard.

(* ================================================================= *)
(** ** The API of the server itself: remove and renew; the activity log *)

Module ExternalApi.

Import Number Mongo Eff Schema Spec NumberFacts HandlerFacts.
Import Routes.
Import ApiHandler.
Open Scope string_scope.








Lemma DELETE_success_found client session id env w :
  response (DELETE_api_uids client session id env w) = Some (Routes.json SuccessJson) ->
  exists doc, lookup_uid (db w) id = Some doc.
Proof.
  unfold lookup_uid. destruct (findById uid_id (Uids (db w)) id) as [doc|] eqn:E; [eauto|].
  unfold response, DELETE_api_uids, Storage.getUid. unfold_eff. rewrite E.
  cbn. discriminate.
Qed.

Lemma PATCH_value_success_found client session id newValue env w b :
  response (PATCH_api_uids_value client session id newValue env w) = Some (Routes.json b) ->
  exists doc, lookup_uid (db w) id = Some doc.
Proof.
  unfold lookup_uid. destruct (findById uid_id (Uids (db w)) id) as [doc|] eqn:E; [eauto|].
  unfold response, PATCH_api_uids_value, updateUidValueSchema_parse, Storage.getUid.
  unfold_eff.
  crunch; try rewrite E in *; cbn in *; intros; discriminate.
Qed.

(** C8, as stated, fails: the owner sets the status of a UID of another
    account; the request succeeds, the status is written, and the activity
    log receives no entry. *)
Lemma owner_status_update_leaves_no_entry :
  session_isOwner Sample.admin = true /\
  response (PATCH_api_uids Sample.admin "d2" (Some "active")
              (Sample.env_with Sample.service_up) (Sample.world (lit 500))) =
    Some (Routes.json SuccessJson) /\
  lookup_uid
    (db (after (PATCH_api_uids Sample.admin "d2" (Some "active")
                  (Sample.env_with Sample.service_up) (Sample.world (lit 500)))))
    "d2" = Some (Sample.uid_doc "d2" "u2" "BOB4567" "active" (Some "k2")) /\
  ActivityLogs
    (db (after (PATCH_api_uids Sample.admin "d2" (Some "active")
                  (Sample.env_with Sample.service_up) (Sample.world (lit 500))))) =
    ActivityLogs (db (Sample.world (lit 500))).
Proof.
  split; [reflexivity|]. split; [vm_compute; reflexivity|].
  split; vm_compute; reflexivity.
Qed.

(** C8, amended: a successful delete or rename on the dashboard appends
    exactly one entry, [delete_uid] or [update_uid_value], in the name of the
    session; a successful renew or remove on the API appends exactly one
    entry, [renew_uid_api] or [delete_uid_api], in the name of the user of
    the API key; a status update of a UID of the session's own account
    succeeds and appends exactly one [update_uid] entry in the name of the
    session, and a status update by an owner of an id that is not among the
    owner's own UIDs succeeds and appends nothing. *)
Theorem successful_operations_and_their_entries client env w :
  remote_only client ->
  (forall session id,
      response (DELETE_api_uids client session id env w) = Some (Routes.json SuccessJson) ->
      logged w (after (DELETE_api_uids client session id env w))
             (session_userId session) "delete_uid") /\
  (forall session id newValue b,
      response (PATCH_api_uids_value client session id newValue env w) =
        Some (Routes.json b) ->
      logged w (after (PATCH_api_uids_value client session id newValue env w))
             (session_userId session) "update_uid_value") /\
  (forall session id status doc,
      In doc (Uids (db w)) -> userId doc = session_userId session -> uid_id doc = id ->
      response (PATCH_api_uids session id status env w) = Some (Routes.json SuccessJson) /\
      logged w (after (PATCH_api_uids session id status env w))
             (session_userId session) "update_uid") /\
  (forall session id status,
      (forall doc, In doc (Uids (db w)) -> userId doc = session_userId session ->
                   uid_id doc <> id) ->
      session_isOwner session = true ->
      response (PATCH_api_uids session id status env w) = Some (Routes.json SuccessJson) /\
      ActivityLogs (db (after (PATCH_api_uids session id status env w))) =
        ActivityLogs (db w)) /\
  (forall req b,
      response (handleRenewUid req env w) = Some (json b) ->
      logged w (after (handleRenewUid req env w)) (apiUserId req) "renew_uid_api") /\
  (forall req b,
      response (handleRemoveUid req env w) = Some (json b) ->
      logged w (after (handleRemoveUid req env w)) (apiUserId req) "delete_uid_api").
Proof.
  intros Hro. split; [|split; [|split; [|split; [|split]]]].
  - intros session id H.
    destruct (DELETE_success_found client session id env w H) as [doc Hd].
    destruct (DELETE_success client session id env w doc Hro Hd H) as (_ & _ & _ & Hl).
    exact Hl.
  - intros session id newValue b H.
    destruct (PATCH_value_success_found client session id newValue env w b H) as [doc Hd].
    destruct (PATCH_value_success client session id newValue env w doc b Hro Hd H)
      as (_ & _ & Hl).
    exact Hl.
  - intros session id status doc H H0 H1.
    exact (PATCH_api_uids_own session id status env w doc H H0 H1).
  - intros session id status H H0.
    destruct (PATCH_api_uids_other session id status env w H) as [Ho _].
    exact (Ho H0).
  - intros req b H. eapply handleRenewUid_logged; eassumption.
  - intros req b H. eapply handleRemoveUid_logged; eassumption.
Qed.

Lemma successful_operations_and_their_entries_witness :
  remote_only ApiClient.api_client /\
  response (DELETE_api_uids ApiClient.api_client Sample.alice "d1"
              (Sample.env_with Sample.service_up) (Sample.world (lit 500))) =
    Some (Routes.json SuccessJson) /\
  logged (Sample.world (lit 500))
         (after (DELETE_api_uids ApiClient.api_client Sample.alice "d1"
                   (Sample.env_with Sample.service_up) (Sample.world (lit 500))))
         "u1" "delete_uid".
Proof.
  assert (Hr : response (DELETE_api_uids ApiClient.api_client Sample.alice "d1"
                           (Sample.env_with Sample.service_up) (Sample.world (lit 500))) =
               Some (Routes.json SuccessJson)) by (vm_compute; reflexivity).
  split; [exact api_client_remote_only|]. split; [exact Hr|].
  destruct (successful_operations_and_their_entries ApiClient.api_client
              (Sample.env_with Sample.service_up) (Sample.world (lit 500))
              api_client_remote_only) as (H & _).
  exact (H Sample.alice "d1" Hr).
Defined.

End ExternalApi.

(* ================================================================= *)
(** ** The client of the bypass service *)

Module ClientFacts.

Import Number Mongo Eff Schema Spec Props HandlerFacts.
Import ApiClient.
Open Scope string_scope.

Lemma new_URL_ok this env w :
  URL_ok env (this_baseUrl this) = true -> new_URL this env w = (Ok tt, w).
Proof. intros H. unfold new_URL, bind, ask, ret. rewrite H. reflexivity. Qed.

(** X1: [request] of [server/api-client.ts]: once the base URL parses, the
    method sends exactly one request and writes nothing; it returns the
    JSON body only of a response with status [ok] and no [error] in the
    body, and every failure -- timeout, network error, a body that is not
    JSON, an HTTP error, an [error] in the body -- reaches the caller as a
    [UIDBypassError]. *)
Theorem request_fails_only_with_UIDBypassError this action params method env w :
  URL_ok env (this_baseUrl this) = true ->
  let r := fetch_request this action params method in
  snd (V1.request this action params method env w) =
    {| db := db w; sent := r :: sent w |} /\
  match fst (V1.request this action params method env w) with
  | Ok data => accepted_by env r data
  | Throw e => is_UIDBypassError e = true
  end.
Proof.
  intros H r. unfold V1.request.
  rewrite (bind_ok _ _ _ _ tt w (new_URL_ok this env w H)).
  unfold bind, do_fetch. cbn [fst snd]. fold r.
  destruct (fetch env r) as [|m|ok st stt txt [data|m]] eqn:E;
    cbn [throw ret fst snd]; try (split; reflexivity).
  destruct ok; cbn [negb throw fst snd]; [|split; reflexivity].
  destruct (truthy_str (ext_error data)) eqn:T; cbn [throw ret fst snd];
    [split; reflexivity|].
  split; [reflexivity|]. exists st, stt, txt. split; [exact E|exact T].
Qed.

Lemma request_fails_only_with_UIDBypassError_witness :
  URL_ok (Sample.env_with Sample.service_down) (this_baseUrl Fixtures.client) = true /\
  (let r := fetch_request Fixtures.client "remove_uid_api" [("uid", JStr "ABC123")] "POST" in
   snd (V1.request Fixtures.client "remove_uid_api" [("uid", JStr "ABC123")] "POST"
                   (Sample.env_with Sample.service_down) (Sample.world (lit 500))) =
     {| db := db (Sample.world (lit 500)); sent := r :: sent (Sample.world (lit 500)) |} /\
   match fst (V1.request Fixtures.client "remove_uid_api" [("uid", JStr "ABC123")] "POST"
                         (Sample.env_with Sample.service_down) (Sample.world (lit 500))) with
   | Ok data => accepted_by (Sample.env_with Sample.service_down) r data
   | Throw e => is_UIDBypassError e = true
   end).
Proof.
  split; [reflexivity|].
  apply request_fails_only_with_UIDBypassError. reflexivity.
Defined.

Lemma V2_request_world this action params method env w :
  URL_ok env (this_baseUrl this) = true ->
  snd (V2.request this action params method env w) =
    {| db := db w; sent := fetch_request this action params method :: sent w |}.
Proof.
  intros H. unfold V2.request.
  rewrite (bind_ok _ _ _ _ tt w (new_URL_ok this env w H)).
  unfold bind, do_fetch. cbn [fst snd].
  destruct (fetch env _) as [|m|ok st stt txt [data|m]];
    cbn [throw ret fst snd]; try reflexivity.
  destruct ok; cbn [negb throw fst snd]; [|reflexivity].
  destruct (truthy_str (ext_error data)); reflexivity.
Qed.

Lemma V2_request_result this action params method env w w' :
  URL_ok env (this_baseUrl this) = true ->
  fst (V2.request this action params method env w) =
  fst (V2.request this action params method env w').
Proof.
  intros H. unfold V2.request.
  rewrite (bind_ok _ _ _ _ tt w (new_URL_ok this env w H)).
  rewrite (bind_ok _ _ _ _ tt w' (new_URL_ok this env w' H)).
  unfold bind, do_fetch. cbn [fst snd].
  destruct (fetch env _) as [|m|ok st stt txt [data|m]];
    cbn [throw ret fst snd]; try reflexivity.
  destruct ok; cbn [negb throw fst snd]; [|reflexivity].
  destruct (truthy_str (ext_error data)); reflexivity.
Qed.

(** X2: [updateUID] of the later client revision is a remove followed by a
    free add, and not one step: when the remove fails nothing else is sent
    and its error is the error of the update; when the remove succeeds the
    free add of the new UID is sent next and decides the result, so an
    update that fails at the add has already removed the old UID at the
    service. *)
Theorem updateUID_removes_before_it_adds this oldUid newUid env w :
  URL_ok env (this_baseUrl this) = true ->
  match fst (V2.deleteUID this oldUid env w) with
  | Throw e =>
      V2.updateUID this oldUid newUid env w =
        (Throw e, {| db := db w; sent := remove_request this oldUid :: sent w |})
  | Ok _ =>
      snd (V2.updateUID this oldUid newUid env w) =
        {| db := db w;
           sent := add_free_request this newUid :: remove_request this oldUid :: sent w |} /\
      fst (V2.updateUID this oldUid newUid env w) =
        fst (V2.createUIDFree this newUid env w)
  end.
Proof.
  intros H. unfold V2.updateUID, V2.deleteUID.
  pose proof (V2_request_world this "remove_uid_api" [("uid", JStr oldUid)] "POST"
                               env w H) as Hw.
  destruct (V2.request this "remove_uid_api" [("uid", JStr oldUid)] "POST" env w)
    as [[x|e] w1] eqn:E; cbn [fst snd] in *; subst w1.
  - rewrite (bind_ok _ _ _ _ _ _ E). unfold V2.createUIDFree. split.
    + rewrite V2_request_world by exact H. reflexivity.
    + apply V2_request_result. exact H.
  - rewrite (bind_throw _ _ _ _ _ _ E). reflexivity.
Qed.

Lemma updateUID_removes_before_it_adds_witness :
  URL_ok (Sample.env_with Sample.service_no_add) (this_baseUrl Fixtures.client) = true /\
  match fst (V2.deleteUID Fixtures.client "ABC123"
                          (Sample.env_with Sample.service_no_add) (Sample.world (lit 500))) with
  | Throw e =>
      V2.updateUID Fixtures.client "ABC123" "XYZ99900"
                   (Sample.env_with Sample.service_no_add) (Sample.world (lit 500)) =
        (Throw e, {| db := db (Sample.world (lit 500));
                     sent := remove_request Fixtures.client "ABC123" ::
                             sent (Sample.world (lit 500)) |})
  | Ok _ =>
      snd (V2.updateUID Fixtures.client "ABC123" "XYZ99900"
                        (Sample.env_with Sample.service_no_add) (Sample.world (lit 500))) =
        {| db := db (Sample.world (lit 500));
           sent := add_free_request Fixtures.client "XYZ99900" ::
                   remove_request Fixtures.client "ABC123" ::
                   sent (Sample.world (lit 500)) |} /\
      fst (V2.updateUID Fixtures.client "ABC123" "XYZ99900"
                        (Sample.env_with Sample.service_no_add) (Sample.world (lit 500))) =
        fst (V2.createUIDFree Fixtures.client "XYZ99900"
                              (Sample.env_with Sample.service_no_add) (Sample.world (lit 500)))
  end.
Proof.
  split; [reflexivity|].
  apply updateUID_removes_before_it_adds. reflexivity.
Defined.

End ClientFacts.

(* ================================================================= *)
(** ** The storage *)

Module StorageFacts.

Import Number Mongo Eff Schema Spec Props NumberFacts HandlerFacts.
Open Scope string_scope.

Section CollectionLaws.
Variable A : Type.
Variable key : A -> string.

Lemma findById_deleteById_other (l : list A) id id' :
  id' <> id -> findById key (deleteById key l id) id' = findById key l id'.
Proof.
  intros Hn. induction l as [|d l IH]; [reflexivity|]. cbn.
  destruct (key d =? id) eqn:E.
  - apply String.eqb_eq in E. destruct (key d =? id') eqn:E'; [|reflexivity].
    apply String.eqb_eq in E'. congruence.
  - cbn. rewrite IH. reflexivity.
Qed.

End CollectionLaws.

(** X4: [deleteUid] and [getUid]: once a UID is deleted by its id, looking
    it up gives nothing, and every other id gives what it gave before. *)
Theorem deleted_uid_is_gone id id' env w :
  unique_ids (db w) ->
  fst (bind (Storage.deleteUid id) (fun _ => Storage.getUid id') env w) =
  Ok (if id' =? id then None
      else option_map Storage.toUid (lookup_uid (db w) id')).
Proof.
  intros Hu. unfold Storage.deleteUid, Storage.getUid, bind, get_db, put_db, ret.
  cbn [fst snd db Uids with_Uids]. f_equal.
  destruct (id' =? id) eqn:E.
  - apply String.eqb_eq in E. subst id'.
    rewrite (findById_deleteById _ uid_id _ id Hu). reflexivity.
  - apply String.eqb_neq in E.
    rewrite findById_deleteById_other by exact E. reflexivity.
Qed.

Lemma deleted_uid_is_gone_witness :
  unique_ids (db (Sample.world (lit 500))) /\
  fst (bind (Storage.deleteUid "d1") (fun _ => Storage.getUid "d2")
            (Sample.env_with Sample.service_up) (Sample.world (lit 500))) =
  Ok (if "d2" =? "d1" then None
      else option_map Storage.toUid (lookup_uid (db (Sample.world (lit 500))) "d2")).
Proof.
  assert (H : unique_ids (db (Sample.world (lit 500)))).
  { unfold unique_ids. cbn. repeat constructor; cbn; intuition discriminate. }
  split; [exact H|]. apply deleted_uid_is_gone. exact H.
Defined.

(** X5: [updateUidValue], [updateUid] and [getUid]: after a UID's value or
    status is updated by id, a lookup of that id gives the document with
    the new value (the new status) and every other field as before, and a
    lookup of any other id gives what it gave before. *)
Theorem updated_uid_reads_back id id' newUidValue status env w :
  fst (bind (Storage.updateUidValue id newUidValue) (fun _ => Storage.getUid id') env w) =
    Ok (if id' =? id
        then option_map (fun d => Storage.toUid (set_uidValue newUidValue d))
                        (lookup_uid (db w) id)
        else option_map Storage.toUid (lookup_uid (db w) id')) /\
  fst (bind (Storage.updateUid id (Some status)) (fun _ => Storage.getUid id') env w) =
    Ok (if id' =? id
        then option_map (fun d => Storage.toUid (set_status status d))
                        (lookup_uid (db w) id)
        else option_map Storage.toUid (lookup_uid (db w) id')).
Proof.
  unfold Storage.updateUidValue, Storage.updateUid, Storage.getUid, bind, get_db,
    put_db, ret, lookup_uid.
  cbn [fst snd db Uids with_Uids].
  destruct (id' =? id) eqn:E.
  - apply String.eqb_eq in E. subst id'.
    rewrite !findById_updateById by (intros; reflexivity).
    split; f_equal; destruct (findById uid_id (Uids (db w)) id); reflexivity.
  - apply String.eqb_neq in E.
    rewrite !findById_updateById_other by (try (intros; reflexivity); exact E).
    split; reflexivity.
Qed.

Lemma toFixed2_lit c : (Z.abs c < cents_cap)%Z -> toFixed2_cents (lit c) = c.
Proof.
  intros Hc. apply toFixed2_near.
  pose proof (lit_err c Hc) as E. pose proof (cents_value c) as V.
  apply Qabs_Qle_condition in E. apply Qabs_Qlt_condition.
  split; lra.
Qed.

(** X6: [updateUserCredits] and [getUser]: the balance written for a user
    is the balance read back.  The number stored is [parseFloat] of the
    string given; for a two-decimal string below 2^42 the balance read back
    prints, with two decimals, as the very string that was written.  The
    other fields of the user are as before. *)
Theorem written_credits_read_back userId newCredits env w u :
  lookup_user (db w) userId = Some u ->
  exists user,
    fst (bind (Storage.updateUserCredits userId newCredits)
              (fun _ => Storage.getUser userId) env w) = Ok (Some user) /\
    parseFloat (User.credits user) = parseFloat newCredits /\
    (forall c, newCredits = Fixed2 c -> (Z.abs c < cents_cap)%Z ->
               toFixed2 (parseFloat (User.credits user)) = newCredits) /\
    User.id user = user_id u /\ User.username user = username u /\
    User.isOwner user = isOwner u /\ User.isActive user = isActive u.
Proof.
  intros Hu. unfold Storage.updateUserCredits, Storage.getUser, bind, get_db,
    put_db, ret.
  cbn [fst snd db Users with_Users].
  rewrite findById_updateById by (intros; reflexivity).
  unfold lookup_user in Hu. rewrite Hu. cbn [option_map].
  eexists. split; [reflexivity|]. cbn. repeat split.
  intros c -> Hc. cbn. unfold toFixed2. f_equal. apply toFixed2_lit. exact Hc.
Qed.

Lemma written_credits_read_back_witness :
  lookup_user (db (Sample.world (lit 500))) "u1" =
    Some (Sample.user "u1" "alice" false (lit 500)) /\
  exists user,
    fst (bind (Storage.updateUserCredits "u1" (Fixed2 370))
              (fun _ => Storage.getUser "u1")
              (Sample.env_with Sample.service_up) (Sample.world (lit 500))) =
      Ok (Some user) /\
    parseFloat (User.credits user) = parseFloat (Fixed2 370) /\
    (forall c, Fixed2 370 = Fixed2 c -> (Z.abs c < cents_cap)%Z ->
               toFixed2 (parseFloat (User.credits user)) = Fixed2 370) /\
    User.id user = user_id (Sample.user "u1" "alice" false (lit 500)) /\
    User.username user = username (Sample.user "u1" "alice" false (lit 500)) /\
    User.isOwner user = isOwner (Sample.user "u1" "alice" false (lit 500)) /\
    User.isActive user = isActive (Sample.user "u1" "alice" false (lit 500)).
Proof.
  split; [reflexivity|].
  apply written_credits_read_back. reflexivity.
Defined.

Lemma insert_desc_perm d l : Permutation.Permutation (insert_desc d l) (d :: l).
Proof.
  induction l as [|x l IH]; cbn; [apply Permutation.Permutation_refl|].
  destruct (createdAt x <? createdAt d)%Z; [apply Permutation.Permutation_refl|].
  eapply Permutation.perm_trans; [apply Permutation.perm_skip, IH|].
  apply Permutation.perm_swap.
Qed.

Lemma sort_perm l : Permutation.Permutation (sort_createdAt_desc l) l.
Proof.
  induction l as [|x l IH]; cbn; [constructor|].
  eapply Permutation.perm_trans; [apply insert_desc_perm|].
  apply Permutation.perm_skip, IH.
Qed.

Lemma insert_desc_sorted d l :
  Sorted.StronglySorted newer l -> Sorted.StronglySorted newer (insert_desc d l).
Proof.
  induction 1 as [|x l Hs IH Hx]; cbn.
  - constructor; constructor.
  - destruct (createdAt x <? createdAt d)%Z eqn:E.
    + apply Z.ltb_lt in E. constructor; [constructor; assumption|].
      constructor; [unfold newer; lia|].
      rewrite Forall_forall in *. intros y Hy. specialize (Hx y Hy).
      unfold newer in *. lia.
    + apply Z.ltb_ge in E. constructor; [exact IH|].
      rewrite Forall_forall in *. intros y Hy.
      apply In_insert_desc in Hy. destruct Hy as [->|Hy];
        [unfold newer; lia | apply Hx, Hy].
Qed.

Lemma sort_sorted l : Sorted.StronglySorted newer (sort_createdAt_desc l).
Proof.
  induction l as [|x l IH]; cbn; [constructor|]. apply insert_desc_sorted, IH.
Qed.

Lemma map_sorted l :
  Sorted.StronglySorted newer l -> newest_first (map Storage.toUid l).
Proof.
  unfold newest_first. induction 1 as [|x l Hs IH Hx]; cbn; constructor.
  - exact IH.
  - rewrite Forall_forall in *. intros t Ht. apply in_map_iff in Ht.
    destruct Ht as [y [<- Hy]]. cbn. apply (Hx y Hy).
Qed.

(** X7: [getUserUids] lists the UIDs of the user it is asked for, all of
    them and each as often as the collection holds it, no UID of any other
    user, and newest first; it writes nothing. *)
Theorem user_uids_are_complete_and_newest_first userId env w :
  exists l,
    Storage.getUserUids userId env w = (Ok l, w) /\
    newest_first l /\
    Permutation.Permutation l
      (map Storage.toUid (filter (fun u => Mongo.userId u =? userId) (Uids (db w)))) /\
    (forall t, In t l -> Uid.userId t = userId).
Proof.
  eexists. split; [reflexivity|]. split; [|split].
  - apply map_sorted, sort_sorted.
  - apply Permutation.Permutation_map, sort_perm.
  - intros t Ht. apply in_map_iff in Ht. destruct Ht as [d [<- Hd]].
    apply In_sort, filter_In in Hd. destruct Hd as [_ Hd].
    apply String.eqb_eq in Hd. exact Hd.
Qed.

End StorageFacts.

(* ================================================================= *)
(** ** The dashboard routes *)

Module RouteFacts.

Import Number Mongo Eff Schema Spec Props HandlerFacts.
Import Routes.
Open Scope string_scope.

Lemma unconfigured_none d :
  unconfigured d ->
  ApiClient.configured
    (match SettingsColl d with
     | [] => None
     | s :: _ =>
         Some {| Settings.baseUrl := Storage.nonempty (Mongo.baseUrl s);
                 Settings.apiKey := Storage.nonempty (Mongo.apiKey s);
                 Settings.updatedAt := Mongo.updatedAt s |}
     end) = None.
Proof.
  unfold unconfigured. destruct (SettingsColl d) as [|s l]; [reflexivity|].
  intros [H|H]; unfold ApiClient.configured; cbn; rewrite H;
    [reflexivity | destruct (Storage.nonempty (baseUrl s)); reflexivity].
Qed.

Lemma V1_create_unconfigured env w :
  unconfigured (db w) ->
  ApiClient.V1.create env w =
  (Throw (UIDBypassError
            "API settings not configured. Please configure in Settings page."
            None None), w).
Proof.
  intros H. unfold ApiClient.V1.create, Storage.getSettings, bind, get_db, ret.
  cbn [fst snd]. rewrite (unconfigured_none _ H). reflexivity.
Qed.

Lemma V2_create_unconfigured env w :
  unconfigured (db w) ->
  ApiClient.V2.create env w =
  (Throw (UIDBypassError
            "API configuration not found. Please configure Base URL and API Key in Settings."
            None None), w).
Proof.
  intros H. unfold ApiClient.V2.create, Storage.getSettings, bind, get_db, ret.
  cbn [fst snd]. rewrite (unconfigured_none _ H). reflexivity.
Qed.

Lemma create_unconfigured client env w :
  client = ApiClient.api_client \/ client = ApiClient.api_client_rev ->
  unconfigured (db w) ->
  exists m, @ApiClient.create client env w = (Throw (UIDBypassError m None None), w).
Proof.
  intros [->| ->] H; eexists; cbn [ApiClient.create ApiClient.api_client
                                   ApiClient.api_client_rev].
  - apply V1_create_unconfigured, H.
  - apply V2_create_unconfigured, H.
Qed.

(** X3: Without usable API settings no UID is created, deleted or renamed:
    whatever the request, [POST /api/uids], [DELETE /api/uids/:id] and
    [PATCH /api/uids/:id/value] answer with an error status, send nothing
    to the bypass service and write nothing, with either revision of the
    client. *)
Theorem no_settings_no_uid_operation client session env w :
  client = ApiClient.api_client \/ client = ApiClient.api_client_rev ->
  unconfigured (db w) ->
  (forall b, exists r,
      POST_api_uids client session b env w = (Ok r, w) /\ statusCode r <> 200%Z) /\
  (forall id, exists r,
      DELETE_api_uids client session id env w = (Ok r, w) /\ statusCode r <> 200%Z) /\
  (forall id newValue, exists r,
      PATCH_api_uids_value client session id newValue env w = (Ok r, w) /\
      statusCode r <> 200%Z).
Proof.
  intros Hc Hu.
  assert (Hcr : forall w', db w' = db w -> sent w' = sent w ->
            exists m, @ApiClient.create client env w' =
                      (Throw (UIDBypassError m None None), w')).
  { intros w' Hd _. apply create_unconfigured; [exact Hc|]. rewrite Hd. exact Hu. }
  destruct (Hcr w eq_refl eq_refl) as [m Hm].
  split; [|split].
  - intros b. unfold POST_api_uids.
    destruct (parse_insert_cases b env w) as [[z Hz]|Hz].
    + unfold try_catch at 1. rewrite (bind_throw _ _ _ _ _ _ Hz).
      eexists; split; [reflexivity|]. cbn. discriminate.
    + unfold try_catch at 1. rewrite (bind_ok _ _ _ _ _ _ Hz).
      cbn [InsertUid.userId InsertUid.uidValue InsertUid.duration].
      destruct (negb (session_isOwner session) && _);
        [eexists; split; [reflexivity|cbn; discriminate]|].
      destruct (cost_ok _);
        [|eexists; split; [reflexivity|cbn; discriminate]].
      rewrite (bind_ok _ _ _ _ _ _ (getUser_eq _ env w)).
      destruct (option_map Storage.toUser _);
        [|eexists; split; [reflexivity|cbn; discriminate]].
      destruct (ltb _ _); [eexists; split; [reflexivity|cbn; discriminate]|].
      unfold try_catch, bind at 1, ask. unfold bind at 1. rewrite Hm.
      eexists; split; [reflexivity|cbn; discriminate].
  - intros id. unfold DELETE_api_uids, try_catch at 1, bind at 1, Storage.getUid,
      bind at 1, get_db, ret. cbn [fst snd].
    destruct (option_map Storage.toUid _);
      [|eexists; split; [reflexivity|cbn; discriminate]].
    destruct (negb (session_isOwner session) && _);
      [eexists; split; [reflexivity|cbn; discriminate]|].
    unfold bind at 1, try_catch, bind at 1. rewrite Hm.
    eexists; split; [reflexivity|cbn; discriminate].
  - intros id v. unfold PATCH_api_uids_value.
    destruct (parse_value_cases v env w) as [[z Hz]|Hz].
    + unfold try_catch at 1. rewrite (bind_throw _ _ _ _ _ _ Hz).
      eexists; split; [reflexivity|]. cbn. discriminate.
    + unfold try_catch at 1. rewrite (bind_ok _ _ _ _ _ _ Hz).
      unfold Storage.getUid, bind at 1, bind at 1, get_db, ret. cbn [fst snd].
      destruct (option_map Storage.toUid _);
        [|eexists; split; [reflexivity|cbn; discriminate]].
      destruct (negb (session_isOwner session) && _);
        [eexists; split; [reflexivity|cbn; discriminate]|].
      unfold bind at 1, try_catch, bind at 1. rewrite Hm.
      eexists; split; [reflexivity|cbn; discriminate].
Qed.

Lemma no_settings_no_uid_operation_witness :
  (ApiClient.api_client = ApiClient.api_client \/
   ApiClient.api_client = ApiClient.api_client_rev) /\
  unconfigured (db Fixtures.unconfigured_world) /\
  ((forall b, exists r,
       POST_api_uids ApiClient.api_client Sample.alice b
                     (Sample.env_with Sample.service_up) Fixtures.unconfigured_world =
         (Ok r, Fixtures.unconfigured_world) /\ statusCode r <> 200%Z) /\
   (forall id, exists r,
       DELETE_api_uids ApiClient.api_client Sample.alice id
                       (Sample.env_with Sample.service_up) Fixtures.unconfigured_world =
         (Ok r, Fixtures.unconfigured_world) /\ statusCode r <> 200%Z) /\
   (forall id newValue, exists r,
       PATCH_api_uids_value ApiClient.api_client Sample.alice id newValue
                            (Sample.env_with Sample.service_up) Fixtures.unconfigured_world =
         (Ok r, Fixtures.unconfigured_world) /\ statusCode r <> 200%Z)).
Proof.
  split; [left; reflexivity|]. split; [exact I|].
  apply no_settings_no_uid_operation; [left; reflexivity | exact I].
Defined.

Lemma sample_unique_ids c : unique_ids (db (Sample.world c)).
Proof. unfold unique_ids. cbn. repeat constructor; cbn; intuition discriminate. Qed.

(** X8: [PATCH /api/uids/:id] on a UID of the caller: the status of the
    request body is stored as it is, whatever string it is -- it is not
    checked against the statuses of the schema --, the other fields of the
    UID stay, no request goes to the bypass service and no balance
    changes. *)
Theorem own_status_update_stores_the_status_given session id s env w doc :
  unique_ids (db w) ->
  In doc (Uids (db w)) -> Mongo.userId doc = session_userId session ->
  uid_id doc = id ->
  response (PATCH_api_uids session id (Some s) env w) = Some (json SuccessJson) /\
  lookup_uid (db (after (PATCH_api_uids session id (Some s) env w))) id =
    Some (set_status s doc) /\
  sent (after (PATCH_api_uids session id (Some s) env w)) = sent w /\
  Users (db (after (PATCH_api_uids session id (Some s) env w))) = Users (db w).
Proof.
  intros Hu Hin Ho Hid.
  destruct (find_uid_own (db w) (session_userId session) id doc Hin Ho Hid)
    as [t [Ht _]].
  rewrite PATCH_api_uids_eq, Ht. unfold response, after. cbn [fst snd].
  split; [reflexivity|].
  unfold Storage.logActivity, Storage.ActivityLogModel_create, Storage.updateUid,
    bind, ask, get_db, put_db, ret, lookup_uid.
  cbn [fst snd db sent Uids Users with_Uids with_ActivityLogs].
  split; [|split; reflexivity].
  rewrite findById_updateById by (intros; reflexivity).
  subst id. rewrite (findById_unique _ uid_id _ doc Hu Hin). reflexivity.
Qed.

Lemma own_status_update_stores_the_status_given_witness :
  unique_ids (db (Sample.world (lit 500))) /\
  In (Sample.uid_doc "d1" "u1" "ABC123" "active" (Some "k1"))
     (Uids (db (Sample.world (lit 500)))) /\
  Mongo.userId (Sample.uid_doc "d1" "u1" "ABC123" "active" (Some "k1")) =
    session_userId Sample.alice /\
  uid_id (Sample.uid_doc "d1" "u1" "ABC123" "active" (Some "k1")) = "d1" /\
  (response (PATCH_api_uids Sample.alice "d1" (Some "paused")
               (Sample.env_with Sample.service_up) (Sample.world (lit 500))) =
     Some (json SuccessJson) /\
   lookup_uid (db (after (PATCH_api_uids Sample.alice "d1" (Some "paused")
                            (Sample.env_with Sample.service_up) (Sample.world (lit 500)))))
              "d1" =
     Some (set_status "paused" (Sample.uid_doc "d1" "u1" "ABC123" "active" (Some "k1"))) /\
   sent (after (PATCH_api_uids Sample.alice "d1" (Some "paused")
                  (Sample.env_with Sample.service_up) (Sample.world (lit 500)))) =
     sent (Sample.world (lit 500)) /\
   Users (db (after (PATCH_api_uids Sample.alice "d1" (Some "paused")
                       (Sample.env_with Sample.service_up) (Sample.world (lit 500))))) =
     Users (db (Sample.world (lit 500)))).
Proof.
  split; [apply sample_unique_ids|]. split; [left; reflexivity|].
  split; [reflexivity|]. split; [reflexivity|].
  apply own_status_update_stores_the_status_given;
    [apply sample_unique_ids | left; reflexivity | reflexivity | reflexivity].
Defined.

Lemma credits_cases session id b env w :
  PATCH_api_users_credits session id b env w = (Ok (error_json 400 "Failed to update credits"), w) \/
  PATCH_api_users_credits session id b env w = (Ok (error_json 404 "User not found"), w) \/
  PATCH_api_users_credits session id b env w = (Ok (error_json 400 "Insufficient credits"), w) \/
  exists u newCredits entry,
    lookup_user (db w) id = Some u /\
    newCredits = (if operation b =? "add" then add (credits u) (amount b)
                  else sub (credits u) (amount b)) /\
    (operation b = "add" \/ ltb newCredits 0 = false) /\
    PATCH_api_users_credits session id b env w =
      (Ok (json (CreditsJson (toFixed2 newCredits))),
       {| db := with_ActivityLogs (ActivityLogs (db w) ++ [entry])
                  (with_Users
                     (updateById user_id (Users (db w)) id
                        (set_credits (parseFloat (toFixed2 newCredits))))
                     (db w));
          sent := sent w |}).
Proof.
  unfold PATCH_api_users_credits, updateCreditSchema_parse.
  destruct ((operation b =? "add") || (operation b =? "deduct")) eqn:Hop.
  2:{ left. reflexivity. }
  unfold try_catch. rewrite (bind_ok _ _ _ _ b w) by reflexivity.
  rewrite (bind_ok _ _ _ _ _ _ (getUser_eq id env w)).
  destruct (lookup_user (db w) id) as [u|] eqn:Hu; cbn [option_map].
  2:{ right; left. reflexivity. }
  cbn [Storage.toUser User.credits User.username parseFloat toString].
  destruct (negb (operation b =? "add") &&
            ltb (if operation b =? "add" then add (credits u) (amount b)
                 else sub (credits u) (amount b)) 0) eqn:Hneg.
  { right; right; left. reflexivity. }
  right; right; right. eexists u, _, _. split; [reflexivity|].
  split; [reflexivity|]. split.
  - destruct (operation b =? "add") eqn:Ha.
    + left. apply String.eqb_eq, Ha.
    + right. cbn in Hneg. exact Hneg.
  - reflexivity.
Qed.

(** X9: [PATCH /api/users/:id/credits] changes one balance and nothing
    else: the UIDs, the settings and the requests sent are as before, every
    other user is as before, and the user named keeps the id, the name, the
    password and the flags. *)
Theorem credit_update_touches_one_balance session id b env w :
  let w' := after (PATCH_api_users_credits session id b env w) in
  Uids (db w') = Uids (db w) /\
  SettingsColl (db w') = SettingsColl (db w) /\
  sent w' = sent w /\
  (forall id', id' <> id -> lookup_user (db w') id' = lookup_user (db w) id') /\
  (forall u, lookup_user (db w) id = Some u ->
     exists c, lookup_user (db w') id = Some (set_credits c u)).
Proof.
  cbv zeta. unfold after.
  destruct (credits_cases session id b env w) as [H|[H|[H|H]]];
    try (rewrite H; cbn [snd]; repeat split; try reflexivity;
         intros u Hu; exists (credits u); rewrite Hu; destruct u; reflexivity).
  destruct H as [u [nc [entry [Hu [_ [_ H]]]]]]. rewrite H. cbn [snd db sent].
  repeat split.
  - intros id' Hn. unfold lookup_user. cbn [Users with_ActivityLogs with_Users].
    apply findById_updateById_other; [intros; reflexivity | exact Hn].
  - intros u0 Hu0. rewrite Hu in Hu0. inversion Hu0; subst u0.
    eexists. unfold lookup_user in *. cbn [Users with_ActivityLogs with_Users].
    rewrite findById_updateById by (intros; reflexivity). rewrite Hu. reflexivity.
Qed.

Lemma toFixed2_cents_nonneg x : (0 <= x)%Q -> (0 <= toFixed2_cents x)%Z.
Proof.
  intros Hx. unfold toFixed2_cents. destruct (Qlt_le_dec x 0); [lra|].
  assert (H : (0 <= x * 100 + (1 # 2))%Q) by lra.
  apply Qfloor_resp_le in H. exact H.
Qed.

(** X10: A deduction never leaves a balance below zero: after a [deduct]
    request the balance of the user is either what it was (the request was
    rejected) or a number that is not negative. *)
Theorem deduct_leaves_no_negative_balance session id b env w u :
  operation b = "deduct" ->
  lookup_user (db w) id = Some u ->
  exists u',
    lookup_user (db (after (PATCH_api_users_credits session id b env w))) id = Some u' /\
    (credits u' = credits u \/ (0 <= credits u')%Q).
Proof.
  intros Hop Hu. unfold after.
  destruct (credits_cases session id b env w) as [H|[H|[H|H]]];
    try (rewrite H; cbn [snd]; exists u; split; [exact Hu | left; reflexivity]).
  destruct H as [u0 [nc [entry [Hu0 [Hnc [Hok H]]]]]]. rewrite H. cbn [snd db].
  rewrite Hu in Hu0. inversion Hu0; subst u0. clear Hu0.
  eexists. unfold lookup_user in *. cbn [Users with_ActivityLogs with_Users].
  rewrite findById_updateById by (intros; reflexivity). rewrite Hu.
  split; [reflexivity|]. right. cbn [option_map set_credits credits].
  destruct Hok as [Hadd|Hlt]; [rewrite Hop in Hadd; discriminate|].
  unfold toFixed2, parseFloat. apply NumberFacts.rnd_nonneg.
  assert (Hn : (0 <= nc)%Q).
  { unfold ltb in Hlt. apply negb_false_iff in Hlt. apply Qle_bool_iff in Hlt. exact Hlt. }
  pose proof (toFixed2_cents_nonneg nc Hn) as Hc.
  unfold Qle. cbn. lia.
Qed.

Lemma deduct_leaves_no_negative_balance_witness :
  operation (Sample.credit_body "u1" (lit 800) "deduct") = "deduct" /\
  lookup_user (db (Sample.world (lit 500))) "u1" =
    Some (Sample.user "u1" "alice" false (lit 500)) /\
  exists u',
    lookup_user (db (after (PATCH_api_users_credits Sample.admin "u1"
                              (Sample.credit_body "u1" (lit 800) "deduct")
                              (Sample.env_with Sample.service_up)
                              (Sample.world (lit 500))))) "u1" = Some u' /\
    (credits u' = credits (Sample.user "u1" "alice" false (lit 500)) \/
     (0 <= credits u')%Q).
Proof.
  split; [reflexivity|]. split; [reflexivity|].
  apply deduct_leaves_no_negative_balance; reflexivity.
Defined.

End RouteFacts.

(* ================================================================= *)
(** ** The API-key handlers *)

Module ApiFacts.

Import Number Mongo Eff Schema Spec Props HandlerFacts.
Import ApiHandler.
Open Scope string_scope.

Lemma same_id_same_doc (l : list IUid) a b :
  NoDup (map uid_id l) -> In a l -> In b l -> uid_id a = uid_id b -> a = b.
Proof.
  intros Hn Ha Hb E.
  pose proof (findById_unique _ uid_id l a Hn Ha) as Fa.
  pose proof (findById_unique _ uid_id l b Hn Hb) as Fb.
  rewrite E in Fa. congruence.
Qed.

Lemma find_updateById (p : IUid -> bool) (f : IUid -> IUid) l doc :
  NoDup (map uid_id l) ->
  (forall d, p (f d) = p d) -> (forall d, uid_id (f d) = uid_id d) ->
  find p l = Some doc ->
  find p (updateById uid_id l (uid_id doc) f) = Some (f doc).
Proof.
  intros Hn Hp Hk. induction l as [|d l IH]; cbn; [discriminate|].
  inversion Hn as [|? ? Hd Hn']; subst.
  destruct (p d) eqn:E.
  - intros H; inversion H; subst d. rewrite String.eqb_refl. cbn.
    rewrite Hp, E. reflexivity.
  - intros H. destruct (uid_id d =? uid_id doc) eqn:K.
    + apply String.eqb_eq in K. apply find_some in H. destruct H as [Hin _].
      exfalso. apply Hd. rewrite K. apply in_map, Hin.
    + cbn. rewrite E. apply IH; assumption.
Qed.

Lemma updateById_twice (f : IUid -> IUid) l id :
  (forall d, f (f d) = f d) -> (forall d, uid_id (f d) = uid_id d) ->
  updateById uid_id (updateById uid_id l id f) id f = updateById uid_id l id f.
Proof.
  intros Hf Hk. induction l as [|d l IH]; cbn; [reflexivity|].
  destruct (uid_id d =? id) eqn:E; cbn.
  - rewrite Hk, E, Hf. reflexivity.
  - rewrite E, IH. reflexivity.
Qed.

Lemma selects_set_status req s d : selects req (set_status s d) = selects req d.
Proof. reflexivity. Qed.

Lemma handleRemoveUid_inv req env w b :
  response (handleRemoveUid req env w) = Some (json b) ->
  gives_uid req /\ exists doc, find (selects req) (Uids (db w)) = Some doc.
Proof.
  unfold response, handleRemoveUid.
  destruct (truthy_str (body_uid_id req)) eqn:T1;
    destruct (truthy_str (body_uid req)) eqn:T2; cbn [negb andb];
    try (rewrite (bind_ok _ _ _ _ _ _ (find_scoped_eq req env w));
         destruct (find (selects req) (Uids (db w))) as [doc|] eqn:F;
         [intros _; split; [unfold gives_uid; auto | exists doc; reflexivity]
         | cbn; intros H; inversion H]).
  cbn. intros H; inversion H.
Qed.

(** X11: Removing a UID through the API can be repeated: when a remove
    request has succeeded, the same request succeeds again with the same
    answer -- the UID is still found, since it is only marked -- and it
    changes no UID any further. *)
Theorem remove_can_be_repeated req env env' w b :
  unique_ids (db w) ->
  response (handleRemoveUid req env w) = Some (json b) ->
  response (handleRemoveUid req env' (after (handleRemoveUid req env w))) =
    Some (json b) /\
  Uids (db (after (handleRemoveUid req env'
                     (after (handleRemoveUid req env w))))) =
    Uids (db (after (handleRemoveUid req env w))).
Proof.
  intros Hu Hr. destruct (handleRemoveUid_inv _ _ _ _ Hr) as [Hg [doc Hf]].
  pose proof (handleRemoveUid_found req env w doc Hg Hf) as H1.
  rewrite H1 in Hr |- *. unfold response, after in *. cbn [fst snd] in *.
  pose proof (find_updateById (selects req) (set_status "deleted") _ doc Hu
                (selects_set_status req "deleted") (set_status_id "deleted") Hf) as Hf2.
  match goal with
  | |- context [handleRemoveUid req env' ?w1] =>
      pose proof (handleRemoveUid_found req env' w1 (set_status "deleted" doc) Hg) as H2
  end.
  cbn [db Uids with_ActivityLogs with_Uids] in H2. specialize (H2 Hf2).
  rewrite H2. cbn [fst snd db Uids with_ActivityLogs with_Uids].
  split.
  - rewrite <- Hr. reflexivity.
  - cbn [uid_id set_status]. apply updateById_twice; intros; reflexivity.
Qed.

Lemma remove_can_be_repeated_witness :
  unique_ids (db (Sample.world (lit 500))) /\
  response (handleRemoveUid (Sample.api_request "k1" "u1" "ABC123" None)
              (Sample.env_with Sample.service_up) (Sample.world (lit 500))) =
    Some (json (RemovedJson "d1" "ABC123" None)) /\
  (response (handleRemoveUid (Sample.api_request "k1" "u1" "ABC123" None)
               (Sample.env_with Sample.service_down)
               (after (handleRemoveUid (Sample.api_request "k1" "u1" "ABC123" None)
                         (Sample.env_with Sample.service_up) (Sample.world (lit 500))))) =
     Some (json (RemovedJson "d1" "ABC123" None)) /\
   Uids (db (after (handleRemoveUid (Sample.api_request "k1" "u1" "ABC123" None)
                      (Sample.env_with Sample.service_down)
                      (after (handleRemoveUid (Sample.api_request "k1" "u1" "ABC123" None)
                                (Sample.env_with Sample.service_up)
                                (Sample.world (lit 500))))))) =
     Uids (db (after (handleRemoveUid (Sample.api_request "k1" "u1" "ABC123" None)
                        (Sample.env_with Sample.service_up) (Sample.world (lit 500)))))).
Proof.
  assert (H : unique_ids (db (Sample.world (lit 500)))).
  { unfold unique_ids. cbn. repeat constructor; cbn; intuition discriminate. }
  split; [exact H|]. split; [reflexivity|].
  apply remove_can_be_repeated; [exact H | reflexivity].
Defined.

Lemma selected_created_by req l doc :
  find (selects req) l = Some doc -> In doc l /\ created_by req doc.
Proof.
  intros H. apply find_some in H. destruct H as [Hin Hs].
  split; [exact Hin|]. apply selects_iff in Hs. apply Hs.
Qed.

Lemma save_keeps_other (w : World) doc other f :
  unique_ids (db w) -> In doc (Uids (db w)) -> In other (Uids (db w)) ->
  doc <> other -> (forall d, uid_id (f d) = uid_id d) ->
  findById uid_id (updateById uid_id (Uids (db w)) (uid_id doc) f) (uid_id other) =
    Some other.
Proof.
  intros Hu Hd Ho Hn Hk.
  rewrite findById_updateById_other.
  - apply findById_unique; assumption.
  - exact Hk.
  - intros E. apply Hn. symmetry.
    apply (same_id_same_doc _ _ _ Hu Ho Hd E).
Qed.

(** X12: An API key reaches only the UIDs it has created: whatever a remove
    or a renew request of the key names, and whether it succeeds or not,
    every UID that was not created with the key is afterwards exactly the
    document it was. *)
Theorem api_key_leaves_foreign_uids_alone req env w other :
  unique_ids (db w) ->
  In other (Uids (db w)) -> ~ created_by req other ->
  lookup_uid (db (after (handleRemoveUid req env w))) (uid_id other) = Some other /\
  lookup_uid (db (after (handleRenewUid req env w))) (uid_id other) = Some other.
Proof.
  intros Hu Ho Hc.
  assert (Hsame : lookup_uid (db w) (uid_id other) = Some other)
    by (apply findById_unique; assumption).
  unfold after, lookup_uid in *. split.
  - unfold handleRemoveUid.
    destruct (negb (truthy_str (body_uid_id req)) && negb (truthy_str (body_uid req)));
      [exact Hsame|].
    rewrite (bind_ok _ _ _ _ _ _ (find_scoped_eq req env w)).
    destruct (find (selects req) (Uids (db w))) as [doc|] eqn:F; [|exact Hsame].
    destruct (selected_created_by _ _ _ F) as [Hd Hcd].
    unfold save, Storage.ActivityLogModel_create, bind, ask, get_db, put_db, ret.
    cbn [fst snd db Uids with_ActivityLogs with_Uids].
    apply save_keeps_other; try assumption; [|intros; reflexivity].
    intros ->. contradiction.
  - unfold handleRenewUid.
    destruct (negb (truthy_str (body_uid_id req)) && negb (truthy_str (body_uid req)));
      [exact Hsame|].
    destruct (days_ok (body_days req)) as [days|]; [|exact Hsame].
    rewrite (bind_ok _ _ _ _ _ _ (find_scoped_eq req env w)).
    destruct (find (selects req) (Uids (db w))) as [doc|] eqn:F; [|exact Hsame].
    destruct (selected_created_by _ _ _ F) as [Hd Hcd].
    unfold bind at 1, ask. cbn [fst snd].
    destruct (JSDate.setDate _ _ _) as [e|]; [|exact Hsame].
    unfold save, Storage.ActivityLogModel_create, bind, get_db, put_db, ret.
    cbn [fst snd db Uids with_ActivityLogs with_Uids].
    apply save_keeps_other; try assumption; [|intros; reflexivity].
    intros ->. contradiction.
Qed.

Lemma api_key_leaves_foreign_uids_alone_witness :
  unique_ids (db (Sample.world (lit 500))) /\
  In (Sample.uid_doc "d2" "u2" "BOB4567" "expired" (Some "k2"))
     (Uids (db (Sample.world (lit 500)))) /\
  ~ created_by (Sample.api_request "k1" "u1" "BOB4567" (Some 30%Q))
               (Sample.uid_doc "d2" "u2" "BOB4567" "expired" (Some "k2")) /\
  (lookup_uid (db (after (handleRemoveUid
                            (Sample.api_request "k1" "u1" "BOB4567" (Some 30%Q))
                            (Sample.env_with Sample.service_up) (Sample.world (lit 500)))))
              (uid_id (Sample.uid_doc "d2" "u2" "BOB4567" "expired" (Some "k2"))) =
     Some (Sample.uid_doc "d2" "u2" "BOB4567" "expired" (Some "k2")) /\
   lookup_uid (db (after (handleRenewUid
                            (Sample.api_request "k1" "u1" "BOB4567" (Some 30%Q))
                            (Sample.env_with Sample.service_up) (Sample.world (lit 500)))))
              (uid_id (Sample.uid_doc "d2" "u2" "BOB4567" "expired" (Some "k2"))) =
     Some (Sample.uid_doc "d2" "u2" "BOB4567" "expired" (Some "k2"))).
Proof.
  assert (H : unique_ids (db (Sample.world (lit 500)))).
  { unfold unique_ids. cbn. repeat constructor; cbn; intuition discriminate. }
  assert (Hc : ~ created_by (Sample.api_request "k1" "u1" "BOB4567" (Some 30%Q))
                            (Sample.uid_doc "d2" "u2" "BOB4567" "expired" (Some "k2"))).
  { unfold created_by. cbn. discriminate. }
  split; [exact H|]. split; [right; left; reflexivity|]. split; [exact Hc|].
  apply api_key_leaves_foreign_uids_alone; [exact H | right; left; reflexivity | exact Hc].
Defined.

End ApiFacts.

(* ================================================================= *)
(** ** The owner's routes *)

Module OwnerFacts.

Import Number Mongo Eff Schema Spec Props NumberFacts HandlerFacts.
Import OwnerRoutes.
Open Scope string_scope.

Lemma deleteUser_eq userId env w :
  MongoDBStorage.deleteUser userId env w =
  (Ok tt,
   {| db := {| Users := deleteById user_id (Users (db w)) userId;
               SettingsColl := SettingsColl (db w);
               Uids := filter (fun u => negb (Mongo.userId u =? userId)) (Uids (db w));
               ActivityLogs := filter (fun l => negb (log_userId l =? userId))
                                      (ActivityLogs (db w));
               nextOid := nextOid (db w) |};
      sent := sent w |}).
Proof. reflexivity. Qed.

Lemma negb_eqb_true a b : negb (a =? b) = true <-> a <> b.
Proof.
  rewrite negb_true_iff. split.
  - intros H. apply String.eqb_neq, H.
  - intros H. apply String.eqb_neq, H.
Qed.

(** X13: [deleteUser] takes the user's data along: afterwards the user
    cannot be looked up, the collection holds no UID and no activity log
    entry of the user, and it holds every UID and every entry of the other
    users, and every other user, as before; the bypass service is not
    told. *)
Theorem deleted_user_takes_its_data_along userId env w :
  NoDup (map user_id (Users (db w))) ->
  let w' := snd (MongoDBStorage.deleteUser userId env w) in
  lookup_user (db w') userId = None /\
  (forall id', id' <> userId -> lookup_user (db w') id' = lookup_user (db w) id') /\
  (forall u, In u (Uids (db w')) <-> In u (Uids (db w)) /\ Mongo.userId u <> userId) /\
  (forall l, In l (ActivityLogs (db w')) <->
             In l (ActivityLogs (db w)) /\ log_userId l <> userId) /\
  sent w' = sent w.
Proof.
  intros Hn. cbv zeta. rewrite deleteUser_eq. cbn [snd db sent].
  unfold lookup_user. cbn [Users Uids ActivityLogs].
  split; [apply findById_deleteById, Hn|].
  split; [intros id' H; apply StorageFacts.findById_deleteById_other, H|].
  split; [|split; [|reflexivity]].
  - intros u. rewrite filter_In, negb_eqb_true. reflexivity.
  - intros l. rewrite filter_In, negb_eqb_true. reflexivity.
Qed.

Lemma sample_unique_users c : NoDup (map user_id (Users (db (Sample.world c)))).
Proof. cbn. repeat constructor; cbn; intuition discriminate. Qed.

Lemma deleted_user_takes_its_data_along_witness :
  NoDup (map user_id (Users (db (Sample.world (lit 500))))) /\
  (let w' := snd (MongoDBStorage.deleteUser "u2" (Sample.env_with Sample.service_up)
                                            (Sample.world (lit 500))) in
   lookup_user (db w') "u2" = None /\
   (forall id', id' <> "u2" ->
                lookup_user (db w') id' = lookup_user (db (Sample.world (lit 500))) id') /\
   (forall u, In u (Uids (db w')) <->
              In u (Uids (db (Sample.world (lit 500)))) /\ Mongo.userId u <> "u2") /\
   (forall l, In l (ActivityLogs (db w')) <->
              In l (ActivityLogs (db (Sample.world (lit 500)))) /\ log_userId l <> "u2") /\
   sent w' = sent (Sample.world (lit 500))).
Proof.
  split; [apply sample_unique_users|].
  apply deleted_user_takes_its_data_along. apply sample_unique_users.
Defined.

(** X14: [DELETE /api/users/:id] deletes exactly the accounts that exist
    and are not owners: it answers with success if and only if the id is
    that of a user who is not an owner; an owner account and an unknown id
    are refused (403, 404) and nothing changes.  In no case is a request
    sent to the bypass service or an activity log entry written. *)
Theorem only_non_owner_accounts_are_deleted id env w :
  (response (DELETE_api_users id env w) = Some (json SuccessJson) <->
   exists u, lookup_user (db w) id = Some u /\ isOwner u = false) /\
  (response (DELETE_api_users id env w) <> Some (json SuccessJson) ->
   after (DELETE_api_users id env w) = w) /\
  sent (after (DELETE_api_users id env w)) = sent w /\
  (forall l, In l (ActivityLogs (db (after (DELETE_api_users id env w)))) ->
             In l (ActivityLogs (db w))).
Proof.
  unfold DELETE_api_users, try_catch, response, after.
  rewrite (bind_ok _ _ _ _ _ _ (getUser_eq id env w)).
  destruct (lookup_user (db w) id) as [u|] eqn:Hu; cbn [option_map].
  - cbn [Storage.toUser User.isOwner]. destruct (isOwner u) eqn:Ho.
    + cbn [ret fst snd]. split; [|split; [|split]]; try reflexivity; try tauto.
      split; [intros H; inversion H | intros [u0 [H1 H2]]; congruence].
    + rewrite (bind_ok _ _ _ _ _ _ (deleteUser_eq id env w)). cbn [ret fst snd db sent].
      split; [|split; [|split]]; try reflexivity.
      * split; [intros _; exists u; split; [reflexivity | exact Ho] | reflexivity].
      * intros H. exfalso. apply H. reflexivity.
      * intros l. cbn [ActivityLogs]. rewrite filter_In. tauto.
  - cbn [ret fst snd]. split; [|split; [|split]]; try reflexivity; try tauto.
    split; [intros H; inversion H | intros [u0 [H1 H2]]; discriminate].
Qed.

Lemma cutoff_whole_days tz t daysOld n :
  fixed_offset tz -> whole daysOld n -> (Z.abs n < 2 ^ 52)%Z ->
  JSDate.setDate tz t (sub (ofZ (JSDate.getDate tz t)) daysOld) =
  JSDate.TimeClip (t - n * JSDate.msPerDay).
Proof.
  intros Hf Hw Hn.
  change (sub (ofZ (JSDate.getDate tz t)) daysOld)
    with (add (ofZ (JSDate.getDate tz t)) (- daysOld)).
  rewrite (setDate_whole_days tz t (- daysOld) (- n) Hf).
  - f_equal. lia.
  - unfold whole in *. rewrite Hw, inject_Z_opp. reflexivity.
  - lia.
Qed.

Lemma filter_split {A} (p : A -> bool) l :
  (List.length (filter p l) + List.length (filter (fun x => negb (p x)) l) =
   List.length l)%nat.
Proof.
  induction l as [|x l IH]; [reflexivity|]. cbn.
  destruct (p x); cbn; lia.
Qed.

Lemma cleanup_eq daysOld n env w :
  fixed_offset (LocalTZA env) -> whole daysOld n -> (Z.abs n < 2 ^ 52)%Z ->
  (Z.abs (now env - n * JSDate.msPerDay) <= 8640000000000000)%Z ->
  MongoDBStorage.cleanupOldActivityLogs daysOld env w =
  (Ok (ofZ (Z.of_nat (List.length
          (filter (fun l => (log_createdAt l <? now env - n * JSDate.msPerDay)%Z)
                  (ActivityLogs (db w)))))),
   {| db := with_ActivityLogs
              (filter (fun l => negb (log_createdAt l <? now env - n * JSDate.msPerDay)%Z)
                      (ActivityLogs (db w)))
              (db w);
      sent := sent w |}).
Proof.
  intros Hf Hw Hn Hc. unfold MongoDBStorage.cleanupOldActivityLogs, bind at 1, ask.
  cbn [fst snd]. rewrite (cutoff_whole_days _ _ _ n Hf Hw Hn).
  unfold JSDate.TimeClip. apply Z.leb_le in Hc. rewrite Hc. reflexivity.
Qed.

(** X15: [cleanupOldActivityLogs], for a whole number of days on a server
    whose time zone keeps one offset: the cutoff is the current time less
    [daysOld] times 24 hours; the entries created before the cutoff are
    deleted and their number is returned, the entries created at the cutoff
    or later all stay, and nothing else is changed. *)
Theorem cleanup_removes_exactly_the_old_entries daysOld n env w :
  fixed_offset (LocalTZA env) -> whole daysOld n -> (Z.abs n < 2 ^ 52)%Z ->
  (Z.abs (now env - n * JSDate.msPerDay) <= 8640000000000000)%Z ->
  exists count : nat,
    fst (MongoDBStorage.cleanupOldActivityLogs daysOld env w) =
      Ok (ofZ (Z.of_nat count)) /\
    (count + List.length
               (ActivityLogs (db (snd (MongoDBStorage.cleanupOldActivityLogs daysOld env w))))
     = List.length (ActivityLogs (db w)))%nat /\
    (forall l,
       In l (ActivityLogs (db (snd (MongoDBStorage.cleanupOldActivityLogs daysOld env w))))
       <-> In l (ActivityLogs (db w)) /\
           (now env - n * JSDate.msPerDay <= log_createdAt l)%Z) /\
    Users (db (snd (MongoDBStorage.cleanupOldActivityLogs daysOld env w))) = Users (db w) /\
    Uids (db (snd (MongoDBStorage.cleanupOldActivityLogs daysOld env w))) = Uids (db w) /\
    sent (snd (MongoDBStorage.cleanupOldActivityLogs daysOld env w)) = sent w.
Proof.
  intros Hf Hw Hn Hc. rewrite (cleanup_eq daysOld n env w Hf Hw Hn Hc).
  cbn [fst snd db sent ActivityLogs Users Uids with_ActivityLogs].
  eexists. split; [reflexivity|]. split; [apply filter_split|].
  split; [|repeat split].
  intros l. rewrite filter_In, negb_true_iff, Z.ltb_ge. reflexivity.
Qed.

Lemma cleanup_removes_exactly_the_old_entries_witness :
  fixed_offset (LocalTZA (Sample.env_with Sample.service_up)) /\
  whole 7%Q 7 /\ (Z.abs 7 < 2 ^ 52)%Z /\
  (Z.abs (now (Sample.env_with Sample.service_up) - 7 * JSDate.msPerDay)
   <= 8640000000000000)%Z /\
  exists count : nat,
    fst (MongoDBStorage.cleanupOldActivityLogs 7%Q (Sample.env_with Sample.service_up)
           (Sample.world (lit 500))) = Ok (ofZ (Z.of_nat count)) /\
    (count + List.length
               (ActivityLogs (db (snd (MongoDBStorage.cleanupOldActivityLogs 7%Q
                                         (Sample.env_with Sample.service_up)
                                         (Sample.world (lit 500))))))
     = List.length (ActivityLogs (db (Sample.world (lit 500)))))%nat /\
    (forall l,
       In l (ActivityLogs (db (snd (MongoDBStorage.cleanupOldActivityLogs 7%Q
                                      (Sample.env_with Sample.service_up)
                                      (Sample.world (lit 500))))))
       <-> In l (ActivityLogs (db (Sample.world (lit 500)))) /\
           (now (Sample.env_with Sample.service_up) - 7 * JSDate.msPerDay
            <= log_createdAt l)%Z) /\
    Users (db (snd (MongoDBStorage.cleanupOldActivityLogs 7%Q
                      (Sample.env_with Sample.service_up) (Sample.world (lit 500))))) =
      Users (db (Sample.world (lit 500))) /\
    Uids (db (snd (MongoDBStorage.cleanupOldActivityLogs 7%Q
                     (Sample.env_with Sample.service_up) (Sample.world (lit 500))))) =
      Uids (db (Sample.world (lit 500))) /\
    sent (snd (MongoDBStorage.cleanupOldActivityLogs 7%Q
                 (Sample.env_with Sample.service_up) (Sample.world (lit 500)))) =
      sent (Sample.world (lit 500)).
Proof.
  assert (Hf : fixed_offset (LocalTZA (Sample.env_with Sample.service_up)))
    by (exists 0%Z; reflexivity).
  assert (Hw : whole 7%Q 7) by reflexivity.
  assert (Hn : (Z.abs 7 < 2 ^ 52)%Z) by reflexivity.
  assert (Hc : (Z.abs (now (Sample.env_with Sample.service_up) - 7 * JSDate.msPerDay)
                <= 8640000000000000)%Z) by (vm_compute; discriminate).
  split; [exact Hf|]. split; [exact Hw|]. split; [exact Hn|]. split; [exact Hc|].
  apply (cleanup_removes_exactly_the_old_entries 7%Q 7 _ _ Hf Hw Hn Hc).
Defined.

(** X16: [POST /api/activity/cleanup] without a number of days, or with
    zero, keeps two days: on a server whose time zone keeps one offset the
    entries of the last 48 hours all stay, the older ones go, and the
    cleanup itself is entered last in the log, in the name of the caller. *)
Theorem cleanup_keeps_two_days_by_default session body env w :
  fixed_offset (LocalTZA env) ->
  (Z.abs (now env - 2 * JSDate.msPerDay) <= 8640000000000000)%Z ->
  no_days body ->
  exists count details,
    response (POST_api_activity_cleanup session body env w) =
      Some (json (CleanupJson count)) /\
    ActivityLogs (db (after (POST_api_activity_cleanup session body env w))) =
      (filter (fun l => (now env - 2 * JSDate.msPerDay <=? log_createdAt l)%Z)
              (ActivityLogs (db w)) ++
       [{| log_userId := Routes.session_userId session; action := "activity_cleanup";
           details := details; log_createdAt := now env |}])%list.
Proof.
  intros Hf Hc Hb.
  assert (Hd : daysOld_or_2 body = 2%Q).
  { destruct body as [d|]; [|reflexivity]. cbn in Hb. unfold daysOld_or_2, truthy.
    apply Qeq_bool_iff in Hb. rewrite Hb. reflexivity. }
  unfold POST_api_activity_cleanup, try_catch, response, after. rewrite Hd.
  rewrite (bind_ok _ _ _ _ _ _
             (cleanup_eq 2%Q 2 env w Hf ltac:(reflexivity) ltac:(reflexivity) Hc)).
  unfold Storage.logActivity, Storage.ActivityLogModel_create, bind, ask, get_db,
    put_db, ret.
  cbn [fst snd db ActivityLogs with_ActivityLogs InsertActivityLog.userId
       InsertActivityLog.action InsertActivityLog.details].
  do 2 eexists. split; [reflexivity|]. f_equal.
  apply filter_ext. intros l. rewrite Z.leb_antisym. reflexivity.
Qed.

Lemma cleanup_keeps_two_days_by_default_witness :
  fixed_offset (LocalTZA (Sample.env_with Sample.service_up)) /\
  (Z.abs (now (Sample.env_with Sample.service_up) - 2 * JSDate.msPerDay)
   <= 8640000000000000)%Z /\
  no_days (Some 0%Q) /\
  exists count details,
    response (POST_api_activity_cleanup Sample.admin (Some 0%Q)
                (Sample.env_with Sample.service_up) (Sample.world (lit 500))) =
      Some (json (CleanupJson count)) /\
    ActivityLogs (db (after (POST_api_activity_cleanup Sample.admin (Some 0%Q)
                               (Sample.env_with Sample.service_up)
                               (Sample.world (lit 500))))) =
      (filter (fun l => (now (Sample.env_with Sample.service_up) - 2 * JSDate.msPerDay
                         <=? log_createdAt l)%Z)
              (ActivityLogs (db (Sample.world (lit 500)))) ++
       [{| log_userId := Routes.session_userId Sample.admin; action := "activity_cleanup";
           details := details;
           log_createdAt := now (Sample.env_with Sample.service_up) |}])%list.
Proof.
  assert (Hf : fixed_offset (LocalTZA (Sample.env_with Sample.service_up)))
    by (exists 0%Z; reflexivity).
  assert (Hc : (Z.abs (now (Sample.env_with Sample.service_up) - 2 * JSDate.msPerDay)
                <= 8640000000000000)%Z) by (vm_compute; discriminate).
  assert (Hb : no_days (Some 0%Q)) by reflexivity.
  split; [exact Hf|]. split; [exact Hc|]. split; [exact Hb|].
  apply (cleanup_keeps_two_days_by_default _ _ _ _ Hf Hc Hb).
Defined.

Lemma nonempty_some s : s <> "" -> Storage.nonempty (Some s) = Some s.
Proof.
  intros H. unfold Storage.nonempty. apply String.eqb_neq in H. rewrite H. reflexivity.
Qed.

(** X17: Settings saved are the settings used: after [POST /api/settings]
    with a base URL and an API key that are not empty, [UIDBypassClient.create]
    succeeds and the client carries exactly that base URL and that key,
    whether or not settings existed before; the collection holds one
    settings document more only if it held none, and users, UIDs and the
    activity log are untouched. *)
Theorem saved_settings_configure_the_client b k env env' w :
  b <> "" -> k <> "" ->
  let data := {| MongoDBStorage.ins_baseUrl := MongoDBStorage.Given (Some b);
                 MongoDBStorage.ins_apiKey := MongoDBStorage.Given (Some k) |} in
  let w' := after (POST_api_settings data env w) in
  ApiClient.V1.create env' w' =
    (Ok {| ApiClient.this_baseUrl := b; ApiClient.this_apiKey := k;
           ApiClient.timeoutMs := 20000 |}, w') /\
  List.length (SettingsColl (db w')) = Nat.max 1 (List.length (SettingsColl (db w))) /\
  Users (db w') = Users (db w) /\ Uids (db w') = Uids (db w) /\
  ActivityLogs (db w') = ActivityLogs (db w).
Proof.
  intros Hb Hk. cbv zeta.
  unfold POST_api_settings, MongoDBStorage.updateSettings, try_catch, after, bind, ask,
    get_db, put_db, ret.
  cbn [fst snd db sent MongoDBStorage.ins_baseUrl MongoDBStorage.ins_apiKey
       MongoDBStorage.assign].
  split.
  - unfold ApiClient.V1.create, Storage.getSettings, bind, get_db, ret.
    cbn [fst snd db SettingsColl MongoDBStorage.with_SettingsColl].
    destruct (SettingsColl (db w)) as [|s0 rest];
      cbn [Mongo.baseUrl Mongo.apiKey Mongo.updatedAt ApiClient.configured
           Settings.baseUrl Settings.apiKey];
      rewrite (nonempty_some b Hb), (nonempty_some k Hk); reflexivity.
  - cbn [SettingsColl Users Uids ActivityLogs MongoDBStorage.with_SettingsColl].
    repeat split. destruct (SettingsColl (db w)) as [|s0 rest]; cbn; [reflexivity|].
    reflexivity.
Qed.

Lemma saved_settings_configure_the_client_witness :
  "https://uidbypass.com/api" <> "" /\ "new_key" <> "" /\
  (let data := {| MongoDBStorage.ins_baseUrl :=
                    MongoDBStorage.Given (Some "https://uidbypass.com/api");
                  MongoDBStorage.ins_apiKey := MongoDBStorage.Given (Some "new_key") |} in
   let w' := after (POST_api_settings data (Sample.env_with Sample.service_up)
                                      Fixtures.unconfigured_world) in
   ApiClient.V1.create (Sample.env_with Sample.service_down) w' =
     (Ok {| ApiClient.this_baseUrl := "https://uidbypass.com/api";
            ApiClient.this_apiKey := "new_key";
            ApiClient.timeoutMs := 20000 |}, w') /\
   List.length (SettingsColl (db w')) =
     Nat.max 1 (List.length (SettingsColl (db Fixtures.unconfigured_world))) /\
   Users (db w') = Users (db Fixtures.unconfigured_world) /\
   Uids (db w') = Uids (db Fixtures.unconfigured_world) /\
   ActivityLogs (db w') = ActivityLogs (db Fixtures.unconfigured_world)).
Proof.
  split; [discriminate|]. split; [discriminate|].
  apply saved_settings_configure_the_client; discriminate.
Defined.

End OwnerFacts.

(* ================================================================= *)
(** ** Adding UIDs through the API *)

Module AddFacts.

Import Number Mongo Eff Schema Spec Props NumberFacts HandlerFacts.
Import ApiHandlerAdd.
Open Scope string_scope.

Lemma UidModel_save_cases f env w :
  (exists m, UidModel_save f env w = (Throw (ValidationError m), w)) \/
  (exists doc,
     UidSchema_build (oid (nextOid (db w))) (now env) f = Some doc /\
     empty_region f = [] /\
     UidModel_save f env w =
       (Ok doc, {| db := with_fresh (with_Uids (Uids (db w) ++ [doc]) (db w));
                   sent := sent w |})).
Proof.
  unfold UidModel_save. destruct (empty_region f) eqn:E.
  - unfold Storage.UidModel_create, bind, ask, get_db, put_db, ret, throw.
    cbn [fst snd].
    destruct (UidSchema_build (oid (nextOid (db w))) (now env) f) as [doc|] eqn:B.
    + right. exists doc. cbn [fst snd db sent]. auto.
    + left. eexists. reflexivity.
  - left. eexists. reflexivity.
Qed.

(** The fields [handleAddUid] hands to [new UidModel]. *)
Lemma build_fields id t userId key uid player region plan_id dur c e doc :
  UidSchema_build id t
    {| f_userId := Some userId; f_apiKeyId := Some key; f_uidValue := Some uid;
       f_playerName := player; f_region := Some region; f_planId := Some plan_id;
       f_duration := Some dur; f_cost := Some c; f_status := Some "active";
       f_createdAt := None; f_expiresAt := e |} = Some doc ->
  exists ex, e = Some ex /\
  doc = {| uid_id := id; userId := userId; apiKeyId := Some key; uidValue := uid;
           playerName := player; region := region; planId := plan_id;
           duration := dur; cost := c; status := "active"; createdAt := t;
           expiresAt := ex |}.
Proof.
  unfold UidSchema_build. cbn. destruct e as [ex|]; [|discriminate].
  intros H. inversion H. exists ex. split; reflexivity.
Qed.

Lemma setHours_whole tz t hours n :
  fixed_offset tz -> whole hours n -> (Z.abs n < 2 ^ 52)%Z ->
  setHours tz t (add (ofZ (getHours tz t)) hours) =
  JSDate.TimeClip (t + n * JSDate.msPerHour).
Proof.
  intros [off Hoff] Hw Hn. unfold setHours, getHours, JSDate.LocalTime, JSDate.UTC.
  rewrite !Hoff. set (l := (t + off)%Z).
  assert (Hg : (0 <= JSDate.TimeWithinDay l / JSDate.msPerHour < 24)%Z).
  { unfold JSDate.TimeWithinDay, JSDate.msPerDay, JSDate.msPerHour.
    pose proof (Z.mod_pos_bound l 86400000 ltac:(lia)).
    split; [apply Z.div_pos; lia | apply Z.div_lt_upper_bound; lia]. }
  assert (Hi : ToInteger (add (ofZ (JSDate.TimeWithinDay l / JSDate.msPerHour)) hours) =
               (JSDate.TimeWithinDay l / JSDate.msPerHour + n)%Z).
  { apply ToInteger_whole. apply add_whole; [apply ofZ_whole; lia | exact Hw | lia]. }
  rewrite Hi. f_equal.
  unfold JSDate.Day, JSDate.TimeWithinDay in *.
  pose proof (Z.div_mod l JSDate.msPerDay ltac:(unfold JSDate.msPerDay; lia)) as D1.
  pose proof (Z.div_mod (l mod JSDate.msPerDay) JSDate.msPerHour
                ltac:(unfold JSDate.msPerHour; lia)) as D2.
  subst l. lia.
Qed.

Section Handler.

Variable plans : list IPlan.
Variable player_service : string -> string -> string -> string -> option string.

Lemma handleAddUid_cases req env w :
  (exists code error,
     handleAddUid plans player_service req env w = (Ok (error_json code error), w) /\
     code <> 200%Z) \/
  (exists uid plan_id plan user,
     body_uid req = Some uid /\ uid <> "" /\
     body_plan_id req = Some plan_id /\ truthy plan_id = true /\
     plan_refused (apiKeyDoc req) plan_id = false /\
     limit_reached (db w) (apiKeyDoc req) = false /\
     find_plan plans plan_id = Some plan /\
     lookup_user (db w) (apiUserId req) = Some user /\
     ltb (credits user) (creditsCost plan) = false).
Proof.
  unfold handleAddUid.
  destruct (body_uid req) as [uid|]; [|left; do 2 eexists; split; [reflexivity|discriminate]].
  destruct (body_plan_id req) as [plan_id|];
    [|left; do 2 eexists; split; [reflexivity|discriminate]].
  destruct (uid =? "") eqn:Eu; cbn [orb];
    [left; do 2 eexists; split; [reflexivity|discriminate]|].
  destruct (truthy plan_id) eqn:Et; cbn [negb];
    [|left; do 2 eexists; split; [reflexivity|discriminate]].
  destruct (plan_refused (apiKeyDoc req) plan_id) eqn:Er;
    [left; do 2 eexists; split; [reflexivity|discriminate]|].
  unfold bind at 1, get_db. cbn [fst snd].
  destruct (limit_reached (db w) (apiKeyDoc req)) eqn:El;
    [left; do 2 eexists; split; [reflexivity|discriminate]|].
  destruct (find_plan plans plan_id) as [plan|] eqn:Ep;
    [|left; do 2 eexists; split; [reflexivity|discriminate]].
  destruct (findById user_id (Users (db w)) (apiUserId req)) as [user|] eqn:Eus;
    [|left; do 2 eexists; split; [reflexivity|discriminate]].
  destruct (ltb (credits user) (creditsCost plan)) eqn:Ec;
    [left; do 2 eexists; split; [reflexivity|discriminate]|].
  right. exists uid, plan_id, plan, user. apply String.eqb_neq in Eu.
  repeat split; assumption || reflexivity.
Qed.

Lemma handleAddUid_commit req env w uid plan_id plan user :
  body_uid req = Some uid -> uid <> "" ->
  body_plan_id req = Some plan_id -> truthy plan_id = true ->
  plan_refused (apiKeyDoc req) plan_id = false ->
  limit_reached (db w) (apiKeyDoc req) = false ->
  find_plan plans plan_id = Some plan ->
  lookup_user (db w) (apiUserId req) = Some user ->
  ltb (credits user) (creditsCost plan) = false ->
  exists player,
    handleAddUid plans player_service req env w =
    match UidModel_save
            {| f_userId := Some (apiUserId req);
               f_apiKeyId := Some (key_id (apiKeyDoc req));
               f_uidValue := Some uid; f_playerName := player;
               f_region := Some (region_of req); f_planId := Some plan_id;
               f_duration := Some (mul (days plan) 24);
               f_cost := Some (creditsCost plan); f_status := Some "active";
               f_createdAt := None;
               f_expiresAt :=
                 setHours (LocalTZA env) (now env)
                          (add (ofZ (getHours (LocalTZA env) (now env)))
                               (mul (days plan) 24)) |}
            env
            {| db := with_Users
                       (updateById user_id (Users (db w)) (apiUserId req)
                          (set_credits (sub (credits user) (creditsCost plan))))
                       (db w);
               sent := sent w |} with
    | (Ok newUid, w2) =>
        (Ok (json (AddedJson (uid_id newUid) (uidValue newUid) (playerName newUid)
                             (region newUid) plan_id (name plan) (days plan)
                             (createdAt newUid) (expiresAt newUid) None
                             (sub (credits user) (creditsCost plan)))),
         {| db := with_ActivityLogs
                    (ActivityLogs (db w2) ++
                     [{| log_userId := apiUserId req; action := "create_uid_api";
                         details := Some [Lit "UID "; Str uid;
                                          Lit " created via API with plan ";
                                          Str (name plan)];
                         log_createdAt := now env |}])
                    (db w2);
            sent := sent w2 |})
    | (Throw e, w2) => (Throw e, w2)
    end.
Proof.
  intros Hu Hne Hp Ht Hr Hl Hf Hus Hc. unfold handleAddUid.
  rewrite Hu, Hp. apply String.eqb_neq in Hne. rewrite Hne, Ht. cbn [orb negb].
  rewrite Hr. unfold bind at 1, get_db. cbn [fst snd]. rewrite Hl, Hf.
  unfold lookup_user in Hus. rewrite Hus, Hc.
  unfold bind at 1, Storage.getSettings, bind at 1, get_db, ret. cbn [fst snd].
  unfold bind at 1, ask. cbn [fst snd].
  unfold bind at 1, put_db. cbn [fst snd].
  match goal with
  | |- context [UidModel_save ?f] => exists (f_playerName f)
  end.
  cbn [f_playerName]. unfold bind at 1.
  destruct (UidModel_save _ env _) as [[newUid|e] w2]; [|reflexivity].
  unfold Storage.ActivityLogModel_create, bind, get_db, put_db, ret. cbn [fst snd].
  reflexivity.
Qed.

Lemma handleAddUidFree_cases req env w :
  (exists code error,
     handleAddUidFree player_service req env w = (Ok (error_json code error), w) /\
     code <> 200%Z) \/
  (exists uid user,
     body_uid req = Some uid /\ uid <> "" /\
     limit_reached (db w) (apiKeyDoc req) = false /\
     lookup_user (db w) (apiUserId req) = Some user).
Proof.
  unfold handleAddUidFree.
  destruct (body_uid req) as [uid|]; [|left; do 2 eexists; split; [reflexivity|discriminate]].
  destruct (uid =? "") eqn:Eu;
    [left; do 2 eexists; split; [reflexivity|discriminate]|].
  unfold bind at 1, get_db. cbn [fst snd].
  destruct (limit_reached (db w) (apiKeyDoc req)) eqn:El;
    [left; do 2 eexists; split; [reflexivity|discriminate]|].
  destruct (findById user_id (Users (db w)) (apiUserId req)) as [user|] eqn:Eus;
    [|left; do 2 eexists; split; [reflexivity|discriminate]].
  right. exists uid, user. apply String.eqb_neq in Eu. auto.
Qed.

Lemma handleAddUidFree_commit req env w uid user :
  body_uid req = Some uid -> uid <> "" ->
  limit_reached (db w) (apiKeyDoc req) = false ->
  lookup_user (db w) (apiUserId req) = Some user ->
  exists player,
    handleAddUidFree player_service req env w =
    match UidModel_save
            {| f_userId := Some (apiUserId req);
               f_apiKeyId := Some (key_id (apiKeyDoc req));
               f_uidValue := Some uid; f_playerName := player;
               f_region := Some (region_of req); f_planId := Some 1;
               f_duration := Some 24; f_cost := Some 0;
               f_status := Some "active"; f_createdAt := None;
               f_expiresAt :=
                 setHours (LocalTZA env) (now env)
                          (add (ofZ (getHours (LocalTZA env) (now env))) 24) |}
            env w with
    | (Ok newUid, w2) =>
        (Ok (json (AddedJson (uid_id newUid) (uidValue newUid) (playerName newUid)
                             (region newUid) 1 "1 day" 1
                             (createdAt newUid) (expiresAt newUid) (Some 0)
                             (credits user))),
         {| db := with_ActivityLogs
                    (ActivityLogs (db w2) ++
                     [{| log_userId := apiUserId req; action := "create_uid_api_free";
                         details := Some [Lit "UID "; Str uid;
                                          Lit " created via API (FREE - 1 day)"];
                         log_createdAt := now env |}])
                    (db w2);
            sent := sent w2 |})
    | (Throw e, w2) => (Throw e, w2)
    end.
Proof.
  intros Hu Hne Hl Hus. unfold handleAddUidFree.
  rewrite Hu. apply String.eqb_neq in Hne. rewrite Hne.
  unfold bind at 1, get_db. cbn [fst snd]. rewrite Hl.
  unfold lookup_user in Hus. rewrite Hus.
  unfold bind at 1, Storage.getSettings, bind at 1, get_db, ret. cbn [fst snd].
  unfold bind at 1, ask. cbn [fst snd].
  match goal with
  | |- context [UidModel_save ?f] => exists (f_playerName f)
  end.
  cbn [f_playerName]. unfold bind at 1. destruct w as [d sn].
  destruct (UidModel_save _ env _) as [[newUid|e] w2]; [|reflexivity].
  unfold Storage.ActivityLogModel_create, bind, get_db, put_db, ret. cbn [fst snd].
  reflexivity.
Qed.


(** X19: A paid add that succeeds debits the price of the plan and nothing
    else: when [handleAddUid] answers 200, the plan named is an active plan,
    the user of the key had at least its price, the balance of that user is
    lowered by exactly the price, one UID is added -- of that user and that
    key, with the value and plan given, the plan's days times 24 as
    duration, the price as cost and status active -- and one
    [create_uid_api] entry is logged in the name of that user. *)
Theorem paid_add_debits_the_plan_price req env w b :
  response (handleAddUid plans player_service req env w) = Some (json b) ->
  exists uid plan_id plan user doc,
    body_uid req = Some uid /\ body_plan_id req = Some plan_id /\
    find_plan plans plan_id = Some plan /\
    lookup_user (db w) (apiUserId req) = Some user /\
    (creditsCost plan <= credits user)%Q /\
    Users (db (after (handleAddUid plans player_service req env w))) =
      updateById user_id (Users (db w)) (apiUserId req)
                 (set_credits (sub (credits user) (creditsCost plan))) /\
    Uids (db (after (handleAddUid plans player_service req env w))) =
      (Uids (db w) ++ [doc])%list /\
    userId doc = apiUserId req /\ apiKeyId doc = Some (key_id (apiKeyDoc req)) /\
    uidValue doc = uid /\ planId doc = plan_id /\
    duration doc = mul (days plan) 24 /\ cost doc = creditsCost plan /\
    status doc = "active" /\
    logged w (after (handleAddUid plans player_service req env w))
           (apiUserId req) "create_uid_api".
Proof.
  intros Hr. unfold response, after in *.
  destruct (handleAddUid_cases req env w) as [[c [e [H Hc]]]|H].
  { rewrite H in Hr. cbn in Hr. inversion Hr. congruence. }
  destruct H as [uid [pid [plan [user [H1 [H2 [H3 [H4 [H5 [H6 [H7 [H8 H9]]]]]]]]]]]].
  destruct (handleAddUid_commit req env w uid pid plan user H1 H2 H3 H4 H5 H6 H7 H8 H9)
    as [player H].
  rewrite H in Hr |- *. clear H.
  match type of Hr with
  | context [UidModel_save ?f env ?w1] =>
      destruct (UidModel_save_cases f env w1) as [[m Hs]|[doc [Hb [_ Hs]]]];
        rewrite Hs in Hr |- *
  end.
  { cbn in Hr. discriminate. }
  apply build_fields in Hb. destruct Hb as [ex [_ Hd]].
  exists uid, pid, plan, user, doc. cbn [fst snd db sent Users Uids ActivityLogs
    with_ActivityLogs with_fresh with_Uids with_Users].
  subst doc. cbn [userId apiKeyId uidValue planId duration cost status].
  repeat split; try reflexivity; try assumption.
  - unfold ltb in H9. apply negb_false_iff, Qle_bool_iff in H9. exact H9.
  - unfold logged. do 2 eexists. cbn [db ActivityLogs with_ActivityLogs with_fresh
      with_Uids with_Users]. reflexivity.
Qed.

(** X20: The debit of a paid add is not taken back when the UID is then
    refused: a request that passes every check of [handleAddUid] but gives
    the empty string as [region] is answered 500 by the API handler -- the
    UID fails the validation of the schema when it is saved --, no UID is
    added and no entry is logged, and the balance of the user has been
    lowered by the price of the plan all the same. *)
Theorem debit_stays_when_the_uid_is_refused req env w uid plan_id plan user :
  body_uid req = Some uid -> uid <> "" ->
  body_plan_id req = Some plan_id -> truthy plan_id = true ->
  plan_refused (apiKeyDoc req) plan_id = false ->
  limit_reached (db w) (apiKeyDoc req) = false ->
  find_plan plans plan_id = Some plan ->
  lookup_user (db w) (apiUserId req) = Some user ->
  ltb (credits user) (creditsCost plan) = false ->
  body_region req = Some "" ->
  (exists error,
      response (api_handler (handleAddUid plans player_service) req env w) =
        Some (error_json 500 error)) /\
  lookup_user (db (after (api_handler (handleAddUid plans player_service) req env w)))
              (apiUserId req) =
    Some (set_credits (sub (credits user) (creditsCost plan)) user) /\
  Uids (db (after (api_handler (handleAddUid plans player_service) req env w))) =
    Uids (db w) /\
  ActivityLogs (db (after (api_handler (handleAddUid plans player_service) req env w))) =
    ActivityLogs (db w).
Proof.
  intros H1 H2 H3 H4 H5 H6 H7 H8 H9 Hreg.
  destruct (handleAddUid_commit req env w uid plan_id plan user H1 H2 H3 H4 H5 H6 H7 H8 H9)
    as [player H].
  unfold api_handler, try_catch, response, after. rewrite H.
  unfold UidModel_save, empty_region, region_of. rewrite Hreg.
  cbn [f_region String.eqb throw fst snd ret db Users Uids ActivityLogs with_Users].
  split; [eexists; reflexivity|]. split; [|split; reflexivity].
  unfold lookup_user in *. cbn [Users with_Users].
  rewrite findById_updateById by (intros; reflexivity). rewrite H8. reflexivity.
Qed.

Lemma TimeClip_some t e : JSDate.TimeClip t = Some e -> e = t.
Proof.
  unfold JSDate.TimeClip. destruct (Z.abs t <=? 8640000000000000)%Z; congruence.
Qed.

(** X21: A free add costs nothing and gives one day: when
    [handleAddUidFree] answers 200, no balance has changed, one UID has been
    added -- of the user and the key of the request, with the value given,
    plan 1, 24 hours, cost 0 and status active, created now and, on a server
    whose time zone keeps one offset, expiring exactly 24 hours from now --
    and one [create_uid_api_free] entry is logged in the name of that
    user. *)
Theorem free_add_costs_nothing req env w b :
  fixed_offset (LocalTZA env) ->
  response (handleAddUidFree player_service req env w) = Some (json b) ->
  exists uid doc,
    body_uid req = Some uid /\
    Users (db (after (handleAddUidFree player_service req env w))) = Users (db w) /\
    Uids (db (after (handleAddUidFree player_service req env w))) =
      (Uids (db w) ++ [doc])%list /\
    userId doc = apiUserId req /\ apiKeyId doc = Some (key_id (apiKeyDoc req)) /\
    uidValue doc = uid /\ planId doc = 1 /\ duration doc = 24 /\ cost doc = 0 /\
    status doc = "active" /\ createdAt doc = now env /\
    expiresAt doc = (now env + 24 * JSDate.msPerHour)%Z /\
    logged w (after (handleAddUidFree player_service req env w))
           (apiUserId req) "create_uid_api_free".
Proof.
  intros Hz Hr. unfold response, after in *.
  destruct (handleAddUidFree_cases req env w) as [[c [e [H Hc]]]|H].
  { rewrite H in Hr. cbn in Hr. inversion Hr. congruence. }
  destruct H as [uid [user [H1 [H2 [H3 H4]]]]].
  destruct (handleAddUidFree_commit req env w uid user H1 H2 H3 H4) as [player H].
  rewrite H in Hr |- *. clear H.
  match type of Hr with
  | context [UidModel_save ?f env ?w1] =>
      destruct (UidModel_save_cases f env w1) as [[m Hs]|[doc [Hb [_ Hs]]]];
        rewrite Hs in Hr |- *
  end.
  { cbn in Hr. discriminate. }
  apply build_fields in Hb. destruct Hb as [ex [He Hd]].
  rewrite (setHours_whole _ _ 24 24 Hz) in He by (reflexivity || lia).
  apply TimeClip_some in He.
  exists uid, doc. cbn [fst snd db sent Users Uids ActivityLogs
    with_ActivityLogs with_fresh with_Uids with_Users].
  subst doc ex. cbn [userId apiKeyId uidValue planId duration cost status createdAt
                     expiresAt].
  repeat split; try reflexivity; try assumption.
  unfold logged. do 2 eexists. cbn [db ActivityLogs with_ActivityLogs with_fresh
    with_Uids with_Users]. reflexivity.
Qed.

End Handler.

Lemma paid_add_debits_the_plan_price_witness :
  response (handleAddUid Fixtures.DEFAULT_PLANS Fixtures.no_names
              (Fixtures.add_request "k1" "u1" "NEW123456" (Some 2%Q) None)
              (Sample.env_with Sample.service_up) (Sample.world 50%Q)) =
    Some (json (AddedJson "oid3" "NEW123456" None "PK" 2 "3 days" 3
                          1761220800000 1761480000000 None 25)) /\
  exists uid plan_id plan user doc,
    body_uid (Fixtures.add_request "k1" "u1" "NEW123456" (Some 2%Q) None) = Some uid /\
    body_plan_id (Fixtures.add_request "k1" "u1" "NEW123456" (Some 2%Q) None) =
      Some plan_id /\
    find_plan Fixtures.DEFAULT_PLANS plan_id = Some plan /\
    lookup_user (db (Sample.world 50%Q)) "u1" = Some user /\
    (creditsCost plan <= credits user)%Q /\
    Uids (db (after (handleAddUid Fixtures.DEFAULT_PLANS Fixtures.no_names
                       (Fixtures.add_request "k1" "u1" "NEW123456" (Some 2%Q) None)
                       (Sample.env_with Sample.service_up) (Sample.world 50%Q)))) =
      (Uids (db (Sample.world 50%Q)) ++ [doc])%list /\
    cost doc = creditsCost plan.
Proof.
  assert (Hr : response (handleAddUid Fixtures.DEFAULT_PLANS Fixtures.no_names
                           (Fixtures.add_request "k1" "u1" "NEW123456" (Some 2%Q) None)
                           (Sample.env_with Sample.service_up) (Sample.world 50%Q)) =
               Some (json (AddedJson "oid3" "NEW123456" None "PK" 2 "3 days" 3
                                     1761220800000 1761480000000 None 25)))
    by (vm_compute; reflexivity).
  split; [exact Hr|].
  destruct (paid_add_debits_the_plan_price Fixtures.DEFAULT_PLANS Fixtures.no_names
              _ _ _ _ Hr)
    as (uid & pid & plan & user & doc & H1 & H2 & H3 & H4 & H5 & _ & H7 & _ & _ & _ & _ & _
        & H13 & _).
  exists uid, pid, plan, user, doc. repeat split; assumption.
Defined.

Lemma debit_stays_when_the_uid_is_refused_witness :
  lookup_user (db (Sample.world 50%Q)) "u1" =
    Some (Sample.user "u1" "alice" false 50%Q) /\
  (exists error,
      response (api_handler (handleAddUid Fixtures.DEFAULT_PLANS Fixtures.no_names)
                  (Fixtures.add_request "k1" "u1" "NEW123456" (Some 2%Q) (Some EmptyString))
                  (Sample.env_with Sample.service_up) (Sample.world 50%Q)) =
        Some (error_json 500 error)) /\
  lookup_user
    (db (after (api_handler (handleAddUid Fixtures.DEFAULT_PLANS Fixtures.no_names)
                  (Fixtures.add_request "k1" "u1" "NEW123456" (Some 2%Q) (Some EmptyString))
                  (Sample.env_with Sample.service_up) (Sample.world 50%Q)))) "u1" =
    Some (set_credits (sub 50%Q 25%Q) (Sample.user "u1" "alice" false 50%Q)) /\
  Uids (db (after (api_handler (handleAddUid Fixtures.DEFAULT_PLANS Fixtures.no_names)
                     (Fixtures.add_request "k1" "u1" "NEW123456" (Some 2%Q)
                                           (Some EmptyString))
                     (Sample.env_with Sample.service_up) (Sample.world 50%Q)))) =
    Uids (db (Sample.world 50%Q)).
Proof.
  assert (Hu : lookup_user (db (Sample.world 50%Q)) "u1" =
               Some (Sample.user "u1" "alice" false 50%Q)) by reflexivity.
  split; [exact Hu|].
  destruct (debit_stays_when_the_uid_is_refused Fixtures.DEFAULT_PLANS Fixtures.no_names
              (Fixtures.add_request "k1" "u1" "NEW123456" (Some 2%Q) (Some EmptyString))
              (Sample.env_with Sample.service_up) (Sample.world 50%Q)
              "NEW123456" 2%Q
              {| code := 2; name := "3 days"; days := 3; creditsCost := 25;
                 plan_isActive := true |}
              (Sample.user "u1" "alice" false 50%Q)
              eq_refl ltac:(discriminate) eq_refl eq_refl eq_refl eq_refl eq_refl Hu
              eq_refl eq_refl)
    as (H1 & H2 & H3 & _).
  split; [exact H1|]. split; [exact H2|exact H3].
Defined.

Lemma free_add_costs_nothing_witness :
  fixed_offset (LocalTZA (Sample.env_with Sample.service_up)) /\
  response (handleAddUidFree Fixtures.no_names
              (Fixtures.add_request "k1" "u1" "NEW123456" None None)
              (Sample.env_with Sample.service_up) (Sample.world 50%Q)) =
    Some (json (AddedJson "oid3" "NEW123456" None "PK" 1 "1 day" 1
                          1761220800000 1761307200000 (Some 0) 50)) /\
  exists uid doc,
    body_uid (Fixtures.add_request "k1" "u1" "NEW123456" None None) = Some uid /\
    Users (db (after (handleAddUidFree Fixtures.no_names
                        (Fixtures.add_request "k1" "u1" "NEW123456" None None)
                        (Sample.env_with Sample.service_up) (Sample.world 50%Q)))) =
      Users (db (Sample.world 50%Q)) /\
    Uids (db (after (handleAddUidFree Fixtures.no_names
                       (Fixtures.add_request "k1" "u1" "NEW123456" None None)
                       (Sample.env_with Sample.service_up) (Sample.world 50%Q)))) =
      (Uids (db (Sample.world 50%Q)) ++ [doc])%list /\
    expiresAt doc = (now (Sample.env_with Sample.service_up) + 24 * JSDate.msPerHour)%Z.
Proof.
  assert (Hz : fixed_offset (LocalTZA (Sample.env_with Sample.service_up)))
    by (exists 0%Z; reflexivity).
  assert (Hr : response (handleAddUidFree Fixtures.no_names
                           (Fixtures.add_request "k1" "u1" "NEW123456" None None)
                           (Sample.env_with Sample.service_up) (Sample.world 50%Q)) =
               Some (json (AddedJson "oid3" "NEW123456" None "PK" 1 "1 day" 1
                                     1761220800000 1761307200000 (Some 0) 50)))
    by (vm_compute; reflexivity).
  split; [exact Hz|]. split; [exact Hr|].
  destruct (free_add_costs_nothing Fixtures.no_names _ _ _ _ Hz Hr)
    as (uid & doc & H1 & H2 & H3 & _ & _ & _ & _ & _ & _ & _ & _ & H12 & _).
  exists uid, doc. repeat split; assumption.
Defined.

Lemma active_slots_after_removal (l : list IUid) doc k :
  NoDup (map uid_id l) -> In doc l -> apiKeyId doc = Some k ->
  Z.of_nat (List.length
              (filter (fun u => ApiHandler.opt_eqb (apiKeyId u) k && (status u =? "active"))
                      (updateById uid_id l (uid_id doc) (set_status "deleted")))) =
  (if status doc =? "active"
   then Z.pred (Z.of_nat (List.length
                            (filter (fun u => ApiHandler.opt_eqb (apiKeyId u) k &&
                                              (status u =? "active")) l)))
   else Z.of_nat (List.length
                    (filter (fun u => ApiHandler.opt_eqb (apiKeyId u) k &&
                                      (status u =? "active")) l))).
Proof.
  intros Hn Hin Hk.
  set (p := fun u : IUid => ApiHandler.opt_eqb (apiKeyId u) k && (status u =? "active")).
  assert (Hp1 : p (set_status "deleted" doc) = false).
  { unfold p. cbn [set_status status]. apply andb_false_r. }
  assert (Hp2 : p doc = (status doc =? "active")).
  { unfold p. rewrite Hk. cbn [ApiHandler.opt_eqb]. rewrite String.eqb_refl. reflexivity. }
  induction l as [|d l IH]; [contradiction|].
  cbn [updateById]. destruct (uid_id d =? uid_id doc) eqn:E.
  - apply String.eqb_eq in E.
    assert (d = doc).
    { apply (ApiFacts.same_id_same_doc (d :: l)); [exact Hn|left; reflexivity|exact Hin|exact E]. }
    subst d. cbn [filter]. rewrite Hp1, Hp2.
    destruct (status doc =? "active"); cbn [List.length]; lia.
  - inversion Hn as [|? ? Hd Hn']; subst.
    assert (Hin' : In doc l).
    { destruct Hin as [->|Hin]; [rewrite String.eqb_refl in E; discriminate|exact Hin]. }
    specialize (IH Hn' Hin'). cbn [filter].
    destruct (p d); cbn [List.length]; destruct (status doc =? "active"); lia.
Qed.

(** X22: Removing a UID through the API frees a place under the UID limit
    of the key: the limit of [handleAddUid] and [handleAddUidFree] counts
    the UIDs of the key whose status is 'active', and a remove request that
    succeeds lowers that count by one when the UID removed was active and
    leaves it when it was not. *)
Theorem removal_frees_a_place_under_the_limit req env w id v pn doc :
  unique_ids (db w) ->
  response (ApiHandler.handleRemoveUid req env w) =
    Some (ApiHandler.json (ApiHandler.RemovedJson id v pn)) ->
  lookup_uid (db w) id = Some doc ->
  countActive (db (after (ApiHandler.handleRemoveUid req env w)))
              (key_id (ApiHandler.apiKeyDoc req)) =
  (if status doc =? "active"
   then Z.pred (countActive (db w) (key_id (ApiHandler.apiKeyDoc req)))
   else countActive (db w) (key_id (ApiHandler.apiKeyDoc req))).
Proof.
  intros Hu Hr Hl.
  destruct (ApiFacts.handleRemoveUid_inv _ _ _ _ Hr) as [Hg [doc0 Hf]].
  pose proof (handleRemoveUid_found req env w doc0 Hg Hf) as H.
  unfold response, after in *. rewrite H in Hr |- *. cbn [fst snd] in *.
  inversion Hr; subst id v pn.
  destruct (ApiFacts.selected_created_by _ _ _ Hf) as [Hin Hc].
  assert (doc = doc0).
  { unfold lookup_uid in Hl. rewrite (findById_unique _ uid_id _ doc0 Hu Hin) in Hl.
    congruence. }
  subst doc0. unfold countActive.
  cbn [db Uids with_ActivityLogs with_Uids].
  apply active_slots_after_removal; [exact Hu | exact Hin | exact Hc].
Qed.

Lemma removal_frees_a_place_under_the_limit_witness :
  unique_ids (db (Sample.world 50%Q)) /\
  response (ApiHandler.handleRemoveUid (Sample.api_request "k1" "u1" "ABC123" None)
              (Sample.env_with Sample.service_up) (Sample.world 50%Q)) =
    Some (ApiHandler.json (ApiHandler.RemovedJson "d1" "ABC123" None)) /\
  lookup_uid (db (Sample.world 50%Q)) "d1" =
    Some (Sample.uid_doc "d1" "u1" "ABC123" "active" (Some "k1")) /\
  countActive (db (Sample.world 50%Q)) "k1" = 1%Z /\
  countActive (db (after (ApiHandler.handleRemoveUid
                            (Sample.api_request "k1" "u1" "ABC123" None)
                            (Sample.env_with Sample.service_up) (Sample.world 50%Q))))
              "k1" = 0%Z.
Proof.
  assert (Hu : unique_ids (db (Sample.world 50%Q))).
  { unfold unique_ids. cbn. repeat constructor; cbn; intuition discriminate. }
  assert (Hr : response (ApiHandler.handleRemoveUid
                           (Sample.api_request "k1" "u1" "ABC123" None)
                           (Sample.env_with Sample.service_up) (Sample.world 50%Q)) =
               Some (ApiHandler.json (ApiHandler.RemovedJson "d1" "ABC123" None)))
    by reflexivity.
  assert (Hl : lookup_uid (db (Sample.world 50%Q)) "d1" =
               Some (Sample.uid_doc "d1" "u1" "ABC123" "active" (Some "k1")))
    by reflexivity.
  split; [exact Hu|]. split; [exact Hr|]. split; [exact Hl|]. split; [reflexivity|].
  exact (removal_frees_a_place_under_the_limit _ _ _ _ _ _ _ Hu Hr Hl).
Defined.

End AddFacts.
